(** * Test-case storage: the persistent and the in-memory adapter

    A shallow embedding of [server/storage.ts] (classes [SupabaseStorage] and
    [MemStorage]), of the row types of the shared schema and of the
    [POST /api/testcases] handler of [server/routes.ts], followed by the
    properties of the versioning and consistency rules.

    Conventions.
    - A JS [number] is a [Z]; a [Date] is a [Z] (milliseconds); [text] is a
      [string]; a nullable column is an [option].
    - An [async] method is a function of the store returning an [Outcome]:
      [Returned v] for a resolved promise, [Thrown e] for a rejected one.
    - The remote store is a record of tables (lists of rows in insertion
      order).  Every request may be refused by the backend: the [faults]
      oracle of the [World] gives, request by request, whether it is. *)

From stdpp Require Import gmap strings list pretty.
From Stdlib Require Import ZArith Sorting.Sorted.

Open Scope Z_scope.

Set Warnings "-clear-no-such-hyp".

(** ** Row types (shared schema) *)

Module Schema.

Record User := mkUser {
  u_id : Z; u_username : string; u_email : string; u_password : string;
  u_full_name : string; u_avatar : option string; u_role : string;
  u_last_login : option Z; u_is_active : bool }.

Record InsertUser := mkInsertUser {
  iu_username : string; iu_email : string; iu_password : string;
  iu_full_name : string; iu_avatar : option string; iu_role : string;
  iu_is_active : bool }.

Record Folder := mkFolder {
  f_id : Z; f_name : string; f_description : option string;
  f_created_by : option Z; f_created_at : Z }.

Record InsertFolder := mkInsertFolder {
  if_name : string; if_description : option string; if_created_by : option Z }.

Record TestCase := mkTestCase {
  tc_id : Z; tc_title : string; tc_description : option string;
  tc_status : string; tc_priority : string; tc_type : string;
  tc_assigned_to : option Z; tc_created_by : Z;
  tc_created_at : Z; tc_updated_at : Z; tc_last_run : option Z;
  tc_expected_result : option string; tc_version : Z }.

(** [InsertTestCase]: the row without [id], [created_at], [updated_at],
    [last_run] and [version]. *)
Record InsertTestCase := mkInsertTestCase {
  itc_title : string; itc_description : option string; itc_status : string;
  itc_priority : string; itc_type : string; itc_assigned_to : option Z;
  itc_created_by : Z; itc_expected_result : option string }.

(** [Partial<InsertTestCase>]: every field may be absent. *)
Record TestCasePatch := mkTestCasePatch {
  p_title : option string; p_description : option (option string);
  p_status : option string; p_priority : option string;
  p_type : option string; p_assigned_to : option (option Z);
  p_created_by : option Z; p_expected_result : option (option string) }.

Record TestStep := mkTestStep {
  ts_id : Z; ts_test_case_id : Z; ts_step_number : Z;
  ts_description : string; ts_expected_result : option string }.

Record InsertTestStep := mkInsertTestStep {
  its_test_case_id : Z; its_step_number : Z;
  its_description : string; its_expected_result : option string }.

(** A step of [TestCaseWithSteps]: an [InsertTestStep] without
    [test_case_id]. *)
Record StepInput := mkStepInput {
  si_step_number : Z; si_description : string;
  si_expected_result : option string }.

Record TestCaseWithSteps := mkTestCaseWithSteps {
  tcs_case : InsertTestCase; tcs_steps : list StepInput }.

(** [data] is the jsonb snapshot of the test case at this version. *)
Record TestVersion := mkTestVersion {
  tv_id : Z; tv_test_case_id : Z; tv_version : Z; tv_data : TestCase;
  tv_created_by : Z; tv_created_at : Z; tv_change_comment : option string }.

Record InsertTestVersion := mkInsertTestVersion {
  itv_test_case_id : Z; itv_version : Z; itv_data : TestCase;
  itv_created_by : Z; itv_change_comment : option string }.

Record TestCaseFolder := mkTestCaseFolder {
  tcf_id : Z; tcf_test_case_id : Z; tcf_folderId : Z }.

Record TestRunResult := mkTestRunResult {
  trr_id : Z; trr_runId : Z; trr_test_case_id : Z; trr_status : string;
  trr_notes : option string; trr_executed_by : Z; trr_executed_at : Z;
  trr_duration : option Z }.

Record InsertTestRunResult := mkInsertTestRunResult {
  itrr_runId : Z; itrr_test_case_id : Z; itrr_status : string;
  itrr_notes : option string; itrr_executed_by : Z }.

Record ActivityLog := mkActivityLog {
  al_id : Z; al_user_id : Z; al_action : string; al_entity_type : string;
  al_entity_id : Z; al_details : option string; al_timestamp : Z }.

Record InsertActivityLog := mkInsertActivityLog {
  ial_user_id : Z; ial_action : string; ial_entity_type : string;
  ial_entity_id : Z; ial_details : option string }.

(** [{ ...row, ...data }] for a test case. *)
Definition apply_patch (p : TestCasePatch) (tc : TestCase) : TestCase :=
  {| tc_id := tc_id tc;
     tc_title := default (tc_title tc) (p_title p);
     tc_description := default (tc_description tc) (p_description p);
     tc_status := default (tc_status tc) (p_status p);
     tc_priority := default (tc_priority tc) (p_priority p);
     tc_type := default (tc_type tc) (p_type p);
     tc_assigned_to := default (tc_assigned_to tc) (p_assigned_to p);
     tc_created_by := default (tc_created_by tc) (p_created_by p);
     tc_created_at := tc_created_at tc;
     tc_updated_at := tc_updated_at tc;
     tc_last_run := tc_last_run tc;
     tc_expected_result :=
       default (tc_expected_result tc) (p_expected_result p);
     tc_version := tc_version tc |}.

(** [{ status }]: the patch of [updateTestCaseStatus]. *)
Definition set_status (s : string) (tc : TestCase) : TestCase :=
  {| tc_id := tc_id tc; tc_title := tc_title tc;
     tc_description := tc_description tc; tc_status := s;
     tc_priority := tc_priority tc; tc_type := tc_type tc;
     tc_assigned_to := tc_assigned_to tc; tc_created_by := tc_created_by tc;
     tc_created_at := tc_created_at tc; tc_updated_at := tc_updated_at tc;
     tc_last_run := tc_last_run tc;
     tc_expected_result := tc_expected_result tc;
     tc_version := tc_version tc |}.

Definition empty_patch : TestCasePatch :=
  mkTestCasePatch None None None None None None None None.

End Schema.

Export Schema.

(** ** Outcomes of asynchronous calls *)

Inductive PgError := BackendUnavailable | NotSingleRow | Rejected.

(** The [{ data, error }] object a request resolves to. *)
Inductive Response (A : Type) := Data (a : A) | Failure (e : PgError).
Arguments Data {A} a.
Arguments Failure {A} e.

(** A settled promise. *)
Inductive Outcome (A : Type) := Returned (a : A) | Thrown (e : PgError).
Arguments Returned {A} a.
Arguments Thrown {A} e.

Definition is_returned {A} (o : Outcome A) : bool :=
  match o with Returned _ => true | Thrown _ => false end.

(** ** The persistent adapter: [SupabaseStorage] *)

Module Supabase.

(** The remote store: its tables, the next value of each table's [serial]
    id, the clock behind [defaultNow()], and the oracle saying which of the
    coming requests the backend refuses ([true]: refused).  An exhausted
    oracle refuses nothing. *)
Record World := mkWorld {
  folders : list Folder;
  test_cases : list TestCase;
  test_steps : list TestStep;
  test_versions : list TestVersion;
  test_case_folders : list TestCaseFolder;
  test_run_results : list TestRunResult;
  activity_logs : list ActivityLog;
  serial : gmap string Z;
  now : Z;
  faults : list bool }.

Definition with_test_cases (x : list TestCase) (w : World) : World :=
  mkWorld (folders w) x (test_steps w) (test_versions w)
    (test_case_folders w) (test_run_results w) (activity_logs w)
    (serial w) (now w) (faults w).

Definition with_test_steps (x : list TestStep) (w : World) : World :=
  mkWorld (folders w) (test_cases w) x (test_versions w)
    (test_case_folders w) (test_run_results w) (activity_logs w)
    (serial w) (now w) (faults w).

Definition with_test_versions (x : list TestVersion) (w : World) : World :=
  mkWorld (folders w) (test_cases w) (test_steps w) x
    (test_case_folders w) (test_run_results w) (activity_logs w)
    (serial w) (now w) (faults w).

Definition with_test_case_folders (x : list TestCaseFolder) (w : World)
  : World :=
  mkWorld (folders w) (test_cases w) (test_steps w) (test_versions w)
    x (test_run_results w) (activity_logs w)
    (serial w) (now w) (faults w).

Definition with_test_run_results (x : list TestRunResult) (w : World)
  : World :=
  mkWorld (folders w) (test_cases w) (test_steps w) (test_versions w)
    (test_case_folders w) x (activity_logs w)
    (serial w) (now w) (faults w).

Definition with_activity_logs (x : list ActivityLog) (w : World) : World :=
  mkWorld (folders w) (test_cases w) (test_steps w) (test_versions w)
    (test_case_folders w) (test_run_results w) x
    (serial w) (now w) (faults w).

Definition with_serial (x : gmap string Z) (w : World) : World :=
  mkWorld (folders w) (test_cases w) (test_steps w) (test_versions w)
    (test_case_folders w) (test_run_results w) (activity_logs w)
    x (now w) (faults w).

Definition with_faults (x : list bool) (w : World) : World :=
  mkWorld (folders w) (test_cases w) (test_steps w) (test_versions w)
    (test_case_folders w) (test_run_results w) (activity_logs w)
    (serial w) (now w) x.

(** A [serial] column starts at 1. *)
Definition next_id (table : string) (w : World) : Z :=
  default 1 (serial w !! table).

Definition bump (table : string) (n : Z) (w : World) : World :=
  with_serial (<[table := next_id table w + n]> (serial w)) w.

(** One round trip: the oracle decides whether the backend answers. *)
Definition request {A} (q : World -> Response A * World) (w : World)
  : Response A * World :=
  match faults w with
  | true :: fs => (Failure BackendUnavailable, with_faults fs w)
  | false :: fs => q (with_faults fs w)
  | [] => q w
  end.

Definition tc_has_id (id : Z) (tc : TestCase) : bool := tc_id tc =? id.
Definition step_of (id : Z) (s : TestStep) : bool := ts_test_case_id s =? id.
Definition version_of (id : Z) (v : TestVersion) : bool :=
  tv_test_case_id v =? id.
Definition is_pair (tc f : Z) (r : TestCaseFolder) : bool :=
  (tcf_test_case_id r =? tc) && (tcf_folderId r =? f).

(** [.single()]: exactly one row, or an error. *)
Definition single {A} (rows : list A) : Response A :=
  match rows with
  | [r] => Data r
  | _ => Failure NotSingleRow
  end.

(** *** Requests *)

(** [from("test_cases").insert([testCase]).select().single()]: the columns
    left out take their defaults. *)
Definition new_test_case (i : InsertTestCase) (w : World) : TestCase :=
  {| tc_id := next_id "test_cases" w;
     tc_title := itc_title i; tc_description := itc_description i;
     tc_status := itc_status i; tc_priority := itc_priority i;
     tc_type := itc_type i; tc_assigned_to := itc_assigned_to i;
     tc_created_by := itc_created_by i;
     tc_created_at := now w; tc_updated_at := now w; tc_last_run := None;
     tc_expected_result := itc_expected_result i; tc_version := 1 |}.

Definition insert_test_case (i : InsertTestCase)
  : World -> Response TestCase * World :=
  request (fun w =>
    let row := new_test_case i w in
    (Data row, bump "test_cases" 1 (with_test_cases (test_cases w ++ [row]) w))).

Definition new_test_step (base : Z) (k : nat) (s : InsertTestStep) : TestStep :=
  {| ts_id := base + Z.of_nat k; ts_test_case_id := its_test_case_id s;
     ts_step_number := its_step_number s;
     ts_description := its_description s;
     ts_expected_result := its_expected_result s |}.

(** [from("test_steps").insert(rows)]; an empty array inserts nothing. *)
Definition insert_test_steps (rows : list InsertTestStep)
  : World -> Response unit * World :=
  request (fun w =>
    let new := imap (new_test_step (next_id "test_steps" w)) rows in
    (Data tt,
     bump "test_steps" (Z.of_nat (length rows))
       (with_test_steps (test_steps w ++ new) w))).

(** [from("test_cases").select().eq("id", id).single()] *)
Definition select_test_case (id : Z) : World -> Response TestCase * World :=
  request (fun w => (single (filter (fun tc => tc_has_id id tc) (test_cases w)), w)).

(** [from("test_cases").update(data).eq("id", id).select().single()]:
    nothing is written unless exactly one row matches. *)
Definition update_test_case (id : Z) (data : TestCasePatch)
  : World -> Response TestCase * World :=
  request (fun w =>
    match single (filter (fun tc => tc_has_id id tc) (test_cases w)) with
    | Data old =>
        (Data (apply_patch data old),
         with_test_cases
           (map (fun tc => if tc_has_id id tc then apply_patch data tc else tc)
              (test_cases w)) w)
    | Failure e => (Failure e, w)
    end).

(** [from("test_cases").update({ status }).eq("id", id)]: no row matching
    is not an error. *)
Definition update_test_case_status_row (id : Z) (status : string)
  : World -> Response unit * World :=
  request (fun w =>
    (Data tt,
     with_test_cases
       (map (fun tc => if tc_has_id id tc then set_status status tc else tc)
          (test_cases w)) w)).

(** [from("test_steps").delete().eq("test_case_id", id)] *)
Definition delete_test_steps (id : Z) : World -> Response unit * World :=
  request (fun w =>
    (Data tt,
     with_test_steps (filter (fun s => negb (step_of id s)) (test_steps w)) w)).

(** [from("test_cases").delete().eq("id", id)] *)
Definition delete_test_case (id : Z) : World -> Response unit * World :=
  request (fun w =>
    (Data tt,
     with_test_cases
       (filter (fun tc => negb (tc_has_id id tc)) (test_cases w)) w)).

(** [from("test_steps").select().eq("test_case_id", id)] *)
Definition select_test_steps (id : Z)
  : World -> Response (list TestStep) * World :=
  request (fun w => (Data (filter (fun s => step_of id s) (test_steps w)), w)).

(** [from("test_versions").select().eq("test_case_id", id)] *)
Definition select_test_versions (id : Z)
  : World -> Response (list TestVersion) * World :=
  request (fun w =>
    (Data (filter (fun v => version_of id v) (test_versions w)), w)).

Definition new_test_version (i : InsertTestVersion) (w : World) : TestVersion :=
  {| tv_id := next_id "test_versions" w;
     tv_test_case_id := itv_test_case_id i; tv_version := itv_version i;
     tv_data := itv_data i; tv_created_by := itv_created_by i;
     tv_created_at := now w; tv_change_comment := itv_change_comment i |}.

(** [from("test_versions").insert([version]).select().single()] *)
Definition insert_test_version (i : InsertTestVersion)
  : World -> Response TestVersion * World :=
  request (fun w =>
    let row := new_test_version i w in
    (Data row,
     bump "test_versions" 1 (with_test_versions (test_versions w ++ [row]) w))).

(** [from("test_case_folders").delete().eq("test_case_id", tc)
      .eq("folderId", f)] *)
Definition delete_test_case_folder (tc f : Z)
  : World -> Response unit * World :=
  request (fun w =>
    (Data tt,
     with_test_case_folders
       (filter (fun r => negb (is_pair tc f r)) (test_case_folders w)) w)).

Definition new_test_run_result (i : InsertTestRunResult) (w : World)
  : TestRunResult :=
  {| trr_id := next_id "test_run_results" w; trr_runId := itrr_runId i;
     trr_test_case_id := itrr_test_case_id i; trr_status := itrr_status i;
     trr_notes := itrr_notes i; trr_executed_by := itrr_executed_by i;
     trr_executed_at := now w; trr_duration := None |}.

(** [from("test_run_results").insert([result]).select().single()] *)
Definition insert_test_run_result (i : InsertTestRunResult)
  : World -> Response TestRunResult * World :=
  request (fun w =>
    let row := new_test_run_result i w in
    (Data row,
     bump "test_run_results" 1
       (with_test_run_results (test_run_results w ++ [row]) w))).

Definition new_activity_log (i : InsertActivityLog) (w : World) : ActivityLog :=
  {| al_id := next_id "activity_logs" w; al_user_id := ial_user_id i;
     al_action := ial_action i; al_entity_type := ial_entity_type i;
     al_entity_id := ial_entity_id i; al_details := ial_details i;
     al_timestamp := now w |}.

(** [from("activity_logs").insert([log]).select().single()] *)
Definition insert_activity_log (i : InsertActivityLog)
  : World -> Response ActivityLog * World :=
  request (fun w =>
    let row := new_activity_log i w in
    (Data row,
     bump "activity_logs" 1 (with_activity_logs (activity_logs w ++ [row]) w))).

(** [from("folders").select().eq("id", id).single()] *)
Definition select_folder (id : Z) : World -> Response Folder * World :=
  request (fun w => (single (filter (fun f => f_id f =? id) (folders w)), w)).

(** *** Methods of [SupabaseStorage] *)

Definition Async (A : Type) : Type := World -> Outcome A * World.

Definition createTestCase (testCaseWithSteps : TestCaseWithSteps)
  : Async TestCase := fun w =>
  let steps := tcs_steps testCaseWithSteps in
  let testCase := tcs_case testCaseWithSteps in
  let '(r, w1) := insert_test_case testCase w in
  match r with
  | Failure testCaseError => (Thrown testCaseError, w1)
  | Data newTestCase =>
      if (0 <? Z.of_nat (length steps)) then
        let stepsWithtest_case_id :=
          map (fun step =>
                 mkInsertTestStep (tc_id newTestCase) (si_step_number step)
                   (si_description step) (si_expected_result step)) steps in
        let '(r2, w2) := insert_test_steps stepsWithtest_case_id w1 in
        match r2 with
        | Failure stepsError => (Thrown stepsError, w2)
        | Data _ => (Returned newTestCase, w2)
        end
      else (Returned newTestCase, w1)
  end.

Definition getTestCase (id : Z) : Async (option TestCase) := fun w =>
  let '(r, w1) := select_test_case id w in
  match r with
  | Failure _ => (Returned None, w1)
  | Data data => (Returned (Some data), w1)
  end.

Definition getTestSteps (test_case_id : Z) : Async (list TestStep) := fun w =>
  let '(r, w1) := select_test_steps test_case_id w in
  match r with
  | Failure _ => (Returned [], w1)
  | Data data => (Returned data, w1)
  end.

(** [{ ...step, test_case_id: id }] *)
Definition with_test_case_id (id : Z) (step : InsertTestStep) : InsertTestStep :=
  mkInsertTestStep id (its_step_number step) (its_description step)
    (its_expected_result step).

(** [steps?]: [None] when the argument is omitted; [if (steps)] holds for
    every array, the empty one included. *)
Definition updateTestCase (id : Z) (data : TestCasePatch)
    (steps : option (list InsertTestStep)) : Async (option TestCase) := fun w =>
  let '(r, w1) := update_test_case id data w in
  match r with
  | Failure _ => (Returned None, w1)
  | Data updatedTestCase =>
      match steps with
      | None => (Returned (Some updatedTestCase), w1)
      | Some steps =>
          let '(r2, w2) := delete_test_steps id w1 in
          match r2 with
          | Failure _ => (Returned None, w2)
          | Data _ =>
              let stepsWithtest_case_id := map (with_test_case_id id) steps in
              let '(r3, w3) := insert_test_steps stepsWithtest_case_id w2 in
              match r3 with
              | Failure _ => (Returned None, w3)
              | Data _ => (Returned (Some updatedTestCase), w3)
              end
          end
      end
  end.

Definition deleteTestCase (id : Z) : Async bool := fun w =>
  let '(r, w1) := delete_test_steps id w in
  match r with
  | Failure _ => (Returned false, w1)
  | Data _ =>
      let '(r2, w2) := delete_test_case id w1 in
      match r2 with
      | Failure _ => (Returned false, w2)
      | Data _ => (Returned true, w2)
      end
  end.

Definition createTestVersion (version : InsertTestVersion)
  : Async TestVersion := fun w =>
  let '(r, w1) := insert_test_version version w in
  match r with
  | Failure error => (Thrown error, w1)
  | Data data => (Returned data, w1)
  end.

Definition getTestVersions (test_case_id : Z) : Async (list TestVersion) :=
  fun w =>
  let '(r, w1) := select_test_versions test_case_id w in
  match r with
  | Failure _ => (Returned [], w1)
  | Data data => (Returned data, w1)
  end.

(** [versions[version - 1]]: the element at that position, [undefined]
    (here [None]) when there is none. *)
Definition version_at (versions : list TestVersion) (version : Z)
  : option TestVersion :=
  if version - 1 <? 0 then None else versions !! Z.to_nat (version - 1).

Section Revert.

(** [revertToVersion] hands a whole [test_versions] row (or [undefined]) to
    [from("test_cases").update(...)].  What the store answers to a payload
    that is not a test-case patch is fixed by the store, not by this
    repository: it is the parameter [row_update], giving the new content of
    [test_cases] or the error. *)
Variable row_update :
  option TestVersion -> Z -> list TestCase -> Response (list TestCase).

Definition update_test_case_with_row (payload : option TestVersion) (id : Z)
  : World -> Response unit * World :=
  request (fun w =>
    match row_update payload id (test_cases w) with
    | Data rows => (Data tt, with_test_cases rows w)
    | Failure e => (Failure e, w)
    end).

Definition revertToVersion (test_case_id version : Z) : Async bool := fun w =>
  let '(r, w1) := select_test_versions test_case_id w in
  match r with
  | Failure _ => (Returned false, w1)
  | Data versions =>
      if (Z.of_nat (length versions) =? 0) then (Returned false, w1)
      else
        let '(r2, w2) :=
          update_test_case_with_row (version_at versions version)
            test_case_id w1 in
        match r2 with
        | Failure _ => (Returned false, w2)
        | Data _ => (Returned true, w2)
        end
  end.

End Revert.

Definition removeTestCaseFromFolder (test_case_id folderId : Z)
  : Async bool := fun w =>
  let '(r, w1) := delete_test_case_folder test_case_id folderId w in
  match r with
  | Failure _ => (Returned false, w1)
  | Data _ => (Returned true, w1)
  end.

(** The error of the status update is logged only. *)
Definition updateTestCaseStatus (test_case_id : Z) (status : string)
  : Async unit := fun w =>
  let '(_, w1) := update_test_case_status_row test_case_id status w in
  (Returned tt, w1).

Definition createTestRunResult (result : InsertTestRunResult)
  : Async TestRunResult := fun w =>
  let '(r, w1) := insert_test_run_result result w in
  match r with
  | Failure error => (Thrown error, w1)
  | Data insertedResult =>
      let '(_, w2) :=
        updateTestCaseStatus (itrr_test_case_id result) (itrr_status result)
          w1 in
      (Returned insertedResult, w2)
  end.

Definition logActivity (log : InsertActivityLog) : Async ActivityLog :=
  fun w =>
  let '(r, w1) := insert_activity_log log w in
  match r with
  | Failure error => (Thrown error, w1)
  | Data data => (Returned data, w1)
  end.

Definition getFolder (id : Z) : Async (option Folder) := fun w =>
  let '(r, w1) := select_folder id w in
  match r with
  | Failure _ => (Returned None, w1)
  | Data data => (Returned (Some data), w1)
  end.

(** "not yet implemented using supabase": the two counts answer [[]]
    without a request. *)
Definition getTestCountByFolder : Async (list (Z * Z)) :=
  fun w => (Returned [], w).

Definition getTestStatusCounts : Async (list (string * option Z)) :=
  fun w => (Returned [], w).

(** An empty store whose backend refuses nothing. *)
Definition empty (t : Z) : World :=
  mkWorld [] [] [] [] [] [] [] ∅ t [].

End Supabase.

(** ** JS [Map]: keys in insertion order *)

Module JsMap.

Definition t (V : Type) : Type := list (Z * V).

Section Ops.
Context {V : Type}.

Fixpoint get (k : Z) (m : t V) : option V :=
  match m with
  | [] => None
  | (k', v) :: rest => if k' =? k then Some v else get k rest
  end.

Definition has (k : Z) (m : t V) : bool :=
  match get k m with Some _ => true | None => false end.

(** [set] keeps the position of a key already present and appends a new
    one. *)
Fixpoint set (k : Z) (v : V) (m : t V) : t V :=
  match m with
  | [] => [(k, v)]
  | (k', v') :: rest =>
      if k' =? k then (k, v) :: rest else (k', v') :: set k v rest
  end.

Definition values (m : t V) : list V := map snd m.

Definition entries (m : t V) : list (Z * V) := m.

End Ops.

End JsMap.

(** ** The in-memory adapter: [MemStorage] *)

Module Mem.

(** The maps and id counters of the instance; the maps and counters of
    runs, bugs, whiteboards and AI test cases, which none of the methods
    below reads or writes, are left out.  [clock] and [ticks] stand for the
    system clock: the k-th evaluation of [new Date()] on the instance reads
    [clock k]. *)
Record MemStorage := mkMemStorage {
  users : JsMap.t User;
  folders : JsMap.t Folder;
  testCases : JsMap.t TestCase;
  testSteps : JsMap.t (list TestStep);
  testVersions : JsMap.t (list TestVersion);
  testCaseFolders : JsMap.t (gset Z);
  testRunResults : JsMap.t (list TestRunResult);
  activityLogs : list ActivityLog;
  userId : Z;
  folderId : Z;
  test_case_id : Z;
  testStepId : Z;
  testVersionId : Z;
  testCaseFolderId : Z;
  test_run_result_id : Z;
  activityLogId : Z;
  clock : nat -> Z;
  ticks : nat }.

Definition set_users (x : JsMap.t User) (m : MemStorage) : MemStorage :=
  mkMemStorage x (folders m) (testCases m) (testSteps m) (testVersions m)
    (testCaseFolders m) (testRunResults m) (activityLogs m) (userId m)
    (folderId m) (test_case_id m) (testStepId m) (testVersionId m)
    (testCaseFolderId m) (test_run_result_id m) (activityLogId m) (clock m)
    (ticks m).

Definition set_folders (x : JsMap.t Folder) (m : MemStorage) : MemStorage :=
  mkMemStorage (users m) x (testCases m) (testSteps m) (testVersions m)
    (testCaseFolders m) (testRunResults m) (activityLogs m) (userId m)
    (folderId m) (test_case_id m) (testStepId m) (testVersionId m)
    (testCaseFolderId m) (test_run_result_id m) (activityLogId m) (clock m)
    (ticks m).

Definition set_testCases (x : JsMap.t TestCase) (m : MemStorage) : MemStorage :=
  mkMemStorage (users m) (folders m) x (testSteps m) (testVersions m)
    (testCaseFolders m) (testRunResults m) (activityLogs m) (userId m)
    (folderId m) (test_case_id m) (testStepId m) (testVersionId m)
    (testCaseFolderId m) (test_run_result_id m) (activityLogId m) (clock m)
    (ticks m).

Definition set_testSteps (x : JsMap.t (list TestStep)) (m : MemStorage) : MemStorage :=
  mkMemStorage (users m) (folders m) (testCases m) x (testVersions m)
    (testCaseFolders m) (testRunResults m) (activityLogs m) (userId m)
    (folderId m) (test_case_id m) (testStepId m) (testVersionId m)
    (testCaseFolderId m) (test_run_result_id m) (activityLogId m) (clock m)
    (ticks m).

Definition set_testCaseFolders (x : JsMap.t (gset Z)) (m : MemStorage) : MemStorage :=
  mkMemStorage (users m) (folders m) (testCases m) (testSteps m)
    (testVersions m) x (testRunResults m) (activityLogs m) (userId m)
    (folderId m) (test_case_id m) (testStepId m) (testVersionId m)
    (testCaseFolderId m) (test_run_result_id m) (activityLogId m) (clock m)
    (ticks m).

Definition set_testRunResults (x : JsMap.t (list TestRunResult)) (m : MemStorage) : MemStorage :=
  mkMemStorage (users m) (folders m) (testCases m) (testSteps m)
    (testVersions m) (testCaseFolders m) x (activityLogs m) (userId m)
    (folderId m) (test_case_id m) (testStepId m) (testVersionId m)
    (testCaseFolderId m) (test_run_result_id m) (activityLogId m) (clock m)
    (ticks m).

Definition set_activityLogs (x : list ActivityLog) (m : MemStorage) : MemStorage :=
  mkMemStorage (users m) (folders m) (testCases m) (testSteps m)
    (testVersions m) (testCaseFolders m) (testRunResults m) x (userId m)
    (folderId m) (test_case_id m) (testStepId m) (testVersionId m)
    (testCaseFolderId m) (test_run_result_id m) (activityLogId m) (clock m)
    (ticks m).

Definition set_userId (x : Z) (m : MemStorage) : MemStorage :=
  mkMemStorage (users m) (folders m) (testCases m) (testSteps m)
    (testVersions m) (testCaseFolders m) (testRunResults m) (activityLogs m)
    x (folderId m) (test_case_id m) (testStepId m) (testVersionId m)
    (testCaseFolderId m) (test_run_result_id m) (activityLogId m) (clock m)
    (ticks m).

Definition set_folderId (x : Z) (m : MemStorage) : MemStorage :=
  mkMemStorage (users m) (folders m) (testCases m) (testSteps m)
    (testVersions m) (testCaseFolders m) (testRunResults m) (activityLogs m)
    (userId m) x (test_case_id m) (testStepId m) (testVersionId m)
    (testCaseFolderId m) (test_run_result_id m) (activityLogId m) (clock m)
    (ticks m).

Definition set_test_case_id (x : Z) (m : MemStorage) : MemStorage :=
  mkMemStorage (users m) (folders m) (testCases m) (testSteps m)
    (testVersions m) (testCaseFolders m) (testRunResults m) (activityLogs m)
    (userId m) (folderId m) x (testStepId m) (testVersionId m)
    (testCaseFolderId m) (test_run_result_id m) (activityLogId m) (clock m)
    (ticks m).

Definition set_testStepId (x : Z) (m : MemStorage) : MemStorage :=
  mkMemStorage (users m) (folders m) (testCases m) (testSteps m)
    (testVersions m) (testCaseFolders m) (testRunResults m) (activityLogs m)
    (userId m) (folderId m) (test_case_id m) x (testVersionId m)
    (testCaseFolderId m) (test_run_result_id m) (activityLogId m) (clock m)
    (ticks m).

Definition set_testCaseFolderId (x : Z) (m : MemStorage) : MemStorage :=
  mkMemStorage (users m) (folders m) (testCases m) (testSteps m)
    (testVersions m) (testCaseFolders m) (testRunResults m) (activityLogs m)
    (userId m) (folderId m) (test_case_id m) (testStepId m)
    (testVersionId m) x (test_run_result_id m) (activityLogId m) (clock m)
    (ticks m).

Definition set_test_run_result_id (x : Z) (m : MemStorage) : MemStorage :=
  mkMemStorage (users m) (folders m) (testCases m) (testSteps m)
    (testVersions m) (testCaseFolders m) (testRunResults m) (activityLogs m)
    (userId m) (folderId m) (test_case_id m) (testStepId m)
    (testVersionId m) (testCaseFolderId m) x (activityLogId m) (clock m)
    (ticks m).

Definition set_activityLogId (x : Z) (m : MemStorage) : MemStorage :=
  mkMemStorage (users m) (folders m) (testCases m) (testSteps m)
    (testVersions m) (testCaseFolders m) (testRunResults m) (activityLogs m)
    (userId m) (folderId m) (test_case_id m) (testStepId m)
    (testVersionId m) (testCaseFolderId m) (test_run_result_id m) x
    (clock m) (ticks m).

Definition set_ticks (x : nat) (m : MemStorage) : MemStorage :=
  mkMemStorage (users m) (folders m) (testCases m) (testSteps m)
    (testVersions m) (testCaseFolders m) (testRunResults m) (activityLogs m)
    (userId m) (folderId m) (test_case_id m) (testStepId m)
    (testVersionId m) (testCaseFolderId m) (test_run_result_id m)
    (activityLogId m) (clock m) x.

(** [new Date()] *)
Definition new_Date (m : MemStorage) : Z * MemStorage :=
  (clock m (ticks m), set_ticks (S (ticks m)) m).

(** *** Methods of [MemStorage]

    The methods are [async] but contain no [await]: each runs to completion
    when called and its promise is never rejected, so a method is a function
    from the instance to its result and the updated instance. *)

Definition createUser (user : InsertUser) (m : MemStorage)
  : User * MemStorage :=
  let id := userId m in
  let m := set_userId (id + 1) m in
  let newUser :=
    {| u_id := id; u_username := iu_username user; u_email := iu_email user;
       u_password := iu_password user; u_full_name := iu_full_name user;
       u_avatar := iu_avatar user; u_role := iu_role user;
       u_last_login := None; u_is_active := iu_is_active user |} in
  (newUser, set_users (JsMap.set id newUser (users m)) m).

Definition getUser (id : Z) (m : MemStorage) : option User :=
  JsMap.get id (users m).

Definition getUsers (m : MemStorage) : list User := JsMap.values (users m).

Definition createFolder (folder : InsertFolder) (m : MemStorage)
  : Folder * MemStorage :=
  let id := folderId m in
  let m := set_folderId (id + 1) m in
  let '(created_at, m) := new_Date m in
  let newFolder :=
    {| f_id := id; f_name := if_name folder;
       f_description := if_description folder;
       f_created_by := if_created_by folder; f_created_at := created_at |} in
  (newFolder, set_folders (JsMap.set id newFolder (folders m)) m).

Definition getFolder (id : Z) (m : MemStorage) : option Folder :=
  JsMap.get id (folders m).

Definition getFolders (m : MemStorage) : list Folder :=
  JsMap.values (folders m).

(** [steps.map((step, index) => ({ ...step, id: this.testStepId++,
    test_case_id: id, step_number: index + 1, ... }))] *)
Definition number_steps (id base : Z) (steps : list StepInput) : list TestStep :=
  imap (fun index step =>
          {| ts_id := base + Z.of_nat index; ts_test_case_id := id;
             ts_step_number := Z.of_nat index + 1;
             ts_description := si_description step;
             ts_expected_result := si_expected_result step |}) steps.

Definition createTestCase (testCaseWithSteps : TestCaseWithSteps)
    (m : MemStorage) : TestCase * MemStorage :=
  let steps := tcs_steps testCaseWithSteps in
  let testCase := tcs_case testCaseWithSteps in
  let id := test_case_id m in
  let m := set_test_case_id (id + 1) m in
  let '(created_at, m) := new_Date m in
  let '(updated_at, m) := new_Date m in
  let newTestCase :=
    {| tc_id := id; tc_title := itc_title testCase;
       tc_description := itc_description testCase;
       tc_status := itc_status testCase; tc_priority := itc_priority testCase;
       tc_type := itc_type testCase;
       tc_assigned_to := itc_assigned_to testCase;
       tc_created_by := itc_created_by testCase;
       tc_created_at := created_at; tc_updated_at := updated_at;
       tc_last_run := None;
       tc_expected_result := itc_expected_result testCase;
       tc_version := 1 |} in
  let m := set_testCases (JsMap.set id newTestCase (testCases m)) m in
  let m :=
    if (0 <? Z.of_nat (length steps)) then
      set_testStepId (testStepId m + Z.of_nat (length steps))
        (set_testSteps
           (JsMap.set id (number_steps id (testStepId m) steps) (testSteps m))
           m)
    else m in
  (newTestCase, m).

Definition getTestCountByFolder (m : MemStorage) : list (Z * Z) :=
  map (fun e => (fst e, Z.of_nat (size (snd e))))
    (JsMap.entries (testCaseFolders m)).

Definition assignTestCaseToFolder (test_case_id folderId : Z)
    (m : MemStorage) : TestCaseFolder * MemStorage :=
  let m :=
    if JsMap.has folderId (testCaseFolders m) then m
    else set_testCaseFolders (JsMap.set folderId ∅ (testCaseFolders m)) m in
  let folderSet : gset Z := default ∅ (JsMap.get folderId (testCaseFolders m)) in
  if decide (test_case_id ∈ folderSet) then
    (mkTestCaseFolder (testCaseFolderId m) test_case_id folderId,
     set_testCaseFolderId (testCaseFolderId m + 1) m)
  else
    let m :=
      set_testCaseFolders
        (JsMap.set folderId ({[test_case_id]} ∪ folderSet) (testCaseFolders m))
        m in
    let result := mkTestCaseFolder (testCaseFolderId m) test_case_id folderId in
    (result, set_testCaseFolderId (testCaseFolderId m + 1) m).

Definition removeTestCaseFromFolder (test_case_id folderId : Z)
    (m : MemStorage) : bool * MemStorage :=
  match JsMap.get folderId (testCaseFolders m) with
  | None => (false, m)
  | Some folderSet =>
      let result := bool_decide (test_case_id ∈ folderSet) in
      (result,
       set_testCaseFolders
         (JsMap.set folderId (folderSet ∖ {[test_case_id]})
            (testCaseFolders m)) m)
  end.

Definition getTestCaseFolders (test_case_id : Z) (m : MemStorage)
  : list Folder :=
  omap (fun e =>
          if bool_decide (test_case_id ∈ snd e)
          then JsMap.get (fst e) (folders m) else None)
    (JsMap.entries (testCaseFolders m)).

Definition createTestRunResult (result : InsertTestRunResult)
    (m : MemStorage) : TestRunResult * MemStorage :=
  let id := test_run_result_id m in
  let m := set_test_run_result_id (id + 1) m in
  let '(executed_at, m) := new_Date m in
  let newResult :=
    {| trr_id := id; trr_runId := itrr_runId result;
       trr_test_case_id := itrr_test_case_id result;
       trr_status := itrr_status result; trr_notes := itrr_notes result;
       trr_executed_by := itrr_executed_by result;
       trr_executed_at := executed_at; trr_duration := None |} in
  let m :=
    if JsMap.has (itrr_runId result) (testRunResults m) then m
    else set_testRunResults
           (JsMap.set (itrr_runId result) [] (testRunResults m)) m in
  let m :=
    set_testRunResults
      (JsMap.set (itrr_runId result)
         (default [] (JsMap.get (itrr_runId result) (testRunResults m))
            ++ [newResult])
         (testRunResults m)) m in
  match JsMap.get (itrr_test_case_id result) (testCases m) with
  | Some testCase =>
      let testCase := set_status (itrr_status result) testCase in
      let '(last_run, m) := new_Date m in
      let testCase :=
        {| tc_id := tc_id testCase; tc_title := tc_title testCase;
           tc_description := tc_description testCase;
           tc_status := tc_status testCase;
           tc_priority := tc_priority testCase; tc_type := tc_type testCase;
           tc_assigned_to := tc_assigned_to testCase;
           tc_created_by := tc_created_by testCase;
           tc_created_at := tc_created_at testCase;
           tc_updated_at := tc_updated_at testCase;
           tc_last_run := Some last_run;
           tc_expected_result := tc_expected_result testCase;
           tc_version := tc_version testCase |} in
      (newResult,
       set_testCases
         (JsMap.set (itrr_test_case_id result) testCase (testCases m)) m)
  | None => (newResult, m)
  end.

Definition getTestRunResults (runId : Z) (m : MemStorage)
  : list TestRunResult :=
  default [] (JsMap.get runId (testRunResults m)).

(** [statusMap] is a plain object, [{ [key: string]: number }]: its own
    properties, in the order they were created, with the number under
    each one ([None] is [NaN]).  Reading [statusMap[status]] finds an own
    property first and a member of [Object.prototype] otherwise. *)
Definition StatusMap : Type := list (string * option Z).

(** The members of [Object.prototype] that are functions; [__proto__],
    an accessor, is the one other member. *)
Definition prototype_functions : list string :=
  ["constructor"; "hasOwnProperty"; "isPrototypeOf"; "propertyIsEnumerable";
   "toLocaleString"; "toString"; "valueOf"; "__defineGetter__";
   "__defineSetter__"; "__lookupGetter__"; "__lookupSetter__"].

Definition inherited (status : string) : bool :=
  existsb (String.eqb status) prototype_functions.

Fixpoint own (status : string) (statusMap : StatusMap) : option (option Z) :=
  match statusMap with
  | [] => None
  | (s, n) :: rest => if String.eqb s status then Some n else own status rest
  end.

(** [statusMap[status] = n]: an own property keeps its place, a new one
    comes last. *)
Fixpoint assign (status : string) (n : option Z) (statusMap : StatusMap)
  : StatusMap :=
  match statusMap with
  | [] => [(status, n)]
  | (s, n') :: rest =>
      if String.eqb s status then (s, n) :: rest
      else (s, n') :: assign status n rest
  end.

(** One turn of the first loop: [if (statusMap[status])
    statusMap[status]++; else statusMap[status] = 1;].  A number other
    than [0] and [NaN] is incremented; [0], [NaN] and [undefined] give
    [1]; an inherited function is truthy and its increment stores [NaN];
    the inherited [__proto__] is truthy and its setter drops the [NaN]
    it is given. *)
Definition count_status (status : string) (statusMap : StatusMap)
  : StatusMap :=
  match own status statusMap with
  | Some (Some n) =>
      if n =? 0 then assign status (Some 1) statusMap
      else assign status (Some (n + 1)) statusMap
  | Some None => assign status (Some 1) statusMap
  | None =>
      if String.eqb status "__proto__" then statusMap
      else if inherited status then assign status None statusMap
      else assign status (Some 1) statusMap
  end.

Definition digit (a : Ascii.ascii) : option Z :=
  let n := Z.of_nat (Ascii.nat_of_ascii a) in
  if (48 <=? n) && (n <=? 57) then Some (n - 48) else None.

Fixpoint digits (s : string) (acc : Z) : option Z :=
  match s with
  | EmptyString => Some acc
  | String a rest =>
      match digit a with
      | Some d => digits rest (10 * acc + d)
      | None => None
      end
  end.

(** The array index a key denotes: the canonical decimal form of a whole
    number up to [2^32 - 2]. *)
Definition array_index (s : string) : option Z :=
  match s with
  | EmptyString => None
  | String a rest =>
      if Z.of_nat (Ascii.nat_of_ascii a) =? 48
      then match rest with EmptyString => Some 0 | _ => None end
      else match digits s 0 with
           | Some n => if n <=? 4294967294 then Some n else None
           | None => None
           end
  end.

Definition is_index (p : string * option Z) : bool :=
  match array_index (fst p) with Some _ => true | None => false end.

Fixpoint insert_index (p : string * option Z) (l : StatusMap) : StatusMap :=
  match l with
  | [] => [p]
  | q :: rest =>
      if default 0 (array_index (fst p)) <? default 0 (array_index (fst q))
      then p :: l
      else q :: insert_index p rest
  end.

(** [for (const status in statusMap)]: the keys that are array indices in
    ascending order, then the other keys in the order they were created;
    [Object.prototype] has no enumerable member. *)
Definition for_in (statusMap : StatusMap) : StatusMap :=
  foldr insert_index [] (filter is_index statusMap)
  ++ filter (fun p => negb (is_index p)) statusMap.

Definition getTestStatusCounts (m : MemStorage) : list (string * option Z) :=
  for_in
    (foldl (fun statusMap testCase =>
              count_status (tc_status testCase) statusMap)
       [] (JsMap.values (testCases m))).

Definition getTestStatusStats (m : MemStorage) : list (string * option Z) :=
  getTestStatusCounts m.

Definition logActivity (log : InsertActivityLog) (m : MemStorage)
  : ActivityLog * MemStorage :=
  let id := activityLogId m in
  let m := set_activityLogId (id + 1) m in
  let '(timestamp, m) := new_Date m in
  let newActivityLog :=
    {| al_id := id; al_user_id := ial_user_id log;
       al_action := ial_action log; al_entity_type := ial_entity_type log;
       al_entity_id := ial_entity_id log; al_details := ial_details log;
       al_timestamp := timestamp |} in
  (newActivityLog, set_activityLogs (activityLogs m ++ [newActivityLog]) m).

(** [sort((a, b) => b.updated_at.getTime() - a.updated_at.getTime())]:
    most recent first; [sort] is stable, so [a] stays before the later
    elements it ties with. *)
Fixpoint insert_recent (a : TestCase) (sorted : list TestCase)
  : list TestCase :=
  match sorted with
  | [] => [a]
  | b :: rest =>
      if tc_updated_at b - tc_updated_at a <=? 0 then a :: b :: rest
      else b :: insert_recent a rest
  end.

Definition sort_recent (l : list TestCase) : list TestCase :=
  foldr insert_recent [] l.

(** [slice(0, limit)] *)
Definition slice0 {A} (limit : Z) (l : list A) : list A :=
  if limit <? 0 then take (length l - Z.to_nat (- limit)) l
  else take (Z.to_nat limit) l.

Definition getRecentTestCases (limit : Z) (m : MemStorage) : list TestCase :=
  slice0 limit (sort_recent (JsMap.values (testCases m))).

(** The fields as initialised before the constructor body runs. *)
Definition blank (clock : nat -> Z) : MemStorage :=
  mkMemStorage [] [] [] [] [] [] [] [] 1 1 1 1 1 1 1 1 clock 0.

Definition seed_case_1 : TestCaseWithSteps :=
  {| tcs_case :=
       {| itc_title := "User Login Verification";
          itc_description :=
            Some "Verify that users can login with valid credentials";
          itc_status := "passed"; itc_priority := "high";
          itc_type := "functional"; itc_assigned_to := Some 1;
          itc_created_by := 1;
          itc_expected_result :=
            Some "User should be logged in successfully" |};
     tcs_steps :=
       [ mkStepInput 1 "Navigate to login page"
           (Some "Login page is displayed");
         mkStepInput 2 "Enter valid username and password"
           (Some "Credentials are accepted");
         mkStepInput 3 "Click on Login button"
           (Some "User is redirected to dashboard") ] |}.

Definition seed_case_2 : TestCaseWithSteps :=
  {| tcs_case :=
       {| itc_title := "Password Reset Flow";
          itc_description :=
            Some "Test the complete password reset workflow";
          itc_status := "failed"; itc_priority := "critical";
          itc_type := "functional"; itc_assigned_to := Some 1;
          itc_created_by := 1;
          itc_expected_result :=
            Some "Password reset email should be sent and new password should work" |};
     tcs_steps :=
       [ mkStepInput 1 "Navigate to login page"
           (Some "Login page is displayed");
         mkStepInput 2 "Click on Forgot Password link"
           (Some "Reset page is displayed");
         mkStepInput 3 "Enter valid email address"
           (Some "Success message is shown");
         mkStepInput 4 "Check email and click reset link"
           (Some "Reset form is displayed");
         mkStepInput 5 "Enter new password and confirm"
           (Some "Password is updated") ] |}.

Definition seed_case_3 : TestCaseWithSteps :=
  {| tcs_case :=
       {| itc_title := "User Registration Form Validation";
          itc_description :=
            Some "Validate all form fields during user registration";
          itc_status := "pending"; itc_priority := "medium";
          itc_type := "functional"; itc_assigned_to := Some 1;
          itc_created_by := 1;
          itc_expected_result :=
            Some "Form should validate all fields correctly" |};
     tcs_steps :=
       [ mkStepInput 1
           "Navigate to registration page          expected_result: Registration form is displayed"
           None;
         mkStepInput 2 "Leave required fields empty and submit"
           (Some "Validation errors are shown");
         mkStepInput 3 "Enter invalid format for email"
           (Some "Email validation error is shown");
         mkStepInput 4 "Enter short password"
           (Some "Password validation error is shown");
         mkStepInput 5 "Enter valid details and submit"
           (Some "Registration is successful") ] |}.

Definition seed_admin : InsertUser :=
  {| iu_username := "admin"; iu_email := "admin@example.com";
     iu_password := "password"; iu_full_name := "System Admin";
     iu_avatar := None; iu_role := "system_owner"; iu_is_active := true |}.

(** [new MemStorage()] *)
Definition constructor (clock : nat -> Z) : MemStorage :=
  let m := blank clock in
  let '(_, m) := createUser seed_admin m in
  let '(_, m) :=
    createFolder
      (mkInsertFolder "Regression Tests" (Some "Tests for regression testing")
         (Some 1)) m in
  let '(_, m) :=
    createFolder
      (mkInsertFolder "Smoke Tests" (Some "Quick smoke tests") (Some 1)) m in
  let '(_, m) :=
    createFolder
      (mkInsertFolder "Feature Tests" (Some "Feature specific tests")
         (Some 1)) m in
  let '(testCase1, m) := createTestCase seed_case_1 m in
  let '(_, m) := assignTestCaseToFolder 1 1 m in
  let '(testCase2, m) := createTestCase seed_case_2 m in
  let '(_, m) := assignTestCaseToFolder 2 1 m in
  let '(_, m) := createTestCase seed_case_3 m in
  let '(_, m) := assignTestCaseToFolder 3 2 m in
  m.

End Mem.

(** ** The handler of [POST /api/testcases] *)

Module Routes.

Import Supabase.

Inductive HttpResponse :=
| Json (code : Z) (body : TestCase)
| Message (code : Z) (message : string).

(** A call whose promise is neither awaited nor given a handler: the
    store after its requests.  An [async] method throws nothing to the
    code that calls it, it reports its failure through the promise; so a
    [try]/[catch] around the call catches nothing, and a promise that is
    rejected is rejected with no handler attached ([rejected]). *)
Definition not_awaited {A} (call : Async A) (w : World) : World :=
  snd (call w).

(** The error an un-awaited call rejects its promise with, if it does:
    an unhandled rejection, which Node reports on [unhandledRejection]
    and by default answers by ending the process. *)
Definition rejected {A} (call : Async A) (w : World) : option PgError :=
  match fst (call w) with
  | Thrown e => Some e
  | Returned _ => None
  end.

(** [{ ...req.body, created_by: userId }] *)
Definition with_created_by (userId : Z) (body : TestCaseWithSteps)
  : TestCaseWithSteps :=
  let c := tcs_case body in
  {| tcs_case :=
       {| itc_title := itc_title c; itc_description := itc_description c;
          itc_status := itc_status c; itc_priority := itc_priority c;
          itc_type := itc_type c; itc_assigned_to := itc_assigned_to c;
          itc_created_by := userId;
          itc_expected_result := itc_expected_result c |};
     tcs_steps := tcs_steps body |}.

(** The record logged for a created test case. *)
Definition create_test_case_log (userId : Z) (testCase : TestCase)
  : InsertActivityLog :=
  {| ial_user_id := userId; ial_action := "create_test_case";
     ial_entity_type := "test_case"; ial_entity_id := tc_id testCase;
     ial_details := Some (tc_title testCase) |}.

(** What a run of the handler leaves: the response, what
    [catch (logError)] received (and [console.warn] reported), the
    rejection that found no handler, and the store. *)
Record Handled := mkHandled {
  h_response : HttpResponse;
  h_caught : option PgError;
  h_unhandled : option PgError;
  h_store : World }.

(** The body has passed [testCaseWithStepsSchema.parse].  Inside the
    inner [try], [storage.logActivity(...)] is called without [await]:
    the call returns its promise, the [catch] receives nothing. *)
Definition post_testcases (body : TestCaseWithSteps) (w : World) : Handled :=
  let userId := 1 in
  let data := with_created_by userId body in
  let '(o, w1) := createTestCase data w in
  match o with
  | Thrown _ => mkHandled (Message 400 "Failed to create test case") None None w1
  | Returned testCase =>
      let log := logActivity (create_test_case_log userId testCase) in
      mkHandled (Json 201 testCase) None (rejected log w1) (not_awaited log w1)
  end.

End Routes.

(** * Readings of the stores and example inputs *)

(** ** What a reader of the persistent store sees *)

Module View.

Import Supabase.

(** The rows [getTestCase], [getTestSteps] and [getTestVersions] select. *)
Definition rows_of_case (id : Z) (w : World) : list TestCase :=
  filter (fun tc => tc_has_id id tc) (test_cases w).

Definition steps_of (id : Z) (w : World) : list TestStep :=
  filter (fun s => step_of id s) (test_steps w).

Definition snapshots_of (id : Z) (w : World) : list TestVersion :=
  filter (fun v => version_of id v) (test_versions w).

Definition folder_rows_of (id : Z) (w : World) : list TestCaseFolder :=
  filter (fun r => tcf_test_case_id r =? id) (test_case_folders w).

(** Everything the store holds, the oracle apart. *)
Definition tables (w : World) :=
  (folders w, test_cases w, test_steps w, test_versions w,
   test_case_folders w, test_run_results w, activity_logs w, serial w).

(** The version of every row, by id. *)
Definition versions_by_id (w : World) : list (Z * Z) :=
  map (fun tc => (tc_id tc, tc_version tc)) (test_cases w).

(** [updateTestCase] called with each (patch, steps) of a list in turn. *)
Fixpoint update_many (id : Z)
    (calls : list (TestCasePatch * option (list InsertTestStep)))
    (w : World) : World :=
  match calls with
  | [] => w
  | (data, steps) :: rest =>
      update_many id rest (snd (updateTestCase id data steps w))
  end.

End View.

(** ** What a reader of the in-memory store sees *)

Module MemView.

Import Mem.

(** The test cases assigned to a folder. *)
Definition members (folderId : Z) (m : MemStorage) : gset Z :=
  default ∅ (JsMap.get folderId (testCaseFolders m)).

Definition assigned (test_case_id folderId : Z) (m : MemStorage) : Prop :=
  test_case_id ∈ members folderId m.

(** A clock that stands still. *)
Definition still (t : Z) : nat -> Z := fun _ => t.

End MemView.

(** ** The two adapters side by side *)

Module Adapters.


Definition lookup_folder (id : Z) (w : Supabase.World) : option Folder :=
  match Supabase.single
          (filter (fun f => f_id f =? id) (Supabase.folders w)) with
  | Data f => Some f
  | Failure _ => None
  end.




End Adapters.

(** ** Concrete stores and inputs used by the examples *)

Module Scenario.

Definition open_page : StepInput := mkStepInput 1 "open page" None.
Definition submit_creds : StepInput := mkStepInput 2 "submit creds" None.

(** [{ title: "Login", steps: [open page, submit creds] }] *)
Definition login_case : TestCaseWithSteps :=
  {| tcs_case :=
       {| itc_title := "Login"; itc_description := None;
          itc_status := "pending"; itc_priority := "medium";
          itc_type := "functional"; itc_assigned_to := None;
          itc_created_by := 1; itc_expected_result := None |};
     tcs_steps := [open_page; submit_creds] |}.

Definition retitle (t : string) : TestCasePatch :=
  mkTestCasePatch (Some t) None None None None None None None.

Definition open_page_only : list InsertTestStep :=
  [mkInsertTestStep 1 1 "open page" None].

(** The "Login" row once retitled. *)
Definition renamed_login : TestCase :=
  {| tc_id := 1; tc_title := "Sign in"; tc_description := None;
     tc_status := "pending"; tc_priority := "medium";
     tc_type := "functional"; tc_assigned_to := None; tc_created_by := 1;
     tc_created_at := 1000; tc_updated_at := 1000; tc_last_run := None;
     tc_expected_result := None; tc_version := 1 |}.

(** The store after [createTestCase(login_case)] on an empty store, at
    time 1000. *)
Definition login_store : Supabase.World :=
  snd (Supabase.createTestCase login_case (Supabase.empty 1000)).

(** The "Login" row as created. *)
Definition login_row : TestCase :=
  {| tc_id := 1; tc_title := "Login"; tc_description := None;
     tc_status := "pending"; tc_priority := "medium";
     tc_type := "functional"; tc_assigned_to := None; tc_created_by := 1;
     tc_created_at := 1000; tc_updated_at := 1000; tc_last_run := None;
     tc_expected_result := None; tc_version := 1 |}.

(** "Login" with three steps and two folder associations. *)
Definition check_banner : StepInput := mkStepInput 3 "check banner" None.

Definition cascade_store : Supabase.World :=
  Supabase.with_test_case_folders
    [mkTestCaseFolder 1 1 1; mkTestCaseFolder 2 1 2]
    (snd (Supabase.createTestCase
            {| tcs_case := tcs_case login_case;
               tcs_steps := [open_page; submit_creds; check_banner] |}
            (Supabase.empty 1000))).

(** "Login" with the history the versioning rules describe: a snapshot
    tagged 2 and a snapshot tagged 3, in the order written. *)
Definition snapshot_2 : TestVersion :=
  {| tv_id := 1; tv_test_case_id := 1; tv_version := 2; tv_data := login_row;
     tv_created_by := 1; tv_created_at := 2000; tv_change_comment := None |}.

Definition snapshot_3 : TestVersion :=
  {| tv_id := 2; tv_test_case_id := 1; tv_version := 3;
     tv_data := renamed_login; tv_created_by := 1; tv_created_at := 3000;
     tv_change_comment := None |}.

Definition history_store : Supabase.World :=
  Supabase.with_test_versions [snapshot_2; snapshot_3] login_store.

(** A store as favourable to a revert as can be: handed a snapshot row,
    it writes the snapshot's data over the test case. *)
Definition restoring_store (payload : option TestVersion) (id : Z)
    (rows : list TestCase) : Response (list TestCase) :=
  match payload with
  | Some v =>
      Data (map (fun tc => if Supabase.tc_has_id id tc then tv_data v else tc)
              rows)
  | None => Data rows
  end.

(** An empty store whose backend answers two requests and refuses the
    third. *)
Definition flaky_store : Supabase.World :=
  Supabase.with_faults [false; false; true] (Supabase.empty 1000).


Definition failed_run : InsertTestRunResult :=
  {| itrr_runId := 1; itrr_test_case_id := 1; itrr_status := "failed";
     itrr_notes := None; itrr_executed_by := 1 |}.

End Scenario.

(** * Further methods of the two adapters and further handlers *)

(** ** [Map.prototype.delete] and a stable descending sort *)

Module JsMapMore.

(** [delete] removes the entry and answers whether there was one. *)
Fixpoint remove {V} (k : Z) (m : JsMap.t V) : JsMap.t V :=
  match m with
  | [] => []
  | (k', v) :: rest => if k' =? k then rest else (k', v) :: remove k rest
  end.

Definition delete {V} (k : Z) (m : JsMap.t V) : bool * JsMap.t V :=
  (JsMap.has k m, remove k m).

Definition keys {V} (m : JsMap.t V) : list Z := map fst m.

(** [sort((a, b) => key(b) - key(a))]: largest key first, stable. *)
Fixpoint insert_desc {A} (key : A -> Z) (a : A) (sorted : list A) : list A :=
  match sorted with
  | [] => [a]
  | b :: rest =>
      if key b - key a <=? 0 then a :: b :: rest
      else b :: insert_desc key a rest
  end.

Definition sort_desc {A} (key : A -> Z) (l : list A) : list A :=
  foldr (insert_desc key) [] l.

(** [a] may stand before [b] in a list sorted this way. *)
Definition desc {A} (key : A -> Z) (a b : A) : Prop := key b <= key a.

End JsMapMore.

(** ** More of [MemStorage] *)

Module MemMore.

Import Mem.

(** [Partial<InsertUser>] and [Partial<InsertFolder>] *)
Record UserPatch := mkUserPatch {
  up_username : option string; up_email : option string;
  up_password : option string; up_full_name : option string;
  up_avatar : option (option string); up_role : option string;
  up_is_active : option bool }.

Record FolderPatch := mkFolderPatch {
  fp_name : option string; fp_description : option (option string);
  fp_created_by : option (option Z) }.

Definition getUserByUsername (username : string) (m : MemStorage)
  : option User :=
  List.find (fun user => String.eqb (u_username user) username)
    (JsMap.values (users m)).

Definition getUserByEmail (email : string) (m : MemStorage) : option User :=
  List.find (fun user => String.eqb (u_email user) email)
    (JsMap.values (users m)).

(** [{ ...user, ...data }] *)
Definition patch_user (data : UserPatch) (user : User) : User :=
  {| u_id := u_id user;
     u_username := default (u_username user) (up_username data);
     u_email := default (u_email user) (up_email data);
     u_password := default (u_password user) (up_password data);
     u_full_name := default (u_full_name user) (up_full_name data);
     u_avatar := default (u_avatar user) (up_avatar data);
     u_role := default (u_role user) (up_role data);
     u_last_login := u_last_login user;
     u_is_active := default (u_is_active user) (up_is_active data) |}.

Definition updateUser (id : Z) (data : UserPatch) (m : MemStorage)
  : option User * MemStorage :=
  match JsMap.get id (users m) with
  | None => (None, m)
  | Some user =>
      let updatedUser := patch_user data user in
      (Some updatedUser, set_users (JsMap.set id updatedUser (users m)) m)
  end.

Definition updateUserlast_login (id : Z) (m : MemStorage) : MemStorage :=
  match JsMap.get id (users m) with
  | Some user =>
      let '(t, m) := new_Date m in
      let user :=
        {| u_id := u_id user; u_username := u_username user;
           u_email := u_email user; u_password := u_password user;
           u_full_name := u_full_name user; u_avatar := u_avatar user;
           u_role := u_role user; u_last_login := Some t;
           u_is_active := u_is_active user |} in
      set_users (JsMap.set id user (users m)) m
  | None => m
  end.

(** [user && user.password === password] *)
Definition verifyCredentials (username password : string) (m : MemStorage)
  : option User :=
  match getUserByUsername username m with
  | Some user => if String.eqb (u_password user) password then Some user
                 else None
  | None => None
  end.

Definition patch_folder (data : FolderPatch) (folder : Folder) : Folder :=
  {| f_id := f_id folder;
     f_name := default (f_name folder) (fp_name data);
     f_description := default (f_description folder) (fp_description data);
     f_created_by := default (f_created_by folder) (fp_created_by data);
     f_created_at := f_created_at folder |}.

Definition updateFolder (id : Z) (data : FolderPatch) (m : MemStorage)
  : option Folder * MemStorage :=
  match JsMap.get id (folders m) with
  | None => (None, m)
  | Some folder =>
      let updatedFolder := patch_folder data folder in
      (Some updatedFolder,
       set_folders (JsMap.set id updatedFolder (folders m)) m)
  end.

Definition deleteFolder (id : Z) (m : MemStorage) : bool * MemStorage :=
  let '(existed, rest) := JsMapMore.delete id (folders m) in
  (existed, set_folders rest m).

(** [a || "Unknown"] on a string that may be missing. *)
Definition or_unknown (s : option string) : string :=
  match s with
  | Some s => if String.eqb s "" then "Unknown" else s
  | None => "Unknown"
  end.

(** An activity with the [user] object attached: username and full name. *)
Definition with_user (m : MemStorage) (log : ActivityLog)
  : ActivityLog * (string * string) :=
  let user := JsMap.get (al_user_id log) (users m) in
  (log, (or_unknown (u_username <$> user), or_unknown (u_full_name <$> user))).

(** [activityLogs.slice(0, limit).map(...).sort(...)] *)
Definition getRecentActivities (limit : Z) (m : MemStorage)
  : list (ActivityLog * (string * string)) :=
  JsMapMore.sort_desc (fun a => al_timestamp (fst a))
    (map (with_user m) (slice0 limit (activityLogs m))).

End MemMore.

(** ** Test runs in [MemStorage] *)

Module MemRuns.

Record TestRun := mkTestRun {
  tr_id : Z; tr_name : string; tr_description : option string;
  tr_status : string; tr_started_at : Z; tr_complete_at : option Z;
  tr_executed_by : Z; tr_duration : option Z }.

Record InsertTestRun := mkInsertTestRun {
  itr_name : string; itr_description : option string; itr_status : string;
  itr_executed_by : Z }.

Record TestRunPatch := mkTestRunPatch {
  trp_name : option string; trp_description : option (option string);
  trp_status : option string; trp_executed_by : option Z }.

(** The fields of the instance that the run methods read and write: the
    map of runs, its id counter and the system clock. *)
Record RunStore := mkRunStore {
  testRuns : JsMap.t TestRun;
  testRunId : Z;
  clock : nat -> Z;
  ticks : nat }.

Definition new_Date (m : RunStore) : Z * RunStore :=
  (clock m (ticks m), mkRunStore (testRuns m) (testRunId m) (clock m)
                        (S (ticks m))).

Definition set_testRuns (x : JsMap.t TestRun) (m : RunStore) : RunStore :=
  mkRunStore x (testRunId m) (clock m) (ticks m).

Definition createTestRun (testRun : InsertTestRun) (m : RunStore)
  : TestRun * RunStore :=
  let id := testRunId m in
  let m := mkRunStore (testRuns m) (id + 1) (clock m) (ticks m) in
  let '(started_at, m) := new_Date m in
  let newTestRun :=
    {| tr_id := id; tr_name := itr_name testRun;
       tr_description := itr_description testRun;
       tr_status := itr_status testRun; tr_started_at := started_at;
       tr_complete_at := None; tr_executed_by := itr_executed_by testRun;
       tr_duration := None |} in
  (newTestRun, set_testRuns (JsMap.set id newTestRun (testRuns m)) m).

Definition getTestRun (id : Z) (m : RunStore) : option TestRun :=
  JsMap.get id (testRuns m).

(** [sort((a, b) => b.started_at.getTime() - a.started_at.getTime())] *)
Definition getTestRuns (m : RunStore) : list TestRun :=
  JsMapMore.sort_desc tr_started_at (JsMap.values (testRuns m)).

Definition patch_run (data : TestRunPatch) (r : TestRun) : TestRun :=
  {| tr_id := tr_id r; tr_name := default (tr_name r) (trp_name data);
     tr_description := default (tr_description r) (trp_description data);
     tr_status := default (tr_status r) (trp_status data);
     tr_started_at := tr_started_at r; tr_complete_at := tr_complete_at r;
     tr_executed_by := default (tr_executed_by r) (trp_executed_by data);
     tr_duration := tr_duration r |}.

Definition updateTestRun (id : Z) (data : TestRunPatch) (m : RunStore)
  : option TestRun * RunStore :=
  match JsMap.get id (testRuns m) with
  | None => (None, m)
  | Some testRun =>
      let updatedTestRun := patch_run data testRun in
      (Some updatedTestRun,
       set_testRuns (JsMap.set id updatedTestRun (testRuns m)) m)
  end.

(** [Math.floor((now.getTime() - testRun.started_at.getTime()) / 1000)] *)
Definition whole_seconds (now started_at : Z) : Z :=
  (now - started_at) `div` 1000.

Definition completeTestRun (id : Z) (m : RunStore)
  : option TestRun * RunStore :=
  match JsMap.get id (testRuns m) with
  | None => (None, m)
  | Some testRun =>
      let '(now, m) := new_Date m in
      let testRun :=
        {| tr_id := tr_id testRun; tr_name := tr_name testRun;
           tr_description := tr_description testRun;
           tr_status := "completed";
           tr_started_at := tr_started_at testRun;
           tr_complete_at := Some now;
           tr_executed_by := tr_executed_by testRun;
           tr_duration :=
             Some (whole_seconds now (tr_started_at testRun)) |} in
      (Some testRun, set_testRuns (JsMap.set id testRun (testRuns m)) m)
  end.

End MemRuns.

(** ** More of [SupabaseStorage] *)

Module SupabaseMore.

Import Supabase.

Definition getTestCaseWithSteps (id : Z)
  : Async (option (TestCase * list TestStep)) := fun w =>
  let '(o, w1) := getTestCase id w in
  match o with
  | Returned (Some testCase) =>
      let '(o2, w2) := getTestSteps id w1 in
      match o2 with
      | Returned steps => (Returned (Some (testCase, steps)), w2)
      | Thrown e => (Thrown e, w2)
      end
  | Returned None => (Returned None, w1)
  | Thrown e => (Thrown e, w1)
  end.

End SupabaseMore.

(** ** More handlers of [routes.ts] *)

Module Handlers.

Import Supabase.

(** What a handler can throw on its own: reading a property of
    [undefined], or naming a variable that is not declared. *)
Inductive JsError := TypeError | ReferenceError.

Inductive Body :=
| CaseBody (testCase : option TestCase)
| CaseWithSteps (testCase : TestCase) (steps : list TestStep)
| Text (message : string)
| ErrorText (error : JsError)
| StoreErrorText (error : PgError).

Record Reply := mkReply { code : Z; body : Body }.

(** The [details] object of a log record, as text. *)
Definition details (fields : list (string * string)) : option string :=
  Some (String.concat ";" (map (fun f => fst f +:+ "=" +:+ snd f) fields)).

(** [{ ...testCaseData, created_by: currentUser.id }] *)
Definition with_updater (id : Z) (p : TestCasePatch) : TestCasePatch :=
  mkTestCasePatch (p_title p) (p_description p) (p_status p) (p_priority p)
    (p_type p) (p_assigned_to p) (Some id) (p_expected_result p).

(** [GET /api/testcases/:id] *)
Definition get_testcase (test_case_id : Z) (w : World) : Reply * World :=
  let '(o, w1) := SupabaseMore.getTestCaseWithSteps test_case_id w in
  match o with
  | Returned (Some (testCase, steps)) =>
      (mkReply 200 (CaseWithSteps testCase steps), w1)
  | Returned None => (mkReply 404 (Text "Test case not found"), w1)
  | Thrown _ => (mkReply 500 (Text "Failed to fetch test case"), w1)
  end.

(** [PUT /api/testcases/:id]; [currentUser] is [req.user], absent when no
    user is logged in, and the body is taken to have the type the method
    expects: a patch and optional steps.  [handleZodError] answers the
    text of the error. *)
Definition put_testcase (currentUser : option User) (test_case_id : Z)
    (testCaseData : TestCasePatch) (steps : option (list InsertTestStep))
    (w : World) : Reply * World :=
  let '(o, w1) := getTestCase test_case_id w in
  match o with
  | Returned None => (mkReply 404 (Text "Test case not found"), w1)
  | Thrown e => (mkReply 400 (StoreErrorText e), w1)
  | Returned (Some testCase) =>
      match currentUser with
      | None => (mkReply 400 (ErrorText TypeError), w1)
      | Some currentUser =>
          let '(o2, w2) :=
            updateTestCase test_case_id
              (with_updater (u_id currentUser) testCaseData) steps w1 in
          match o2 with
          | Returned (Some updatedTestCase) =>
              let w3 :=
                Routes.not_awaited
                  (logActivity
                     {| ial_user_id := u_id currentUser;
                        ial_action := "update_test_case";
                        ial_entity_type := "test_case";
                        ial_entity_id := test_case_id;
                        ial_details :=
                          details
                            [("title", tc_title updatedTestCase);
                             ("version", pretty (tc_version updatedTestCase))]
                     |}) w2 in
              (mkReply 200 (CaseBody (Some updatedTestCase)), w3)
          | Returned None => (mkReply 400 (ErrorText TypeError), w2)
          | Thrown e => (mkReply 400 (StoreErrorText e), w2)
          end
      end
  end.

(** [DELETE /api/testcases/:id] *)
Definition delete_testcase (currentUser : option User) (test_case_id : Z)
    (w : World) : Reply * World :=
  let failed := mkReply 500 (Text "Failed to delete test case") in
  let '(o, w1) := getTestCase test_case_id w in
  match o with
  | Returned None => (mkReply 404 (Text "Test case not found"), w1)
  | Thrown _ => (failed, w1)
  | Returned (Some testCase) =>
      let '(o2, w2) := deleteTestCase test_case_id w1 in
      match o2 with
      | Returned true =>
          match currentUser with
          | None => (failed, w2)
          | Some currentUser =>
              let w3 :=
                Routes.not_awaited
                  (logActivity
                     {| ial_user_id := u_id currentUser;
                        ial_action := "delete_test_case";
                        ial_entity_type := "test_case";
                        ial_entity_id := test_case_id;
                        ial_details :=
                          details [("title", tc_title testCase)] |}) w2 in
              (mkReply 200 (Text "Test case deleted successfully"), w3)
          end
      | Returned false => (failed, w2)
      | Thrown _ => (failed, w2)
      end
  end.

(** [POST /api/testcases/:id/folders].  The call of
    [assignTestCaseToFolder] is commented out and [result] is declared
    nowhere, so [res.status(201).json(result)] throws before a body is
    sent and the [catch] answers. *)
Definition post_testcase_folder (currentUser : option User)
    (test_case_id folderId : Z) (w : World) : Reply * World :=
  let failed := mkReply 400 (Text "Failed to assign test case to folder") in
  let '(o, w1) := getTestCase test_case_id w in
  match o with
  | Returned None => (mkReply 404 (Text "Test case not found"), w1)
  | Thrown _ => (failed, w1)
  | Returned (Some testCase) =>
      let '(o2, w2) := getFolder folderId w1 in
      match o2 with
      | Returned None => (mkReply 404 (Text "Folder not found"), w2)
      | Thrown _ => (failed, w2)
      | Returned (Some folder) =>
          match currentUser with
          | None => (failed, w2)
          | Some currentUser =>
              let w3 :=
                Routes.not_awaited
                  (logActivity
                     {| ial_user_id := u_id currentUser;
                        ial_action := "assign_test_case_to_folder";
                        ial_entity_type := "test_case";
                        ial_entity_id := test_case_id;
                        ial_details :=
                          details [("folderId", pretty folderId);
                                   ("folderName", f_name folder)] |}) w2 in
              (failed, w3)
          end
      end
  end.

Section Revert.

Variable row_update :
  option TestVersion -> Z -> list TestCase -> Response (list TestCase).

(** [POST /api/testcases/:id/revert] *)
Definition post_revert (currentUser : option User) (test_case_id version : Z)
    (w : World) : Reply * World :=
  let invalid := mkReply 400 (Text "Invalid request data") in
  let '(o, w1) := getTestCase test_case_id w in
  match o with
  | Returned None => (mkReply 404 (Text "Test case not found"), w1)
  | Thrown _ => (invalid, w1)
  | Returned (Some testCase) =>
      let '(o2, w2) := revertToVersion row_update test_case_id version w1 in
      match o2 with
      | Returned true =>
          let '(o3, w3) := getTestCase test_case_id w2 in
          match o3, currentUser with
          | Returned updatedTestCase, Some currentUser =>
              let w4 :=
                Routes.not_awaited
                  (logActivity
                     {| ial_user_id := u_id currentUser;
                        ial_action := "revert_test_case";
                        ial_entity_type := "test_case";
                        ial_entity_id := test_case_id;
                        ial_details :=
                          details
                            [("fromVersion", pretty (tc_version testCase));
                             ("toVersion", pretty version)] |}) w3 in
              (mkReply 200 (CaseBody updatedTestCase), w4)
          | _, _ => (invalid, w3)
          end
      | Returned false =>
          (mkReply 500
             (Text "Failed to revert test case to specified version"), w2)
      | Thrown _ => (invalid, w2)
      end
  end.

End Revert.

End Handlers.

(** ** Readings used by the further properties *)

Module MoreView.

(** The number of test cases of a list that have a status. *)
Definition count_with_status (s : string) (l : list TestCase) : Z :=
  Z.of_nat (length (filter (fun tc => tc_status tc = s) l)).

(** The number listed under a status, if the status is listed. *)
Fixpoint listed (s : string) (counts : list (string * option Z))
  : option (option Z) :=
  match counts with
  | [] => None
  | (s', n) :: rest => if String.eqb s' s then Some n else listed s rest
  end.

(** A status that is an ordinary key of a plain object: no member of
    [Object.prototype] and no array index. *)
Definition plain (s : string) : bool :=
  negb (Mem.inherited s) && negb (String.eqb s "__proto__")
  && negb (Mem.is_index (s, None)).

(** What the first loop of [getTestStatusCounts] keeps true of
    [statusMap] and the test cases seen so far, while the statuses are
    plain. *)
Definition counted (counts : Mem.StatusMap) (seen : list TestCase) : Prop :=
  NoDup (map fst counts)
  /\ Forall (fun p => plain (fst p)) counts
  /\ forall s, listed s counts
               = if count_with_status s seen =? 0 then None
                 else Some (Some (count_with_status s seen)).

(** A store whose test cases have the statuses given, in this order. *)
Definition with_statuses (statuses : list string) : Mem.MemStorage :=
  Mem.set_testCases
    (imap (fun i s =>
             (Z.of_nat i + 1,
              mkTestCase (Z.of_nat i + 1) "t" None s "medium" "functional"
                None 1 0 0 None None 1))
       statuses)
    (Mem.blank (fun _ => 0)).

(** A clock that ticks a second per reading. *)
Definition seconds : nat -> Z := fun k => Z.of_nat k * 1000.

Definition log_of (user entity : Z) : InsertActivityLog :=
  {| ial_user_id := user; ial_action := "create_test_case";
     ial_entity_type := "test_case"; ial_entity_id := entity;
     ial_details := None |}.

(** A store without seed after three log records, of users 1, 1 and 9. *)
Definition three_logs : Mem.MemStorage :=
  snd (Mem.logActivity (log_of 9 3)
         (snd (Mem.logActivity (log_of 1 2)
                 (snd (Mem.logActivity (log_of 1 1)
                         (snd (Mem.createUser Mem.seed_admin
                                 (Mem.blank seconds)))))))).

(** A clock that never goes back. *)
Definition monotone (clock : nat -> Z) : Prop :=
  forall i j, (i <= j)%nat -> clock i <= clock j.

End MoreView.

(** ** Sequences of calls on a [MemStorage] *)

Module MemTrace.

Import Mem MemMore.

(** A call of one of the methods that write to the instance. *)
Inductive Call :=
| CreateUser (user : InsertUser)
| UpdateUser (id : Z) (data : UserPatch)
| UpdateUserLastLogin (id : Z)
| CreateFolder (folder : InsertFolder)
| UpdateFolder (id : Z) (data : FolderPatch)
| DeleteFolder (id : Z)
| CreateTestCase (testCaseWithSteps : TestCaseWithSteps)
| AssignTestCaseToFolder (test_case_id folderId : Z)
| RemoveTestCaseFromFolder (test_case_id folderId : Z)
| CreateTestRunResult (result : InsertTestRunResult)
| LogActivity (log : InsertActivityLog).

Definition call (c : Call) (m : MemStorage) : MemStorage :=
  match c with
  | CreateUser user => snd (createUser user m)
  | UpdateUser id data => snd (updateUser id data m)
  | UpdateUserLastLogin id => updateUserlast_login id m
  | CreateFolder folder => snd (createFolder folder m)
  | UpdateFolder id data => snd (updateFolder id data m)
  | DeleteFolder id => snd (deleteFolder id m)
  | CreateTestCase c => snd (createTestCase c m)
  | AssignTestCaseToFolder tc f => snd (assignTestCaseToFolder tc f m)
  | RemoveTestCaseFromFolder tc f => snd (removeTestCaseFromFolder tc f m)
  | CreateTestRunResult result => snd (createTestRunResult result m)
  | LogActivity log => snd (logActivity log m)
  end.

Definition calls (cs : list Call) (m : MemStorage) : MemStorage :=
  foldl (fun m c => call c m) m cs.

(** Every entry of a map is filed under the id its value carries, the
    keys are distinct, and all lie below the counter [n]. *)
Definition filed {V} (id_of : V -> Z) (n : Z) (m : JsMap.t V) : Prop :=
  NoDup (JsMapMore.keys m)
  /\ Forall (fun e => id_of (snd e) = fst e /\ fst e < n) m.

Definition step_ids (m : MemStorage) : list Z :=
  map ts_id (concat (JsMap.values (testSteps m))).

(** The steps are filed under test case ids handed out, each list holds
    steps of its test case, and the step ids are distinct and below the
    step counter. *)
Definition steps_filed (m : MemStorage) : Prop :=
  NoDup (JsMapMore.keys (testSteps m))
  /\ Forall (fun e =>
              fst e < test_case_id m
              /\ Forall (fun s => ts_test_case_id s = fst e
                                  /\ ts_id s < testStepId m) (snd e))
       (testSteps m)
  /\ NoDup (step_ids m).

Definition numbered (m : MemStorage) : Prop :=
  filed u_id (userId m) (users m)
  /\ filed f_id (folderId m) (folders m)
  /\ filed tc_id (test_case_id m) (testCases m)
  /\ steps_filed m.

(** The calls of the constructor body. *)
Definition seed_calls : list Call :=
  [ CreateUser seed_admin;
    CreateFolder
      (mkInsertFolder "Regression Tests" (Some "Tests for regression testing")
         (Some 1));
    CreateFolder
      (mkInsertFolder "Smoke Tests" (Some "Quick smoke tests") (Some 1));
    CreateFolder
      (mkInsertFolder "Feature Tests" (Some "Feature specific tests")
         (Some 1));
    CreateTestCase seed_case_1; AssignTestCaseToFolder 1 1;
    CreateTestCase seed_case_2; AssignTestCaseToFolder 2 1;
    CreateTestCase seed_case_3; AssignTestCaseToFolder 3 2 ].

End MemTrace.

(** ** A store with one run *)

Module RunScenario.

Import MemRuns.

Definition nightly : InsertTestRun :=
  {| itr_name := "Nightly"; itr_description := None;
     itr_status := "in_progress"; itr_executed_by := 1 |}.

(** Run 1, started at time 0 on a clock that ticks a second per
    reading. *)
Definition one_run : RunStore :=
  snd (createTestRun nightly (mkRunStore [] 1 MoreView.seconds 0)).

End RunScenario.

(** ** A store with a folder, and a user *)

Module HandlerScenario.

Import Supabase.

Definition regression : Folder :=
  mkFolder 1 "Regression Tests" None (Some 1) 1000.

(** The "Login" store with one folder. *)
Definition folder_store : World :=
  mkWorld [regression] (test_cases Scenario.login_store)
    (test_steps Scenario.login_store) [] [] [] []
    (serial Scenario.login_store) 1000 [].

Definition eve : User :=
  mkUser 5 "eve" "eve@example.com" "secret" "Eve" None "tester" None true.


End HandlerScenario.

(** ** Folders in [SupabaseStorage] *)

Module SupabaseFolders.

Import Supabase.

Definition with_folders (x : list Folder) (w : World) : World :=
  mkWorld x (test_cases w) (test_steps w) (test_versions w)
    (test_case_folders w) (test_run_results w) (activity_logs w)
    (serial w) (now w) (faults w).

(** [from("folders").select()] *)
Definition select_folders : World -> Response (list Folder) * World :=
  request (fun w => (Data (folders w), w)).

Definition getFolders : Async (list Folder) := fun w =>
  let '(r, w1) := select_folders w in
  match r with
  | Failure error => (Thrown error, w1)
  | Data data => (Returned data, w1)
  end.

(** [from("folders").delete().eq("id", id)]: no error when no row
    matches. *)
Definition delete_folder (id : Z) : World -> Response unit * World :=
  request (fun w =>
    (Data tt,
     with_folders (filter (fun f => negb (f_id f =? id)) (folders w)) w)).

Definition deleteFolder (id : Z) : Async bool := fun w =>
  let '(r, w1) := delete_folder id w in
  match r with
  | Failure _ => (Returned false, w1)
  | Data _ => (Returned true, w1)
  end.

End SupabaseFolders.

(** * Properties *)

(** ** Facts on JS maps *)

Module JsMapFacts.

Import JsMap.

Section Facts.
Context {V : Type}.
Implicit Types (m : JsMap.t V) (k : Z) (v : V).

Lemma get_set_eq k v m : get k (set k v m) = Some v.
Proof.
  induction m as [|[k' v'] rest IH]; simpl.
  - by rewrite Z.eqb_refl.
  - destruct (k' =? k) eqn:E; simpl; [by rewrite Z.eqb_refl | by rewrite E].
Qed.

Lemma get_set_ne k k' v m : k <> k' -> get k' (set k v m) = get k' m.
Proof.
  intros Hne. induction m as [|[k0 v0] rest IH]; simpl.
  - destruct (k =? k') eqn:E; [apply Z.eqb_eq in E; contradiction | done].
  - destruct (k0 =? k) eqn:E; simpl.
    + apply Z.eqb_eq in E. subst k0.
      destruct (k =? k') eqn:E'; [apply Z.eqb_eq in E'; contradiction | done].
    + destruct (k0 =? k'); [done | apply IH].
Qed.


Lemma set_same k v m : get k m = Some v -> set k v m = m.
Proof.
  induction m as [|[k' v'] rest IH]; simpl; [done|].
  destruct (k' =? k) eqn:E.
  - apply Z.eqb_eq in E. intros [= ->]. by subst.
  - intros H. by rewrite IH.
Qed.

Lemma set_set k v v' m : set k v' (set k v m) = set k v' m.
Proof.
  induction m as [|[k0 v0] rest IH]; simpl.
  - by rewrite Z.eqb_refl.
  - destruct (k0 =? k) eqn:E; simpl; [by rewrite Z.eqb_refl|].
    by rewrite E, IH.
Qed.

End Facts.

End JsMapFacts.

Module SupabaseFacts.

Import Supabase View.

(** Unfold one request and split on what the oracle says. *)
Ltac by_oracle w :=
  unfold request; destruct (faults w) as [|[|] ?]; simpl.

Lemma map_patch_versions id data (l : list TestCase) :
  map (fun tc => (tc_id tc, tc_version tc))
    (map (fun tc => if tc_has_id id tc then apply_patch data tc else tc) l)
  = map (fun tc => (tc_id tc, tc_version tc)) l.
Proof.
  rewrite map_map. apply map_ext. intros tc.
  destruct (tc_has_id id tc); reflexivity.
Qed.

Lemma update_test_case_versions id data w :
  versions_by_id (snd (update_test_case id data w)) = versions_by_id w
  /\ test_versions (snd (update_test_case id data w)) = test_versions w.
Proof.
  unfold update_test_case, versions_by_id. by_oracle w; try done;
    destruct (single _); simpl; auto using map_patch_versions.
Qed.

Lemma delete_test_steps_tables id w :
  test_cases (snd (delete_test_steps id w)) = test_cases w
  /\ test_versions (snd (delete_test_steps id w)) = test_versions w
  /\ test_case_folders (snd (delete_test_steps id w)) = test_case_folders w.
Proof. unfold delete_test_steps. by_oracle w; done. Qed.

Lemma insert_test_steps_tables rows w :
  test_cases (snd (insert_test_steps rows w)) = test_cases w
  /\ test_versions (snd (insert_test_steps rows w)) = test_versions w
  /\ test_case_folders (snd (insert_test_steps rows w)) = test_case_folders w.
Proof. unfold insert_test_steps. by_oracle w; done. Qed.

Lemma updateTestCase_versions id data steps w :
  versions_by_id (snd (updateTestCase id data steps w)) = versions_by_id w
  /\ test_versions (snd (updateTestCase id data steps w)) = test_versions w.
Proof.
  unfold updateTestCase.
  destruct (update_test_case_versions id data w) as [Hv Ht].
  destruct (update_test_case id data w) as [r w1]; simpl in *.
  destruct r as [tc|e]; [|done].
  destruct steps as [steps|]; [|done].
  destruct (delete_test_steps_tables id w1) as (Hc & Hs & _).
  destruct (delete_test_steps id w1) as [r2 w2]; simpl in *.
  destruct r2; simpl.
  - destruct (insert_test_steps_tables (map (with_test_case_id id) steps) w2)
      as (Hc' & Hs' & _).
    destruct (insert_test_steps _ w2) as [r3 w3]; simpl in *.
    unfold versions_by_id in *.
    destruct r3; simpl; rewrite Hc', Hs', Hc, Hs; done.
  - unfold versions_by_id in *. rewrite Hc, Hs. done.
Qed.

Lemma update_many_versions_of id calls w :
  versions_by_id (update_many id calls w) = versions_by_id w
  /\ test_versions (update_many id calls w) = test_versions w.
Proof.
  revert w. induction calls as [|[data steps] rest IH]; intros w; simpl.
  - done.
  - destruct (IH (snd (updateTestCase id data steps w))) as [-> ->].
    apply updateTestCase_versions.
Qed.

End SupabaseFacts.

(** ** Versions under [updateTestCase] *)

Module Versioning.

Import Supabase View SupabaseFacts Scenario.

Lemma createTestCase_version body w tc w1 :
  createTestCase body w = (Returned tc, w1) -> tc_version tc = 1.
Proof.
  unfold createTestCase, insert_test_case.
  by_oracle w; try done;
    (destruct (0 <? _); [|by intros [= <- _]]);
    destruct (insert_test_steps _ _) as [[]?]; try done; by intros [= <- _].
Qed.

Lemma mem_createTestCase_version body m :
  tc_version (fst (Mem.createTestCase body m)) = 1
  /\ Mem.testVersions (snd (Mem.createTestCase body m)) = Mem.testVersions m.
Proof.
  unfold Mem.createTestCase. simpl. split; [done|].
  by destruct (0 <? _).
Qed.

(** The snapshot rows come from [createTestVersion] alone, which leaves
    the version fields as they are. *)
Lemma createTestVersion_versions version w :
  versions_by_id (snd (createTestVersion version w)) = versions_by_id w
  /\ match fst (createTestVersion version w) with
     | Returned row =>
         test_versions (snd (createTestVersion version w))
         = test_versions w ++ [row]
     | Thrown _ =>
         test_versions (snd (createTestVersion version w)) = test_versions w
     end.
Proof.
  unfold createTestVersion, insert_test_version, versions_by_id.
  by_oracle w; done.
Qed.

(** C1, as the code has it: [updateTestCase] neither changes a version
    field nor writes a snapshot.  After any number of calls, successful or
    not, every test case has the version it had before and [test_versions]
    holds the rows it held before; a test case is created at version 1, by
    either adapter, and the in-memory adapter records no snapshot for
    it. *)
Theorem updateTestCase_keeps_versions id calls w :
  versions_by_id (update_many id calls w) = versions_by_id w
  /\ test_versions (update_many id calls w) = test_versions w
  /\ snapshots_of id (update_many id calls w) = snapshots_of id w
  /\ (forall body,
        match fst (createTestCase body w) with
        | Returned tc => tc_version tc = 1
        | Thrown _ => True
        end)
  /\ (forall body m,
        tc_version (fst (Mem.createTestCase body m)) = 1
        /\ Mem.testVersions (snd (Mem.createTestCase body m))
           = Mem.testVersions m).
Proof.
  destruct (update_many_versions_of id calls w) as [Hv Ht].
  unfold snapshots_of. rewrite Hv, Ht.
  split; [done|]. split; [done|]. split; [done|]. split.
  - intros body.
    destruct (createTestCase body w) as [[tc|e] w1] eqn:E; simpl; [|done].
    by apply createTestCase_version in E.
  - apply mem_createTestCase_version.
Qed.

(** C1 as stated fails for N = 1: after one successful content-changing
    update of the freshly created "Login" case its version is not 2 and
    the number of its snapshots is not 1. *)
Lemma version_after_one_update :
  let '(r, w) :=
    updateTestCase 1 (retitle "Sign in") (Some open_page_only) login_store in
  (exists tc, r = Returned (Some tc) /\ tc_title tc = "Sign in")
  /\ map tc_version (rows_of_case 1 w) <> [1 + 1]
  /\ length (snapshots_of 1 w) <> 1%nat.
Proof. vm_compute. split; [eexists; split; reflexivity|]. split; discriminate. Qed.

End Versioning.

(** ** Step replacement in [updateTestCase] *)

Module Steps.

Import Supabase View SupabaseFacts Scenario.


Lemma delete_test_steps_ok id w u w' :
  delete_test_steps id w = (Data u, w') ->
  test_steps w' = filter (fun s => negb (step_of id s)) (test_steps w)
  /\ serial w' = serial w.
Proof. unfold delete_test_steps. by_oracle w; try done; by intros [= _ <-]. Qed.

Lemma insert_test_steps_ok rows w u w' :
  insert_test_steps rows w = (Data u, w') ->
  test_steps w'
  = test_steps w ++ imap (new_test_step (next_id "test_steps" w)) rows.
Proof. unfold insert_test_steps. by_oracle w; try done; by intros [= _ <-]. Qed.


Lemma filter_all {A} (P : A -> Prop) `{!forall x, Decision (P x)} (l : list A) :
  Forall P l -> filter P l = l.
Proof.
  induction 1 as [|x l Hx _ IH]; [done|].
  by rewrite filter_cons_True, IH.
Qed.

Lemma filter_none {A} (P : A -> Prop) `{!forall x, Decision (P x)} (l : list A) :
  Forall (fun x => ~ P x) l -> filter P l = [].
Proof.
  induction 1 as [|x l Hx _ IH]; [done|].
  by rewrite filter_cons_False, IH.
Qed.

Lemma steps_of_others_removed id (l : list TestStep) :
  filter (fun s => step_of id s) (filter (fun s => negb (step_of id s)) l) = [].
Proof.
  apply filter_none, Forall_forall. intros s Hs.
  apply list_elem_of_filter in Hs as [Hs _].
  destruct (step_of id s); simpl in *; tauto.
Qed.




(** The empty array replaces the steps by none. *)
Example updateTestCase_empty_steps :
  let call := updateTestCase 1 (retitle "Sign in") (Some []) login_store in
  fst call = Returned (Some renamed_login)
  /\ length (steps_of 1 login_store) = 2%nat
  /\ steps_of 1 (snd call) = [].
Proof. by vm_compute. Qed.

End Steps.

(** ** Cascading delete *)

Module Cascade.

Import Supabase View SupabaseFacts Scenario.

Lemma delete_test_case_tables id w :
  test_case_folders (snd (delete_test_case id w)) = test_case_folders w
  /\ test_steps (snd (delete_test_case id w)) = test_steps w.
Proof. unfold delete_test_case. by_oracle w; done. Qed.

(** No path of [deleteTestCase] writes to [test_case_folders]. *)
Lemma deleteTestCase_folder_rows id w :
  test_case_folders (snd (deleteTestCase id w)) = test_case_folders w.
Proof.
  unfold deleteTestCase.
  destruct (delete_test_steps_tables id w) as (_ & _ & Hf).
  destruct (delete_test_steps id w) as [[u|e] w1]; simpl in *; [|done].
  destruct (delete_test_case_tables id w1) as [Hf' _].
  destruct (delete_test_case id w1) as [[u'|e] w2]; simpl in *; congruence.
Qed.

(** The part of the cascade the code performs: a call that reports success
    has removed the steps of the test case and its row. *)
Lemma delete_test_case_ok id w u w' :
  delete_test_case id w = (Data u, w') ->
  test_cases w' = filter (fun tc => negb (tc_has_id id tc)) (test_cases w)
  /\ test_steps w' = test_steps w.
Proof. unfold delete_test_case. by_oracle w; try done; by intros [= _ <-]. Qed.

Lemma deleteTestCase_true id w w' :
  deleteTestCase id w = (Returned true, w') ->
  steps_of id w' = [] /\ rows_of_case id w' = [].
Proof.
  unfold deleteTestCase, steps_of, rows_of_case.
  destruct (delete_test_steps id w) as [[u|e] w1] eqn:H1; [|done].
  apply Steps.delete_test_steps_ok in H1 as [H1 _].
  destruct (delete_test_case id w1) as [[u'|e] w2] eqn:H2; [|done].
  apply delete_test_case_ok in H2 as [H2 H2'].
  intros [= <-]. rewrite H2, H2', H1. split.
  - apply Steps.steps_of_others_removed.
  - apply Steps.filter_none, Forall_forall. intros tc Htc.
    apply list_elem_of_filter in Htc as [Htc _].
    destruct (tc_has_id id tc); simpl in *; tauto.
Qed.

(** A refused request makes the call report failure. *)
Lemma deleteTestCase_refused id w :
  (exists e w1, delete_test_steps id w = (Failure e, w1))
  \/ (exists u w1 e w2, delete_test_steps id w = (Data u, w1)
                       /\ delete_test_case id w1 = (Failure e, w2)) ->
  fst (deleteTestCase id w) = Returned false.
Proof.
  unfold deleteTestCase.
  intros [(e & w1 & ->)|(u & w1 & e & w2 & -> & ->)]; reflexivity.
Qed.

(** C6 at the failing input: deleting "Login" (three steps, two folder
    associations) reports success and removes the steps and the row, and
    both association rows still reference test case 1. *)
Theorem deleteTestCase_leaves_folder_rows :
  let '(r, w) := deleteTestCase 1 cascade_store in
  r = Returned true
  /\ length (steps_of 1 cascade_store) = 3%nat
  /\ steps_of 1 w = []
  /\ rows_of_case 1 w = []
  /\ fst (getTestCase 1 w) = Returned None
  /\ folder_rows_of 1 w = [mkTestCaseFolder 1 1 1; mkTestCaseFolder 2 1 2].
Proof. vm_compute. repeat split; reflexivity. Qed.

End Cascade.

(** ** Status propagation in the persistent adapter *)

Module Propagation.

Import Supabase View SupabaseFacts Scenario.

Lemma map_set_status_last_run id s (l : list TestCase) :
  map tc_last_run
    (map (fun tc => if tc_has_id id tc then set_status s tc else tc) l)
  = map tc_last_run l.
Proof.
  rewrite map_map. apply map_ext. intros tc. by destruct (tc_has_id id tc).
Qed.

(** [createTestRunResult] never writes [last_run] in the persistent
    adapter. *)
Lemma createTestRunResult_last_run result w :
  map tc_last_run (test_cases (snd (createTestRunResult result w)))
  = map tc_last_run (test_cases w).
Proof.
  unfold createTestRunResult, insert_test_run_result, updateTestCaseStatus,
    update_test_case_status_row.
  by_oracle w; try done; unfold request; simpl.
  - destruct (faults w) as [|[|] ?]; simpl; auto using map_set_status_last_run.
  - destruct l as [|[|] ?]; simpl; auto using map_set_status_last_run.
Qed.

(** C5 at the failing input: a "failed" result recorded for "Login" at
    time 1000.  The status is propagated; [last_run] is still [null], not
    the execution time of the result. *)
Theorem createTestRunResult_leaves_last_run :
  let '(r, w) := createTestRunResult failed_run login_store in
  (exists res, r = Returned res /\ trr_executed_at res = 1000)
  /\ map tc_status (rows_of_case 1 w) = ["failed"]
  /\ map tc_last_run (rows_of_case 1 w) = [None].
Proof. vm_compute. split; [eexists; split; reflexivity|]. by split. Qed.

End Propagation.

(** ** Reverting *)

Module Revert.

Import Supabase View SupabaseFacts Scenario.

Section AnyStore.

Variable row_update :
  option TestVersion -> Z -> list TestCase -> Response (list TestCase).

Lemma select_test_versions_spec id w :
  (exists w', select_test_versions id w = (Failure BackendUnavailable, w')
              /\ tables w' = tables w)
  \/ (exists w', select_test_versions id w = (Data (snapshots_of id w), w')
                 /\ tables w' = tables w).
Proof.
  unfold select_test_versions, snapshots_of.
  by_oracle w; [right|left|right]; eexists; split; reflexivity.
Qed.

(** Without a snapshot row [revertToVersion] answers [false] and writes
    nothing. *)
Lemma revertToVersion_no_snapshot id version w :
  snapshots_of id w = [] ->
  fst (revertToVersion row_update id version w) = Returned false
  /\ tables (snd (revertToVersion row_update id version w)) = tables w.
Proof.
  intros Hnone. unfold revertToVersion.
  destruct (select_test_versions_spec id w) as [(w' & -> & Ht)|(w' & -> & Ht)].
  - done.
  - rewrite Hnone. done.
Qed.

(** What the store is asked to write: the row at position [version - 1]
    of the selected snapshots, whatever its version number. *)
Lemma revertToVersion_positional id version w :
  faults w = [] ->
  snapshots_of id w <> [] ->
  revertToVersion row_update id version w
  = match row_update (version_at (snapshots_of id w) version) id
            (test_cases w) with
    | Data rows => (Returned true, with_test_cases rows w)
    | Failure _ => (Returned false, w)
    end.
Proof.
  intros Hf Hne. unfold revertToVersion, select_test_versions, request.
  rewrite Hf. fold (snapshots_of id w).
  destruct (snapshots_of id w) as [|v vs] eqn:E; [done|].
  simpl length. destruct (Z.of_nat (S (length vs)) =? 0) eqn:E0;
    [apply Z.eqb_eq in E0; lia|].
  unfold update_test_case_with_row, request. rewrite Hf.
  by destruct (row_update _ _ _).
Qed.

End AnyStore.

(** C3 at the failing input: "Login" with the snapshots tagged 2 and 3.
    Asked for version 2, [revertToVersion] takes the row at position 1,
    which is the snapshot tagged 3, and hands that row to the store; the
    snapshot whose version number is 2 is not the one applied. *)
Theorem revertToVersion_picks_by_position :
  snapshots_of 1 history_store = [snapshot_2; snapshot_3]
  /\ version_at (snapshots_of 1 history_store) 2 = Some snapshot_3
  /\ tv_version snapshot_3 <> 2
  /\ forall row_update,
       revertToVersion row_update 1 2 history_store
       = match row_update (Some snapshot_3) 1 (test_cases history_store) with
         | Data rows => (Returned true, with_test_cases rows history_store)
         | Failure _ => (Returned false, history_store)
         end.
Proof.
  split; [reflexivity|]. split; [reflexivity|]. split; [discriminate|].
  intros row_update.
  rewrite (revertToVersion_positional row_update 1 2 history_store);
    [reflexivity|reflexivity|discriminate].
Qed.

(** A version number with no row at its position: the store is handed
    [undefined], and the call answers what the store answers. *)
Lemma revertToVersion_out_of_range row_update :
  version_at (snapshots_of 1 history_store) 5 = None
  /\ revertToVersion row_update 1 5 history_store
     = match row_update None 1 (test_cases history_store) with
       | Data rows => (Returned true, with_test_cases rows history_store)
       | Failure _ => (Returned false, history_store)
       end.
Proof.
  split; [reflexivity|].
  rewrite (revertToVersion_positional row_update 1 5 history_store);
    [reflexivity|reflexivity|discriminate].
Qed.

Lemma versions_of_rows id (l : list TestCase) :
  filter (fun p : Z * Z => fst p =? id)
    (map (fun tc => (tc_id tc, tc_version tc)) l)
  = map (fun tc => (tc_id tc, tc_version tc))
      (filter (fun tc => tc_has_id id tc) l).
Proof.
  induction l as [|tc l IH]; [done|].
  simpl. rewrite !filter_cons. unfold tc_has_id at 1. simpl.
  destruct (decide (tc_id tc =? id)); simpl; by rewrite IH.
Qed.

Lemma rows_versions id w :
  map tc_version (rows_of_case id w)
  = map snd (filter (fun p : Z * Z => fst p =? id) (versions_by_id w)).
Proof.
  unfold rows_of_case, versions_by_id.
  rewrite versions_of_rows, map_map. done.
Qed.

Lemma insert_test_case_ok i w row w' :
  insert_test_case i w = (Data row, w') ->
  row = new_test_case i w
  /\ test_cases w' = test_cases w ++ [row]
  /\ test_versions w' = test_versions w.
Proof.
  unfold insert_test_case. by_oracle w; try done; by intros [= <- <-].
Qed.

Lemma createTestCase_ok body w tc w1 :
  createTestCase body w = (Returned tc, w1) ->
  test_cases w1 = test_cases w ++ [tc]
  /\ tc_version tc = 1
  /\ tc_id tc = next_id "test_cases" w
  /\ test_versions w1 = test_versions w.
Proof.
  unfold createTestCase.
  destruct (insert_test_case (tcs_case body) w) as [[row|e] w'] eqn:Hins;
    [|done].
  apply insert_test_case_ok in Hins as (-> & Hrows & Hsnap).
  destruct (0 <? _).
  - match goal with |- context [insert_test_steps ?rows w'] =>
      destruct (insert_test_steps_tables rows w') as (Hc & Hv & _);
      destruct (insert_test_steps rows w') as [[u|e] w2]; [|done]
    end.
    simpl in Hc, Hv. intros [= <- <-]. by rewrite Hc, Hv.
  - by intros [= <- <-].
Qed.

(** C4, as the code has it.  A test case created and then updated twice
    is still at version 1 and has no snapshot; [revertToVersion] for
    version 2 then answers [false] and writes nothing, whatever the store
    would do with a snapshot row: the version stays 1 and no snapshot is
    added. *)
Theorem revertToVersion_after_two_updates
    (row_update :
       option TestVersion -> Z -> list TestCase -> Response (list TestCase))
    body call1 call2 w tc w1 :
  createTestCase body w = (Returned tc, w1) ->
  rows_of_case (tc_id tc) w = [] ->
  snapshots_of (tc_id tc) w = [] ->
  let w3 := update_many (tc_id tc) [call1; call2] w1 in
  map tc_version (rows_of_case (tc_id tc) w3) = [1]
  /\ snapshots_of (tc_id tc) w3 = []
  /\ fst (revertToVersion row_update (tc_id tc) 2 w3) = Returned false
  /\ tables (snd (revertToVersion row_update (tc_id tc) 2 w3)) = tables w3.
Proof.
  intros Hcreate Hfresh Hnone w3.
  apply createTestCase_ok in Hcreate as (Hrows & Hv & _ & Hsnap).
  destruct (update_many_versions_of (tc_id tc) [call1; call2] w1)
    as [Hvers Htv].
  fold w3 in Hvers, Htv.
  assert (snapshots_of (tc_id tc) w3 = []) as Hnone3.
  { unfold snapshots_of in *. by rewrite Htv, Hsnap. }
  split; [|split; [exact Hnone3|]].
  - rewrite rows_versions, Hvers. unfold versions_by_id.
    rewrite Hrows, map_app, filter_app, versions_of_rows.
    unfold rows_of_case in Hfresh. rewrite Hfresh. simpl.
    rewrite filter_cons. simpl.
    destruct (decide (tc_id tc =? tc_id tc)) as [_|Hn].
    + simpl. by rewrite Hv.
    + rewrite Z.eqb_refl in Hn. by destruct Hn.
  - by apply revertToVersion_no_snapshot.
Qed.

(** "Login" created on an empty store, retitled twice, reverted to 2. *)
Lemma revertToVersion_after_two_updates_witness :
  let w3 :=
    update_many 1
      [(retitle "Sign in", Some open_page_only); (retitle "Log in", None)]
      login_store in
  Supabase.createTestCase login_case (Supabase.empty 1000)
  = (Returned login_row, login_store)
  /\ map tc_version (rows_of_case 1 w3) = [1]
  /\ fst (revertToVersion restoring_store 1 2 w3) = Returned false.
Proof.
  intros w3. split; [reflexivity|].
  destruct (revertToVersion_after_two_updates restoring_store login_case
              (retitle "Sign in", Some open_page_only)
              (retitle "Log in", None) (Supabase.empty 1000) login_row
              login_store eq_refl eq_refl eq_refl) as (Hv & _ & Hr & _).
  split; [exact Hv | exact Hr].
Defined.

(** C4 as stated fails: after the two (successful) updates of "Login"
    the revert to version 2 answers [false], the version is not 4, and
    the title is the one of the second update, not a restored one; this
    with a store that would write a snapshot's data back. *)
Lemma revertToVersion_does_not_reach_4 :
  let '(r1, w1) :=
    updateTestCase 1 (retitle "Sign in") (Some open_page_only) login_store in
  let '(r2, w2) := updateTestCase 1 (retitle "Log in") None w1 in
  let '(r3, w3) := revertToVersion restoring_store 1 2 w2 in
  (exists tc1 tc2, r1 = Returned (Some tc1) /\ r2 = Returned (Some tc2))
  /\ r3 = Returned false
  /\ map tc_version (rows_of_case 1 w3) <> [4]
  /\ map tc_title (rows_of_case 1 w3) = ["Log in"].
Proof.
  vm_compute. split; [do 2 eexists; split; reflexivity|].
  split; [reflexivity|]. split; [discriminate|reflexivity].
Qed.

End Revert.

(** ** Folder membership in the in-memory adapter *)

Module Membership.

Import Mem MemView JsMapFacts.

Lemma assign_when_assigned tc f m S :
  JsMap.get f (testCaseFolders m) = Some S -> tc ∈ S ->
  assignTestCaseToFolder tc f m
  = (mkTestCaseFolder (testCaseFolderId m) tc f,
     set_testCaseFolderId (testCaseFolderId m + 1) m).
Proof.
  intros Hget Hin. unfold assignTestCaseToFolder, JsMap.has.
  rewrite Hget. simpl. rewrite Hget. simpl. by rewrite decide_True.
Qed.

Lemma assign_post tc f m :
  (exists S, JsMap.get f (testCaseFolders (snd (assignTestCaseToFolder tc f m)))
             = Some S /\ tc ∈ S)
  /\ fst (assignTestCaseToFolder tc f m)
     = mkTestCaseFolder (testCaseFolderId m) tc f
  /\ testCaseFolderId (snd (assignTestCaseToFolder tc f m))
     = testCaseFolderId m + 1.
Proof.
  unfold assignTestCaseToFolder, JsMap.has.
  destruct (JsMap.get f (testCaseFolders m)) as [S|] eqn:Hget; simpl.
  - rewrite Hget. simpl. destruct (decide (tc ∈ S)) as [Hin|Hout]; simpl;
      (split; [|split; reflexivity]).
    + exists S. done.
    + exists ({[tc]} ∪ S). rewrite get_set_eq. split; [done|set_solver].
  - rewrite get_set_eq. simpl.
    destruct (decide (tc ∈ (∅ : gset Z))) as [Hin|_]; [set_solver|]. simpl.
    split; [|split; reflexivity]. exists ({[tc]} ∪ ∅).
    rewrite get_set_eq. split; [done|set_solver].
Qed.

Lemma set_testCaseFolders_same m :
  set_testCaseFolders (testCaseFolders m) m = m.
Proof. by destruct m. Qed.

Lemma remove_when_unassigned tc f m :
  ~ assigned tc f m -> removeTestCaseFromFolder tc f m = (false, m).
Proof.
  unfold assigned, members, removeTestCaseFromFolder.
  destruct (JsMap.get f (testCaseFolders m)) as [S|] eqn:Hget; simpl; [|done].
  intros Hout. rewrite bool_decide_eq_false_2 by done.
  assert (S ∖ {[tc]} = S) as ->
    by (by apply difference_disjoint_L, disjoint_singleton_r).
  by rewrite (set_same _ _ _ Hget), set_testCaseFolders_same.
Qed.

(** C7, as the code has it.  A second [assignTestCaseToFolder(tc, f)]
    leaves the folder sets as the first call left them, with [tc] a
    member of [f] once (the members form a set); it answers a record of
    the same pair under the next association id, not the record of the
    first call.  [removeTestCaseFromFolder] on a pair that is not assigned
    answers [false] and changes nothing. *)
Theorem assignTestCaseToFolder_twice tc f m :
  let first := assignTestCaseToFolder tc f m in
  let second := assignTestCaseToFolder tc f (snd first) in
  assigned tc f (snd first)
  /\ testCaseFolders (snd second) = testCaseFolders (snd first)
  /\ fst second = mkTestCaseFolder (tcf_id (fst first) + 1) tc f
  /\ forall tc' f',
       ~ assigned tc' f' m -> removeTestCaseFromFolder tc' f' m = (false, m).
Proof.
  intros first second. subst first second.
  destruct (assign_post tc f m) as ((S & Hget & Hin) & Hfst & Hid).
  rewrite (assign_when_assigned tc f _ S Hget Hin). simpl.
  split; [|split; [done|split]].
  - unfold assigned, members. by rewrite Hget.
  - by rewrite Hid, Hfst.
  - intros tc' f'. apply remove_when_unassigned.
Qed.

(** Test case 7 and folder 3 on a store without folder sets: assigned
    twice, and test case 8 removed from the folder it is not in. *)
Lemma assignTestCaseToFolder_twice_witness :
  let m := blank (still 0) in
  ~ assigned 8 3 m
  /\ removeTestCaseFromFolder 8 3 m = (false, m)
  /\ fst (assignTestCaseToFolder 7 3 (snd (assignTestCaseToFolder 7 3 m)))
     = mkTestCaseFolder 2 7 3.
Proof.
  intros m.
  assert (~ assigned 8 3 m) as Hout by (vm_compute; set_solver).
  destruct (assignTestCaseToFolder_twice 7 3 m) as (_ & _ & Hsecond & Hrem).
  split; [exact Hout|]. split; [exact (Hrem 8 3 Hout)|exact Hsecond].
Defined.

(** C7 as stated fails: the second call does not answer the association
    the first call answered, but a record with another id. *)
Lemma reassign_answers_new_record :
  let '(first, m1) := assignTestCaseToFolder 7 3 (blank (still 0)) in
  let '(second, m2) := assignTestCaseToFolder 7 3 m1 in
  tcf_id first = 1 /\ tcf_id second = 2 /\ second <> first.
Proof. vm_compute. split; [done|]. split; [done|discriminate]. Qed.

End Membership.

(** ** The seed of a new in-memory store *)

Module Seed.

Import Mem MemView.

Lemma insert_recent_perm a l : insert_recent a l ≡ₚ a :: l.
Proof.
  induction l as [|b l IH]; simpl; [done|].
  destruct (_ <=? 0); [done|].
  rewrite IH. apply Permutation_swap.
Qed.

Lemma sort_recent_perm l : sort_recent l ≡ₚ l.
Proof.
  induction l as [|a l IH]; simpl; [done|].
  by rewrite insert_recent_perm, IH.
Qed.

Lemma slice0_all {A} limit (l : list A) :
  Z.of_nat (length l) <= limit -> slice0 limit l = l.
Proof.
  intros Hle. unfold slice0.
  destruct (limit <? 0) eqn:E; [apply Z.ltb_lt in E; lia|].
  apply take_ge. lia.
Qed.

Lemma getRecentTestCases_all limit m :
  Z.of_nat (length (testCases m)) <= limit ->
  getRecentTestCases limit m ≡ₚ JsMap.values (testCases m).
Proof.
  intros Hle. unfold getRecentTestCases.
  rewrite slice0_all.
  - apply sort_recent_perm.
  - rewrite (Permutation_length (sort_recent_perm _)).
    unfold JsMap.values. by rewrite length_map.
Qed.

(** The entities the constructor does not seed: no run result, no
    activity record, no version, and their counters at 1. *)
Lemma constructor_leaves_empty clock :
  let m := constructor clock in
  testRunResults m = [] /\ activityLogs m = [] /\ testVersions m = []
  /\ (testVersionId m, test_run_result_id m, activityLogId m) = (1, 1, 1).
Proof. by vm_compute. Qed.

(** C10, as the claim has it, fails on the lists of what the constructor
    does not seed: on a fresh instance the results of run 1 and the
    recent activities are empty. *)
Lemma fresh_instance_lists_empty :
  getTestRunResults 1 (constructor (still 0)) = []
  /\ MemMore.getRecentActivities 10 (constructor (still 0)) = [].
Proof. split; vm_compute; reflexivity. Qed.

(** C10.  Whatever the clock, [new MemStorage()] holds the admin user
    (id 1), the three folders, the three test cases at version 1 with
    their 3 + 5 + 5 steps, and the assignments of cases 1 and 2 to folder
    1 and of case 3 to folder 2; the counters of users, folders, test
    cases, steps and associations stand past the ids handed out; the list
    and count operations over users, folders, test cases and folder
    membership answer this seed; the lists of run results and of recent
    activities are empty, whatever the run and the limit, and the
    counters of versions, run results and activity records stand at 1. *)
Theorem constructor_seeds clock :
  let m := constructor clock in
  map (fun u => (u_id u, u_username u, u_role u)) (getUsers m)
  = [(1, "admin", "system_owner")]
  /\ map (fun f => (f_id f, f_name f)) (getFolders m)
     = [(1, "Regression Tests"); (2, "Smoke Tests"); (3, "Feature Tests")]
  /\ map (fun tc => (tc_id tc, tc_title tc, tc_status tc, tc_version tc))
       (JsMap.values (testCases m))
     = [(1, "User Login Verification", "passed", 1);
        (2, "Password Reset Flow", "failed", 1);
        (3, "User Registration Form Validation", "pending", 1)]
  /\ map (fun e => (fst e, map ts_id (snd e), map ts_step_number (snd e)))
       (JsMap.entries (testSteps m))
     = [(1, [1; 2; 3], [1; 2; 3]);
        (2, [4; 5; 6; 7; 8], [1; 2; 3; 4; 5]);
        (3, [9; 10; 11; 12; 13], [1; 2; 3; 4; 5])]
  /\ (assigned 1 1 m /\ assigned 2 1 m /\ assigned 3 2 m)
  /\ getTestCountByFolder m = [(1, 2); (2, 1)]
  /\ (map f_id (getTestCaseFolders 1 m) = [1]
      /\ map f_id (getTestCaseFolders 2 m) = [1]
      /\ map f_id (getTestCaseFolders 3 m) = [2])
  /\ getTestStatusCounts m
     = [("passed", Some 1); ("failed", Some 1); ("pending", Some 1)]
  /\ getTestStatusStats m
     = [("passed", Some 1); ("failed", Some 1); ("pending", Some 1)]
  /\ getRecentTestCases 5 m ≡ₚ JsMap.values (testCases m)
  /\ (userId m, folderId m, test_case_id m, testStepId m, testCaseFolderId m)
     = (2, 4, 4, 14, 4)
  /\ (forall runId, getTestRunResults runId m = [])
  /\ (forall limit, MemMore.getRecentActivities limit m = [])
  /\ (testVersionId m, test_run_result_id m, activityLogId m) = (1, 1, 1).
Proof.
  intros m.
  split; [reflexivity|]. split; [reflexivity|]. split; [reflexivity|].
  split; [reflexivity|].
  split; [repeat split; vm_compute; set_solver|].
  split; [by vm_compute|].
  split; [repeat split; by vm_compute|].
  split; [by vm_compute|].
  split; [by vm_compute|].
  split; [apply getRecentTestCases_all; by vm_compute|].
  split; [reflexivity|].
  destruct (constructor_leaves_empty clock) as (Hresults & Hlogs & _ & Hids).
  fold m in Hresults, Hlogs, Hids. clearbody m.
  split; [|split; [|exact Hids]].
  - intros runId. unfold getTestRunResults. rewrite Hresults. reflexivity.
  - intros limit. unfold MemMore.getRecentActivities, slice0.
    rewrite Hlogs. destruct (limit <? 0); rewrite take_nil; reflexivity.
Qed.

End Seed.

(** ** Activity logging *)

Module Logging.

Import Supabase View SupabaseFacts Routes Scenario.

(** The persistent adapter appends the record, or throws and writes
    nothing; the rows already logged are never touched. *)
Lemma logActivity_appends log w :
  match logActivity log w with
  | (Returned row, w') =>
      activity_logs w' = activity_logs w ++ [row]
      /\ test_cases w' = test_cases w /\ test_steps w' = test_steps w
  | (Thrown _, w') =>
      activity_logs w' = activity_logs w
      /\ test_cases w' = test_cases w /\ test_steps w' = test_steps w
  end.
Proof. unfold logActivity, insert_activity_log. by_oracle w; done. Qed.

(** The in-memory adapter always appends. *)
Lemma mem_logActivity_appends log m :
  Mem.activityLogs (snd (Mem.logActivity log m))
  = Mem.activityLogs m ++ [fst (Mem.logActivity log m)].
Proof. reflexivity. Qed.

(** The record the in-memory adapter appends. *)
Lemma mem_logActivity_record log m :
  fst (Mem.logActivity log m)
  = {| al_id := Mem.activityLogId m; al_user_id := ial_user_id log;
       al_action := ial_action log; al_entity_type := ial_entity_type log;
       al_entity_id := ial_entity_id log; al_details := ial_details log;
       al_timestamp := Mem.clock m (Mem.ticks m) |}.
Proof. reflexivity. Qed.

(** The persistent adapter's [logActivity], by the backend's answer: a
    served request appends the record of the fields passed, under the
    next id and the store's time, and returns it; a refused one appends
    nothing and throws the backend's error. *)
Lemma logActivity_by_answer log w :
  match faults w with
  | true :: _ =>
      fst (logActivity log w) = Thrown BackendUnavailable
      /\ activity_logs (snd (logActivity log w)) = activity_logs w
  | _ =>
      fst (logActivity log w) = Returned (new_activity_log log w)
      /\ activity_logs (snd (logActivity log w))
         = activity_logs w ++ [new_activity_log log w]
  end.
Proof.
  unfold logActivity, insert_activity_log, request.
  destruct (faults w) as [|[|] ?]; simpl; done.
Qed.

(** C9.  Once [createTestCase] has answered, the handler of
    [POST /api/testcases] answers 201 with the created test case and the
    store keeps the test case and its steps.  A served logging request
    appends the record of the fields passed to [activity_logs].  A
    refused one makes [logActivity] throw: nothing is appended, the
    handler's [catch (logError)] receives nothing, and the rejection is
    left without a handler; the failure is not caught and reported.  The
    in-memory adapter appends the record in every case. *)
Theorem logActivity_rejection_unhandled body w tc w1 :
  createTestCase (with_created_by 1 body) w = (Returned tc, w1) ->
  let log := create_test_case_log 1 tc in
  let after := post_testcases body w in
  h_response after = Json 201 tc
  /\ h_caught after = None
  /\ test_cases (h_store after) = test_cases w1
  /\ test_steps (h_store after) = test_steps w1
  /\ match faults w1 with
     | true :: _ =>
         fst (logActivity log w1) = Thrown BackendUnavailable
         /\ h_unhandled after = Some BackendUnavailable
         /\ activity_logs (h_store after) = activity_logs w1
     | _ =>
         fst (logActivity log w1) = Returned (new_activity_log log w1)
         /\ h_unhandled after = None
         /\ activity_logs (h_store after)
            = activity_logs w1 ++ [new_activity_log log w1]
     end
  /\ forall log m,
       Mem.activityLogs (snd (Mem.logActivity log m))
       = Mem.activityLogs m
         ++ [{| al_id := Mem.activityLogId m; al_user_id := ial_user_id log;
                al_action := ial_action log;
                al_entity_type := ial_entity_type log;
                al_entity_id := ial_entity_id log;
                al_details := ial_details log;
                al_timestamp := Mem.clock m (Mem.ticks m) |}].
Proof.
  intros Hcreate log after. subst after.
  unfold post_testcases, not_awaited, rejected.
  rewrite Hcreate. simpl. fold log.
  pose proof (logActivity_appends log w1) as Hkeep.
  pose proof (logActivity_by_answer log w1) as Hlog.
  split; [done|]. split; [done|].
  split; [by destruct (logActivity log w1) as [[row|e] w2];
          destruct Hkeep as (_ & Hc & _)|].
  split; [by destruct (logActivity log w1) as [[row|e] w2];
          destruct Hkeep as (_ & _ & Hs)|].
  split; [|reflexivity].
  destruct (faults w1) as [|[|] ?]; destruct Hlog as [Hout Hlogs];
    rewrite Hout; done.
Qed.

(** "Login" posted to a store that refuses the logging request (the two
    requests of [createTestCase] are served, the third is refused), and
    to a store that refuses nothing. *)
Lemma logActivity_rejection_unhandled_witness :
  (h_response (post_testcases login_case flaky_store) = Json 201 login_row
   /\ h_caught (post_testcases login_case flaky_store) = None
   /\ h_unhandled (post_testcases login_case flaky_store)
      = Some BackendUnavailable
   /\ activity_logs (h_store (post_testcases login_case flaky_store)) = [])
  /\ (h_unhandled (post_testcases login_case (Supabase.empty 1000)) = None
      /\ activity_logs
           (h_store (post_testcases login_case (Supabase.empty 1000)))
         = [mkActivityLog 1 1 "create_test_case" "test_case" 1
              (Some "Login") 1000]).
Proof.
  split.
  - destruct (logActivity_rejection_unhandled login_case flaky_store login_row
                (snd (createTestCase (with_created_by 1 login_case)
                        flaky_store)) eq_refl)
      as (Hresp & Hcaught & _ & _ & (_ & Hun & Hlogs) & _).
    split; [exact Hresp|]. split; [exact Hcaught|].
    split; [exact Hun | exact Hlogs].
  - destruct (logActivity_rejection_unhandled login_case (Supabase.empty 1000)
                login_row
                (snd (createTestCase (with_created_by 1 login_case)
                        (Supabase.empty 1000))) eq_refl)
      as (_ & _ & _ & _ & (_ & Hun & Hlogs) & _).
    split; [exact Hun | exact Hlogs].
Defined.

End Logging.

(** ** Status propagation in the in-memory adapter *)

Module MemPropagation.

Import Mem MemView JsMapFacts.

(** When the test case exists, its status becomes the status of the
    result and its [last_run] the clock reading that follows the one
    taken for [executed_at]. *)
Lemma createTestRunResult_case result m tc :
  JsMap.get (itrr_test_case_id result) (testCases m) = Some tc ->
  exists tc',
    JsMap.get (itrr_test_case_id result)
      (testCases (snd (createTestRunResult result m))) = Some tc'
    /\ tc_status tc' = itrr_status result
    /\ tc_last_run tc' = Some (clock m (S (ticks m)))
    /\ trr_executed_at (fst (createTestRunResult result m))
       = clock m (ticks m).
Proof.
  intros Hget. unfold createTestRunResult. simpl.
  destruct (JsMap.has _ _); simpl; rewrite Hget; simpl;
    (eexists; split; [apply get_set_eq|repeat split]).
Qed.


End MemPropagation.

(** ** The two adapters compared *)

Module Equivalence.

Import View Adapters Scenario JsMapFacts.













End Equivalence.

(** * Further properties *)

(** ** More facts on JS maps *)

Module JsMapMoreFacts.

Import JsMap JsMapMore JsMapFacts.

Section Facts.
Context {V : Type}.
Implicit Types (m : JsMap.t V) (k : Z) (v : V).

Lemma get_Some_keys k v m : get k m = Some v -> k ∈ keys m.
Proof.
  induction m as [|[k' v'] rest IH]; simpl; [done|].
  destruct (k' =? k) eqn:E.
  - apply Z.eqb_eq in E. subst. intros _. apply list_elem_of_here.
  - intros H. apply list_elem_of_further. by apply IH.
Qed.

Lemma get_None_keys k m : get k m = None <-> k ∉ keys m.
Proof.
  induction m as [|[k' v'] rest IH]; simpl.
  - split; [intros _; apply not_elem_of_nil|done].
  - destruct (k' =? k) eqn:E.
    + apply Z.eqb_eq in E. subst. split; [done|].
      intros H. destruct H. apply list_elem_of_here.
    + apply Z.eqb_neq in E. rewrite IH. unfold keys. simpl.
      rewrite not_elem_of_cons. split; [by intros H; split|by intros [_ H]].
Qed.

(** [set] on a key that is present keeps the keys and their order; on a
    new key it appends the key. *)
Lemma keys_set k v m :
  keys (set k v m) = if has k m then keys m else keys m ++ [k].
Proof.
  unfold has. induction m as [|[k' v'] rest IH]; simpl; [done|].
  destruct (k' =? k) eqn:E; simpl.
  - apply Z.eqb_eq in E. by subst.
  - rewrite IH. by destruct (get k rest).
Qed.

Lemma values_set_new k v m :
  get k m = None -> values (set k v m) = values m ++ [v].
Proof.
  induction m as [|[k' v'] rest IH]; simpl; [done|].
  destruct (k' =? k); [done|]. intros H. unfold values in *. simpl.
  by rewrite IH.
Qed.

Lemma elem_of_values_set x k v m :
  x ∈ values (set k v m) -> x = v \/ x ∈ values m.
Proof.
  induction m as [|[k' v'] rest IH]; simpl.
  - intros H. apply list_elem_of_singleton in H. by left.
  - destruct (k' =? k); simpl; rewrite !elem_of_cons; intros [H|H]; auto.
    destruct (IH H); auto.
Qed.

Lemma set_in_values k v m : v ∈ values (set k v m).
Proof.
  induction m as [|[k' v'] rest IH]; simpl.
  - apply list_elem_of_here.
  - destruct (k' =? k); simpl.
    + apply list_elem_of_here.
    + by apply list_elem_of_further.
Qed.

Lemma keys_remove_sub k k' m : k' ∈ keys (remove k m) -> k' ∈ keys m.
Proof.
  induction m as [|[k0 v0] rest IH]; simpl; [done|].
  destruct (k0 =? k); simpl.
  - apply list_elem_of_further.
  - rewrite !elem_of_cons. intros [H|H]; auto.
Qed.

Lemma NoDup_keys_remove k m : NoDup (keys m) -> NoDup (keys (remove k m)).
Proof.
  induction m as [|[k0 v0] rest IH]; simpl; [done|].
  intros Hnd. apply NoDup_cons in Hnd as [Hout Hnd].
  destruct (k0 =? k); simpl; [done|].
  apply NoDup_cons. split; [|by apply IH].
  intros Hin. apply Hout. by eapply keys_remove_sub.
Qed.

Lemma NoDup_keys_set k v m : NoDup (keys m) -> NoDup (keys (set k v m)).
Proof.
  intros Hnd. rewrite keys_set. unfold has.
  destruct (get k m) eqn:E; [done|].
  apply NoDup_app. split; [done|]. split; [|apply NoDup_singleton].
  intros x Hx Hx'. apply list_elem_of_singleton in Hx'. subst.
  by apply get_None_keys in E.
Qed.

(** With distinct keys, [delete] leaves nothing under the key and keeps
    what is under the others. *)
Lemma get_remove_eq k m : NoDup (keys m) -> get k (remove k m) = None.
Proof.
  induction m as [|[k0 v0] rest IH]; simpl; [done|].
  intros Hnd. apply NoDup_cons in Hnd as [Hout Hnd].
  destruct (k0 =? k) eqn:E; simpl.
  - apply Z.eqb_eq in E. subst. by apply get_None_keys.
  - rewrite E. by apply IH.
Qed.

Lemma get_remove_ne k k' m : k <> k' -> get k' (remove k m) = get k' m.
Proof.
  intros Hne. induction m as [|[k0 v0] rest IH]; simpl; [done|].
  destruct (k0 =? k) eqn:E; simpl.
  - apply Z.eqb_eq in E. subst.
    destruct (k =? k') eqn:E'; [apply Z.eqb_eq in E'; contradiction|done].
  - by rewrite IH.
Qed.

End Facts.

(** The stable descending sort. *)
Section Sort.
Context {A : Type} (key : A -> Z).

Lemma insert_desc_perm a l : insert_desc key a l ≡ₚ a :: l.
Proof.
  induction l as [|b l IH]; simpl; [done|].
  destruct (_ <=? 0); [done|]. rewrite IH. apply Permutation_swap.
Qed.

Lemma sort_desc_perm l : sort_desc key l ≡ₚ l.
Proof.
  induction l as [|a l IH]; simpl; [done|].
  by rewrite insert_desc_perm, IH.
Qed.

Lemma insert_desc_sorted a l :
  StronglySorted (desc key) l -> StronglySorted (desc key) (insert_desc key a l).
Proof.
  induction 1 as [|b l Hl IH Hb]; simpl.
  - repeat constructor.
  - destruct (key b - key a <=? 0) eqn:E.
    + apply Z.leb_le in E. constructor; [by constructor|].
      constructor; [unfold JsMapMore.desc; lia|].
      eapply Forall_impl; [exact Hb|]. unfold JsMapMore.desc. intros; lia.
    + apply Z.leb_gt in E. constructor; [exact IH|].
      rewrite insert_desc_perm.
      constructor; [unfold JsMapMore.desc; lia|done].
Qed.

Lemma sort_desc_sorted l : StronglySorted (desc key) (sort_desc key l).
Proof.
  induction l as [|a l IH]; simpl; [constructor|].
  by apply insert_desc_sorted.
Qed.

End Sort.

End JsMapMoreFacts.

(** ** Users and folders in the in-memory adapter *)

Module MemUsersFolders.

Import Mem MemView MemMore JsMapFacts JsMapMoreFacts.

(** X1.  A user created under a username that no stored user has can be
    read back under its id, and [verifyCredentials] with that username
    answers the user for exactly the password given at creation (the
    password is kept and compared as it is) and nothing for any other
    password. *)
Theorem createUser_then_verify user password m :
  (forall u, u ∈ getUsers m -> u_username u <> iu_username user) ->
  let created := createUser user m in
  getUser (u_id (fst created)) (snd created) = Some (fst created)
  /\ u_id (fst created) = userId m
  /\ verifyCredentials (iu_username user) password (snd created)
     = if String.eqb (iu_password user) password then Some (fst created)
       else None.
Proof.
  intros Hfree created. subst created. unfold createUser. simpl.
  split; [apply get_set_eq|]. split; [done|].
  unfold verifyCredentials, getUserByUsername. simpl.
  match goal with |- context [List.find ?f ?l] =>
    destruct (List.find f l) as [x|] eqn:Hfind end.
  - apply List.find_some in Hfind as [Hin Hname].
    apply list_elem_of_In, elem_of_values_set in Hin.
    apply String.eqb_eq in Hname.
    destruct Hin as [->|Hin]; [done|].
    by destruct (Hfree x Hin).
  - eapply List.find_none in Hfind;
      [|apply list_elem_of_In, set_in_values].
    simpl in Hfind. by rewrite String.eqb_refl in Hfind.
Qed.

Lemma createUser_then_verify_witness :
  let created := createUser seed_admin (blank (still 0)) in
  verifyCredentials "admin" "password" (snd created) = Some (fst created)
  /\ verifyCredentials "admin" "Password" (snd created) = None.
Proof.
  assert (forall u, u ∈ getUsers (blank (still 0)) ->
                    u_username u <> iu_username seed_admin) as Hfree.
  { intros u Hu. by apply elem_of_nil in Hu. }
  split.
  - exact (proj2 (proj2 (createUser_then_verify seed_admin "password"
                           (blank (still 0)) Hfree))).
  - exact (proj2 (proj2 (createUser_then_verify seed_admin "Password"
                           (blank (still 0)) Hfree))).
Defined.

(** X2.  [updateFolder] on an id without folder answers [undefined] and
    changes nothing.  On a stored folder it answers the folder with the
    supplied fields replaced, keeps its id and creation time, files it
    under the same key at the same position, and leaves the other
    folders as they are. *)
Theorem updateFolder_merges id data m :
  match getFolder id m with
  | None => updateFolder id data m = (None, m)
  | Some folder =>
      let updated := updateFolder id data m in
      fst updated = Some (patch_folder data folder)
      /\ getFolder id (snd updated) = Some (patch_folder data folder)
      /\ f_id (patch_folder data folder) = f_id folder
      /\ f_created_at (patch_folder data folder) = f_created_at folder
      /\ JsMapMore.keys (folders (snd updated)) = JsMapMore.keys (folders m)
      /\ forall id', id <> id' ->
           getFolder id' (snd updated) = getFolder id' m
  end.
Proof.
  unfold getFolder, updateFolder.
  destruct (JsMap.get id (folders m)) as [folder|] eqn:Hget; [|done].
  simpl. split; [done|]. split; [apply get_set_eq|].
  split; [done|]. split; [done|]. split.
  - rewrite keys_set. unfold JsMap.has. by rewrite Hget.
  - intros id' Hne. by apply get_set_ne.
Qed.

(** X3.  With the folders filed under distinct keys, [deleteFolder]
    answers whether the folder existed, leaves no folder under the id and
    the other folders as they were, and does not touch the folder sets:
    the test cases assigned to the deleted folder stay counted under its
    id. *)
Theorem deleteFolder_keeps_assignments id m :
  NoDup (JsMapMore.keys (folders m)) ->
  let deleted := deleteFolder id m in
  fst deleted = bool_decide (is_Some (getFolder id m))
  /\ getFolder id (snd deleted) = None
  /\ (forall id', id <> id' -> getFolder id' (snd deleted) = getFolder id' m)
  /\ getTestCountByFolder (snd deleted) = getTestCountByFolder m
  /\ forall tc f, assigned tc f (snd deleted) <-> assigned tc f m.
Proof.
  intros Hnd deleted. subst deleted.
  unfold deleteFolder, JsMapMore.delete, getFolder, JsMap.has. simpl.
  split; [by destruct (JsMap.get id (folders m))|].
  split; [by apply get_remove_eq|].
  split; [intros id' Hne; by apply get_remove_ne|]. done.
Qed.

(** Folder 1 of a new store, which holds test cases 1 and 2. *)
Lemma deleteFolder_keeps_assignments_witness :
  let m := constructor (still 0) in
  NoDup (JsMapMore.keys (folders m))
  /\ fst (deleteFolder 1 m) = true
  /\ getFolder 1 (snd (deleteFolder 1 m)) = None
  /\ getTestCountByFolder (snd (deleteFolder 1 m)) = [(1, 2); (2, 1)].
Proof.
  intros m.
  assert (NoDup (JsMapMore.keys (folders m))) as Hnd.
  { vm_compute. repeat constructor; set_solver. }
  destruct (deleteFolder_keeps_assignments 1 m Hnd) as (Hb & Hg & _ & Hc & _).
  split; [exact Hnd|]. split; [exact Hb|]. split; [exact Hg|exact Hc].
Defined.

(** X4.  Assigning and then removing: [removeTestCaseFromFolder] answers
    [true], the pair is no longer assigned, every other pair is assigned
    exactly if it was before the two calls, and the folder keeps its
    (possibly empty) set, so it stays listed by [getTestCountByFolder]. *)
Theorem assign_then_remove tc f m :
  let m1 := snd (assignTestCaseToFolder tc f m) in
  let removed := removeTestCaseFromFolder tc f m1 in
  fst removed = true
  /\ ~ assigned tc f (snd removed)
  /\ (forall tc' f', (tc', f') <> (tc, f) ->
        assigned tc' f' (snd removed) <-> assigned tc' f' m)
  /\ f ∈ map fst (getTestCountByFolder (snd removed)).
Proof.
  intros m1 removed.
  destruct (Membership.assign_post tc f m) as ((S & Hget & Hin) & _ & _).
  fold m1 in Hget.
  assert (forall f', f <> f' ->
            JsMap.get f' (testCaseFolders m1) = JsMap.get f' (testCaseFolders m))
    as Hother.
  { intros f' Hne. subst m1. unfold assignTestCaseToFolder, JsMap.has.
    destruct (JsMap.get f (testCaseFolders m)) as [S0|] eqn:E0; simpl.
    - rewrite E0. simpl. destruct (decide (tc ∈ S0)); simpl; [done|].
      by rewrite get_set_ne.
    - rewrite get_set_eq. simpl.
      destruct (decide (tc ∈ (∅ : gset Z))); simpl;
        by rewrite !get_set_ne. }
  assert (forall tc', tc' <> tc -> tc' ∈ S <-> tc' ∈ members f m) as Hsame.
  { intros tc' Hne. subst m1. revert Hget.
    unfold assignTestCaseToFolder, JsMap.has, members.
    destruct (JsMap.get f (testCaseFolders m)) as [S0|] eqn:E0; simpl.
    - rewrite E0. simpl. destruct (decide (tc ∈ S0)); simpl.
      + rewrite E0. by intros [= ->].
      + rewrite get_set_eq. intros [= <-]. set_solver.
    - rewrite get_set_eq. simpl.
      destruct (decide (tc ∈ (∅ : gset Z))); simpl;
        rewrite ?get_set_eq; intros [= <-]; set_solver. }
  subst removed. unfold removeTestCaseFromFolder. rewrite Hget. simpl.
  split; [by apply bool_decide_eq_true_2|].
  unfold assigned, members. simpl. split; [|split].
  - rewrite get_set_eq. simpl. set_solver.
  - intros tc' f' Hne. destruct (decide (f = f')) as [<-|Hf].
    + rewrite get_set_eq. simpl.
      assert (tc' <> tc) as Htc by congruence.
      rewrite <- (Hsame tc' Htc). set_solver.
    + rewrite get_set_ne by done. by rewrite (Hother f' Hf).
  - unfold getTestCountByFolder, JsMap.entries.
    rewrite map_map. simpl.
    change (map (fun x : Z * gset Z => x.1) ?l) with (JsMapMore.keys l).
    eapply get_Some_keys. apply get_set_eq.
Qed.

End MemUsersFolders.

(** ** Counts, results and recent lists in the in-memory adapter *)

Module MemLists.

Import Mem MemView MemMore MoreView JsMapFacts JsMapMoreFacts.

Lemma listed_assign s s' n counts :
  listed s' (assign s n counts)
  = if String.eqb s s' then Some n else listed s' counts.
Proof.
  induction counts as [|[s0 n0] rest IH]; simpl.
  - by destruct (String.eqb s s').
  - destruct (String.eqb s0 s) eqn:E; simpl.
    + apply String.eqb_eq in E. subst s0.
      by destruct (String.eqb s s').
    + rewrite IH. destruct (String.eqb s0 s') eqn:E'; [|done].
      apply String.eqb_eq in E'. subst s0. by rewrite String.eqb_sym, E.
Qed.

Lemma own_listed s counts : own s counts = listed s counts.
Proof. induction counts as [|[s0 n0] rest IH]; simpl; [done|by rewrite IH]. Qed.

Lemma keys_assign s n counts :
  NoDup (map fst counts) ->
  NoDup (map fst (assign s n counts))
  /\ forall x, x ∈ map fst (assign s n counts) ->
               x = s \/ x ∈ map fst counts.
Proof.
  induction counts as [|[s0 n0] rest IH]; simpl.
  - intros _. split; [apply NoDup_singleton|].
    intros x Hx. apply list_elem_of_singleton in Hx. by left.
  - intros Hnd. apply NoDup_cons in Hnd as [Hout Hnd].
    destruct (String.eqb s0 s) eqn:E; simpl.
    + split; [by apply NoDup_cons|]. intros x Hx. by right.
    + destruct (IH Hnd) as [Hnd' Hsub]. split.
      * apply NoDup_cons. split; [|done]. intros Hin.
        destruct (Hsub _ Hin) as [->|Hin']; [|done].
        by rewrite String.eqb_refl in E.
      * intros x Hx. apply elem_of_cons in Hx as [->|Hx].
        -- right. apply list_elem_of_here.
        -- destruct (Hsub _ Hx) as [->|Hx']; [by left|].
           right. by apply list_elem_of_further.
Qed.

Lemma plain_assign s n counts :
  plain s ->
  Forall (fun p => plain (fst p)) counts ->
  Forall (fun p => plain (fst p)) (assign s n counts).
Proof.
  intros Hs. induction 1 as [|[s0 n0] rest H0 Hrest IH]; simpl.
  - constructor; [exact Hs|constructor].
  - destruct (String.eqb s0 s); constructor; simpl in *; auto.
Qed.

(** On a plain status the loop's turn is the increment of a counter that
    starts at [0]. *)
Lemma count_status_plain s counts seen :
  plain s ->
  counted counts seen ->
  count_status s counts
  = assign s (Some (count_with_status s seen + 1)) counts.
Proof.
  intros Hs (_ & _ & Hcount). unfold count_status.
  rewrite own_listed, Hcount.
  destruct (count_with_status s seen =? 0) eqn:E0.
  - apply Z.eqb_eq in E0. rewrite E0. unfold plain in Hs.
    destruct (inherited s), (String.eqb s "__proto__"); simpl in *; tauto.
  - by rewrite E0.
Qed.

Lemma count_with_status_snoc s seen tc :
  count_with_status s (seen ++ [tc])
  = count_with_status s seen + (if String.eqb (tc_status tc) s then 1 else 0).
Proof.
  unfold count_with_status. rewrite filter_app, length_app, filter_cons.
  destruct (decide (tc_status tc = s)) as [->|Hne]; simpl.
  - rewrite String.eqb_refl. lia.
  - apply String.eqb_neq in Hne. rewrite Hne. lia.
Qed.

Lemma counted_step counts seen tc :
  plain (tc_status tc) ->
  counted counts seen ->
  counted (count_status (tc_status tc) counts) (seen ++ [tc]).
Proof.
  intros Hs H. rewrite (count_status_plain _ _ seen Hs H).
  destruct H as (Hnd & Hplain & Hcount).
  split; [by apply keys_assign|]. split; [by apply plain_assign|].
  intros s. rewrite listed_assign, count_with_status_snoc.
  assert (0 <= count_with_status s seen) as Hpos
    by (unfold count_with_status; lia).
  destruct (String.eqb (tc_status tc) s) eqn:E.
  - apply String.eqb_eq in E. rewrite E.
    destruct (count_with_status s seen + 1 =? 0) eqn:E1; [|done].
    apply Z.eqb_eq in E1. lia.
  - by rewrite Hcount, Z.add_0_r.
Qed.

Lemma counted_foldl l counts seen :
  Forall (fun tc => plain (tc_status tc)) l ->
  counted counts seen ->
  counted
    (foldl (fun statusMap testCase =>
              count_status (tc_status testCase) statusMap) counts l)
    (seen ++ l).
Proof.
  intros Hl. revert counts seen.
  induction Hl as [|tc l Htc _ IH]; intros counts seen H; simpl.
  - by rewrite app_nil_r.
  - rewrite (cons_middle tc seen l), app_assoc.
    apply IH. by apply counted_step.
Qed.

(** An object without index keys is enumerated in the order its
    properties were created. *)
Lemma for_in_plain counts :
  Forall (fun p => plain (fst p)) counts -> for_in counts = counts.
Proof.
  intros H. unfold for_in.
  assert (Forall (fun p => is_index p = false) counts) as Hidx.
  { eapply Forall_impl; [exact H|]. intros [s n] Hp. unfold plain in Hp.
    simpl in Hp. unfold is_index in *. simpl in *.
    destruct (array_index s); [|done].
    destruct (inherited s), (String.eqb s "__proto__"); simpl in *; tauto. }
  rewrite (Steps.filter_none (fun p => is_index p) counts).
  - simpl. apply Steps.filter_all. eapply Forall_impl; [exact Hidx|].
    intros p Hp. simpl. by rewrite Hp.
  - rewrite Forall_forall in Hidx. apply Forall_forall. intros p Hp.
    rewrite (Hidx p Hp). simpl. tauto.
Qed.

(** X5.  While no stored test case has a status that names a member of
    [Object.prototype] or is an array index, [getTestStatusCounts] lists
    every status that some stored test case has exactly once, with the
    number of test cases that have it, and lists no other status. *)
Theorem getTestStatusCounts_counts m :
  Forall (fun tc => plain (tc_status tc)) (JsMap.values (testCases m)) ->
  NoDup (map fst (getTestStatusCounts m))
  /\ forall s,
       listed s (getTestStatusCounts m)
       = if count_with_status s (JsMap.values (testCases m)) =? 0 then None
         else Some (Some (count_with_status s (JsMap.values (testCases m)))).
Proof.
  intros Hplain. unfold getTestStatusCounts.
  destruct (counted_foldl (JsMap.values (testCases m)) [] [] Hplain)
    as (Hnd & Hkeys & Hcount).
  { split; [constructor|]. split; [constructor|]. intros s. reflexivity. }
  simpl in Hnd, Hkeys, Hcount. rewrite (for_in_plain _ Hkeys). by split.
Qed.

Lemma getTestStatusCounts_counts_witness :
  Forall (fun tc => plain (tc_status tc))
    (JsMap.values (testCases (with_statuses ["passed"; "failed"; "passed"])))
  /\ listed "passed"
       (getTestStatusCounts (with_statuses ["passed"; "failed"; "passed"]))
     = Some (Some 2)
  /\ listed "blocked"
       (getTestStatusCounts (with_statuses ["passed"; "failed"; "passed"]))
     = None.
Proof.
  assert (Forall (fun tc => plain (tc_status tc))
            (JsMap.values
               (testCases (with_statuses ["passed"; "failed"; "passed"]))))
    as H by (repeat constructor).
  split; [exact H|].
  destruct (getTestStatusCounts_counts _ H) as [_ Hcount].
  split; [exact (Hcount "passed")|exact (Hcount "blocked")].
Defined.

(** Outside that condition the object shows: the first test case of
    status [toString] stores [NaN] and the second one [1]; [__proto__] is
    never listed; index keys are listed first, in ascending order. *)
Lemma getTestStatusCounts_object_keys :
  getTestStatusCounts (with_statuses ["toString"]) = [("toString", None)]
  /\ getTestStatusCounts (with_statuses ["toString"; "toString"])
     = [("toString", Some 1)]
  /\ getTestStatusCounts (with_statuses ["__proto__"; "passed"])
     = [("passed", Some 1)]
  /\ getTestStatusCounts (with_statuses ["passed"; "2"; "1"; "2"])
     = [("1", Some 1); ("2", Some 2); ("passed", Some 1)].
Proof. repeat split; vm_compute; reflexivity. Qed.


(** X6.  [getRecentActivities(limit)] answers the first [limit] records
    of the log, that is the oldest ones, latest first: with more than
    [limit] records the latest ones are not among the answer.  The user
    of a record that names no stored user is shown as "Unknown". *)
Theorem getRecentActivities_takes_oldest limit m :
  0 <= limit ->
  map fst (getRecentActivities limit m)
  ≡ₚ take (Z.to_nat limit) (activityLogs m)
  /\ StronglySorted (JsMapMore.desc (fun a => al_timestamp (fst a)))
       (getRecentActivities limit m)
  /\ forall a, a ∈ getRecentActivities limit m ->
       JsMap.get (al_user_id (fst a)) (users m) = None ->
       snd a = ("Unknown", "Unknown").
Proof.
  intros Hlimit. unfold getRecentActivities, slice0.
  destruct (limit <? 0) eqn:E; [apply Z.ltb_lt in E; lia|].
  split; [|split].
  - rewrite sort_desc_perm, map_map. simpl. by rewrite map_id.
  - apply sort_desc_sorted.
  - intros a Ha Hnone.
    rewrite (sort_desc_perm _ _) in Ha.
    apply list_elem_of_fmap in Ha as (log & -> & _).
    unfold with_user. simpl in *. by rewrite Hnone.
Qed.

(** Three records and a limit of two: the answer holds the records 1
    and 2, the latest record (3) is left out. *)
Lemma getRecentActivities_takes_oldest_witness :
  map (fun a => al_id (fst a)) (getRecentActivities 2 three_logs) = [2; 1]
  /\ map al_id (activityLogs three_logs) = [1; 2; 3]
  /\ map fst (getRecentActivities 2 three_logs)
     ≡ₚ take 2 (activityLogs three_logs).
Proof.
  split; [reflexivity|]. split; [reflexivity|].
  assert (0 <= 2) as Hlimit by lia.
  exact (proj1 (getRecentActivities_takes_oldest 2 three_logs Hlimit)).
Defined.

Lemma insert_recent_desc a l :
  insert_recent a l = JsMapMore.insert_desc tc_updated_at a l.
Proof. induction l as [|b l IH]; simpl; [done|]. by rewrite IH. Qed.

Lemma sort_recent_desc l :
  sort_recent l = JsMapMore.sort_desc tc_updated_at l.
Proof.
  induction l as [|a l IH]; simpl; [done|].
  by rewrite IH, insert_recent_desc.
Qed.

(** X7.  [getRecentTestCases(limit)] answers min(limit, n) of the n
    stored test cases, latest update first, and they are the most
    recently updated ones: followed by the cases left out, in some order,
    the answer is sorted by update time, latest first. *)
Theorem getRecentTestCases_most_recent limit m :
  0 <= limit ->
  length (getRecentTestCases limit m)
  = Nat.min (Z.to_nat limit) (length (testCases m))
  /\ exists rest,
       getRecentTestCases limit m ++ rest ≡ₚ JsMap.values (testCases m)
       /\ StronglySorted (JsMapMore.desc tc_updated_at)
            (getRecentTestCases limit m ++ rest).
Proof.
  intros Hlimit. unfold getRecentTestCases, slice0.
  destruct (limit <? 0) eqn:E; [apply Z.ltb_lt in E; lia|].
  rewrite sort_recent_desc. split.
  - rewrite length_take, (Permutation_length (sort_desc_perm _ _)).
    unfold JsMap.values. by rewrite length_map.
  - exists (drop (Z.to_nat limit)
              (JsMapMore.sort_desc tc_updated_at (JsMap.values (testCases m)))).
    rewrite take_drop. split; [apply sort_desc_perm|apply sort_desc_sorted].
Qed.

(** The two most recent of the three seeded test cases, on a clock that
    ticks: cases 3 and 2. *)
Lemma getRecentTestCases_most_recent_witness :
  map tc_id (getRecentTestCases 2 (constructor seconds)) = [3; 2]
  /\ length (getRecentTestCases 2 (constructor seconds)) = 2%nat.
Proof.
  split; [reflexivity|].
  assert (0 <= 2) as Hlimit by lia.
  exact (proj1 (getRecentTestCases_most_recent 2 (constructor seconds)
                  Hlimit)).
Defined.

(** X8.  [createTestRunResult] files the result last under its run,
    under the next result id, and leaves the results of the other runs
    as they are; it asks neither for the run nor for the test case to
    exist: with no test case under the id of the result, the result is
    recorded all the same and no test case is touched or created. *)
Theorem createTestRunResult_records result m :
  let recorded := createTestRunResult result m in
  getTestRunResults (itrr_runId result) (snd recorded)
  = getTestRunResults (itrr_runId result) m ++ [fst recorded]
  /\ trr_id (fst recorded) = test_run_result_id m
  /\ test_run_result_id (snd recorded) = test_run_result_id m + 1
  /\ (forall runId, itrr_runId result <> runId ->
        getTestRunResults runId (snd recorded) = getTestRunResults runId m)
  /\ (JsMap.get (itrr_test_case_id result) (testCases m) = None ->
      testCases (snd recorded) = testCases m).
Proof.
  intros recorded. subst recorded.
  unfold createTestRunResult, getTestRunResults, JsMap.has. simpl.
  destruct (JsMap.get (itrr_runId result) (testRunResults m)) as [rs|]
    eqn:Hrun; simpl;
    destruct (JsMap.get (itrr_test_case_id result) (testCases m)) as [tc|]
      eqn:Hcase; simpl;
    rewrite ?Hrun, ?get_set_eq; simpl; rewrite ?get_set_eq; simpl;
    (split; [done|]); (split; [done|]); (split; [done|]);
    (split; [|done]); intros runId Hne; by rewrite !get_set_ne.
Qed.

End MemLists.

(** ** Ids in the in-memory adapter *)

Module MemIds.

Import Mem MemView MemMore MemTrace JsMapFacts JsMapMoreFacts.

Section Filed.
Context {V : Type} (id_of : V -> Z).
Implicit Types (m : JsMap.t V).

Lemma get_Some_elem k (v : V) m : JsMap.get k m = Some v -> (k, v) ∈ m.
Proof.
  induction m as [|[k' v'] rest IH]; simpl; [done|].
  destruct (k' =? k) eqn:E.
  - apply Z.eqb_eq in E. subst. intros [= ->]. apply list_elem_of_here.
  - intros H. apply list_elem_of_further. by apply IH.
Qed.

Lemma Forall_set (P : Z * V -> Prop) k v m :
  Forall P m -> P (k, v) -> Forall P (JsMap.set k v m).
Proof.
  intros Hm Hv. induction Hm as [|[k' v'] rest Hx Hrest IH]; simpl.
  - by constructor.
  - destruct (k' =? k); by constructor.
Qed.

Lemma Forall_remove (P : Z * V -> Prop) k m :
  Forall P m -> Forall P (JsMapMore.remove k m).
Proof.
  induction 1 as [|[k' v'] rest Hx Hrest IH]; simpl; [done|].
  destruct (k' =? k); [done|by constructor].
Qed.

Lemma filed_fresh n m : filed id_of n m -> JsMap.get n m = None.
Proof.
  intros [_ Hall]. apply get_None_keys. intros Hin.
  apply list_elem_of_fmap in Hin as ([k v] & -> & He).
  rewrite Forall_forall in Hall. destruct (Hall _ He) as [_ Hlt].
  simpl in Hlt. lia.
Qed.

Lemma filed_weaken n n' m : n <= n' -> filed id_of n m -> filed id_of n' m.
Proof.
  intros Hle [Hnd Hall]. split; [done|].
  eapply Forall_impl; [exact Hall|]. intros e [? ?]. split; [done|lia].
Qed.

Lemma filed_set_new n v m :
  filed id_of n m -> id_of v = n -> filed id_of (n + 1) (JsMap.set n v m).
Proof.
  intros Hf Hid. destruct (filed_weaken n (n + 1) m ltac:(lia) Hf) as [Hnd Hall].
  split; [by apply NoDup_keys_set|].
  apply Forall_set; [done|]. simpl. split; [done|lia].
Qed.

Lemma filed_set_same n k v v' m :
  filed id_of n m -> JsMap.get k m = Some v -> id_of v' = id_of v ->
  filed id_of n (JsMap.set k v' m).
Proof.
  intros [Hnd Hall] Hget Hid. split; [by apply NoDup_keys_set|].
  apply Forall_set; [done|].
  apply get_Some_elem in Hget. rewrite Forall_forall in Hall.
  destruct (Hall _ Hget) as [Hk Hlt]. simpl in *. split; [congruence|done].
Qed.

Lemma filed_remove n k m :
  filed id_of n m -> filed id_of n (JsMapMore.remove k m).
Proof.
  intros [Hnd Hall]. split; [by apply NoDup_keys_remove|by apply Forall_remove].
Qed.

End Filed.

Lemma number_steps_ids id base steps :
  map ts_id (number_steps id base steps)
  = map (fun k => base + Z.of_nat k) (seq 0 (length steps)).
Proof.
  unfold number_steps.
  change (map ts_id ?l) with (ts_id <$> l). rewrite fmap_imap.
  change (map ?f (seq 0 ?n)) with (f <$> seq 0 n).
  rewrite <- (imap_seq_0 steps (fun k => base + Z.of_nat k)).
  by apply imap_ext.
Qed.

Lemma number_steps_Forall id base steps :
  Forall (fun s => ts_test_case_id s = id
                   /\ base <= ts_id s < base + Z.of_nat (length steps))
    (number_steps id base steps).
Proof.
  unfold number_steps. apply Forall_lookup. intros i s Hs.
  rewrite list_lookup_imap in Hs.
  destruct (steps !! i) as [x|] eqn:Hx; [|done].
  apply lookup_lt_Some in Hx. simpl in Hs. injection Hs as <-. simpl.
  split; [done|lia].
Qed.

Lemma step_ids_below m :
  steps_filed m -> forall x, x ∈ step_ids m -> x < testStepId m.
Proof.
  intros (_ & Hall & _) x Hx. unfold step_ids in Hx.
  apply list_elem_of_fmap in Hx as (s & -> & Hs).
  apply list_elem_of_In, in_concat in Hs as (l & Hl & Hs).
  apply list_elem_of_In in Hl, Hs.
  apply list_elem_of_fmap in Hl as ([k l'] & -> & He).
  rewrite Forall_forall in Hall. destruct (Hall _ He) as [_ Hsteps].
  rewrite Forall_forall in Hsteps. by destruct (Hsteps _ Hs).
Qed.

Lemma createTestCase_steps_filed body m :
  steps_filed m -> steps_filed (snd (createTestCase body m)).
Proof.
  intros Hf. pose proof (step_ids_below m Hf) as Hbelow.
  destruct Hf as (Hnd & Hall & Hids).
  unfold createTestCase. simpl.
  destruct (0 <? Z.of_nat (length (tcs_steps body))) eqn:E; simpl.
  - assert (JsMap.get (test_case_id m) (testSteps m) = None) as Hfresh.
    { apply get_None_keys. intros Hin.
      apply list_elem_of_fmap in Hin as ([k v] & Hk & He).
      rewrite Forall_forall in Hall. destruct (Hall _ He) as [Hlt _].
      simpl in *. lia. }
    split; [by apply NoDup_keys_set|]. split.
    + simpl. apply Forall_set.
      * eapply Forall_impl; [exact Hall|]. intros e [Hlt Hsteps].
        split; [lia|]. eapply Forall_impl; [exact Hsteps|].
        intros s [? ?]. split; [done|lia].
      * simpl. split; [lia|].
        eapply Forall_impl; [apply number_steps_Forall|].
        intros s [? ?]. simpl in *. split; [done|lia].
    + unfold step_ids. simpl. rewrite (values_set_new _ _ _ Hfresh).
      rewrite concat_app. simpl. rewrite app_nil_r, map_app.
      apply NoDup_app. split; [exact Hids|]. split.
      * intros x Hx Hx'. apply Hbelow in Hx.
        pose proof (number_steps_Forall (test_case_id m) (testStepId m)
                      (tcs_steps body)) as Hnew.
        apply list_elem_of_fmap in Hx' as (s & -> & Hs).
        rewrite Forall_forall in Hnew. destruct (Hnew _ Hs) as [_ Hge]. lia.
      * rewrite number_steps_ids. apply NoDup_fmap_2.
        -- intros a b Hab. lia.
        -- apply NoDup_seq.
  - split; [done|]. split; [|done].
    eapply Forall_impl; [exact Hall|]. intros e [Hlt Hsteps]. simpl.
    split; [lia|done].
Qed.

Ltac kept :=
  first [ assumption
        | unfold steps_filed, step_ids in *; simpl; assumption ].

Lemma call_numbered c m : numbered m -> numbered (call c m).
Proof.
  intros (Hu & Hf & Hc & Hs). destruct c as
    [user|id data|id|folder|id data|id|body|tc f|tc f|result|log]; simpl.
  - unfold createUser. simpl.
    split; [|split; [|split]]; try kept. by apply filed_set_new.
  - unfold updateUser.
    destruct (JsMap.get id (users m)) as [user|] eqn:Hget; simpl;
      (split; [|split; [|split]]); try kept. by eapply filed_set_same.
  - unfold updateUserlast_login.
    destruct (JsMap.get id (users m)) as [user|] eqn:Hget; simpl;
      (split; [|split; [|split]]); try kept. by eapply filed_set_same.
  - unfold createFolder. simpl.
    split; [|split; [|split]]; try kept. by apply filed_set_new.
  - unfold updateFolder.
    destruct (JsMap.get id (folders m)) as [folder|] eqn:Hget; simpl;
      (split; [|split; [|split]]); try kept. by eapply filed_set_same.
  - unfold deleteFolder, JsMapMore.delete. simpl.
    split; [|split; [|split]]; try kept. by apply filed_remove.
  - pose proof (createTestCase_steps_filed body m Hs) as Hs'.
    split; [|split; [|split; [|exact Hs']]]; unfold createTestCase; simpl;
      destruct (0 <? _); simpl; try kept; by apply filed_set_new.
  - unfold assignTestCaseToFolder.
    destruct (JsMap.has _ _); simpl; destruct (decide _); simpl;
      (split; [|split; [|split]]); kept.
  - unfold removeTestCaseFromFolder.
    destruct (JsMap.get _ _); simpl; (split; [|split; [|split]]); kept.
  - unfold createTestRunResult. simpl.
    destruct (JsMap.has _ _); simpl;
      (destruct (JsMap.get (itrr_test_case_id result) (testCases m))
         as [testCase|] eqn:Hget; simpl);
      (split; [|split; [|split]]); try kept; by eapply filed_set_same.
  - unfold logActivity. simpl. split; [|split; [|split]]; kept.
Qed.

Lemma calls_numbered cs m : numbered m -> numbered (calls cs m).
Proof.
  revert m. induction cs as [|c cs IH]; intros m Hm; simpl; [done|].
  apply IH. by apply call_numbered.
Qed.

Lemma blank_numbered clock : numbered (blank clock).
Proof. repeat split; constructor. Qed.

Lemma constructor_calls clock :
  constructor clock = calls seed_calls (blank clock).
Proof. vm_compute. reflexivity. Qed.

Lemma reachable_numbered_seed clock : numbered (constructor clock).
Proof.
  rewrite constructor_calls. apply calls_numbered, blank_numbered.
Defined.

(** X9.  In every state a new instance can reach through its methods,
    the users, folders and test cases are filed under their own ids, all
    distinct and below the counter of their kind, every list of steps is
    filed under the id of a test case handed out and holds steps of that
    test case, and the step ids are distinct and below the step
    counter. *)
Theorem reachable_numbered clock cs :
  numbered (calls cs (constructor clock)).
Proof. apply calls_numbered, reachable_numbered_seed. Qed.

(** X10.  In such a state [createTestCase] overwrites nothing: the new
    test case takes an id no stored test case has, it is listed after
    the stored ones, which stay as they are, and its steps, numbered 1,
    2, ... in the order given (whatever step numbers were supplied), take
    ids no stored step has. *)
Theorem createTestCase_adds body m :
  numbered m ->
  let created := createTestCase body m in
  JsMap.get (tc_id (fst created)) (testCases m) = None
  /\ JsMap.values (testCases (snd created))
     = JsMap.values (testCases m) ++ [fst created]
  /\ (forall id tc, JsMap.get id (testCases m) = Some tc ->
        JsMap.get id (testCases (snd created)) = Some tc)
  /\ (tcs_steps body <> [] ->
      exists steps,
        JsMap.get (tc_id (fst created)) (testSteps (snd created)) = Some steps
        /\ map ts_step_number steps
           = map (fun k => Z.of_nat k + 1) (seq 0 (length (tcs_steps body)))
        /\ map ts_description steps = map si_description (tcs_steps body)
        /\ forall s, s ∈ steps -> ts_id s ∉ step_ids m).
Proof.
  intros (_ & _ & Hc & Hs) created. subst created.
  pose proof (filed_fresh _ _ _ Hc) as Hfresh.
  pose proof (step_ids_below m Hs) as Hbelow.
  assert (forall id tc, JsMap.get id (testCases m) = Some tc ->
                        test_case_id m <> id) as Hne
    by (intros id tc Hget Heq; congruence).
  unfold createTestCase. simpl.
  destruct (0 <? Z.of_nat (length (tcs_steps body))) eqn:E; simpl;
    (split; [exact Hfresh|]); (split; [by apply values_set_new|]);
    (split; [intros id tc Hget; rewrite get_set_ne; eauto|]).
  - intros _. eexists. split; [apply get_set_eq|]. split; [|split].
    + unfold number_steps.
      change (map ts_step_number ?l) with (ts_step_number <$> l).
      rewrite fmap_imap.
      change (map ?f (seq 0 ?n)) with (f <$> seq 0 n).
      rewrite <- (imap_seq_0 (tcs_steps body) (fun k => Z.of_nat k + 1)).
      by apply imap_ext.
    + unfold number_steps.
      change (map ts_description ?l) with (ts_description <$> l).
      rewrite fmap_imap.
      change (map si_description ?l) with (si_description <$> l).
      by rewrite <- imap_const.
    + intros s Hin Hold. apply Hbelow in Hold.
      pose proof (number_steps_Forall (test_case_id m) (testStepId m)
                    (tcs_steps body)) as Hnew.
      rewrite Forall_forall in Hnew. destruct (Hnew _ Hin) as [_ Hge]. lia.
  - intros Hsteps. apply Z.ltb_ge in E.
    destruct (tcs_steps body); [done|simpl in E; lia].
Qed.

(** A fourth test case on a new store. *)
Lemma createTestCase_adds_witness :
  let m := constructor (still 0) in
  let created := createTestCase Scenario.login_case m in
  numbered m
  /\ tc_id (fst created) = 4
  /\ map tc_id (JsMap.values (testCases (snd created))) = [1; 2; 3; 4].
Proof.
  intros m created.
  pose proof (reachable_numbered_seed (still 0)) as Hm.
  destruct (createTestCase_adds Scenario.login_case m Hm) as (_ & Hvalues & _).
  split; [exact Hm|]. split; [reflexivity|].
  fold created in Hvalues. rewrite Hvalues. reflexivity.
Defined.

End MemIds.

(** ** Test runs in the in-memory adapter *)

Module MemRunFacts.

Import MemRuns MoreView RunScenario JsMapFacts JsMapMoreFacts.

Lemma whole_seconds_bounds now started :
  1000 * whole_seconds now started <= now - started
  < 1000 * whole_seconds now started + 1000.
Proof.
  unfold whole_seconds.
  pose proof (Z.mul_div_le (now - started) 1000 ltac:(lia)).
  pose proof (Z.mul_succ_div_gt (now - started) 1000 ltac:(lia)). lia.
Qed.

(** X11.  [completeTestRun] on an id without run answers [undefined],
    changes nothing and does not read the clock.  On a stored run it
    reads the clock once, marks the run "completed" at that time and
    sets its duration to the whole seconds elapsed since the start,
    rounded down (towards minus infinity when the clock went back); the
    start time and the other fields stay. *)
Theorem completeTestRun_duration id m :
  match getTestRun id m with
  | None => completeTestRun id m = (None, m)
  | Some run =>
      let now := clock m (ticks m) in
      let completed := completeTestRun id m in
      exists r d,
        fst completed = Some r
        /\ getTestRun id (snd completed) = Some r
        /\ ticks (snd completed) = S (ticks m)
        /\ tr_status r = "completed"
        /\ tr_complete_at r = Some now
        /\ tr_duration r = Some d
        /\ 1000 * d <= now - tr_started_at run < 1000 * d + 1000
        /\ (tr_id r, tr_name r, tr_started_at r, tr_executed_by r)
           = (tr_id run, tr_name run, tr_started_at run, tr_executed_by run)
  end.
Proof.
  unfold getTestRun, completeTestRun.
  destruct (JsMap.get id (testRuns m)) as [run|] eqn:Hget; [|done].
  simpl. do 2 eexists. split; [reflexivity|].
  split; [apply get_set_eq|]. split; [done|]. split; [done|].
  split; [done|]. split; [reflexivity|].
  split; [apply whole_seconds_bounds|done].
Qed.

(** X12.  [completeTestRun] is not idempotent: a second call moves the
    completion time to the later clock reading and recomputes the
    duration from the original start, so on a clock that never goes back
    the duration can only grow. *)
Theorem completeTestRun_twice id m run :
  getTestRun id m = Some run ->
  let first := completeTestRun id m in
  let second := completeTestRun id (snd first) in
  exists r1 r2,
    fst first = Some r1 /\ fst second = Some r2
    /\ tr_complete_at r2 = Some (clock m (S (ticks m)))
    /\ tr_duration r2
       = Some (whole_seconds (clock m (S (ticks m))) (tr_started_at run))
    /\ (monotone (clock m) ->
        forall d1 d2, tr_duration r1 = Some d1 -> tr_duration r2 = Some d2 ->
                      d1 <= d2).
Proof.
  intros Hget first second. subst first second. unfold getTestRun in Hget.
  unfold completeTestRun. rewrite Hget. simpl. rewrite get_set_eq. simpl.
  do 2 eexists. split; [reflexivity|]. split; [reflexivity|].
  split; [done|]. split; [done|].
  intros Hmono d1 d2 [= <-] [= <-]. unfold whole_seconds.
  apply Z.div_le_mono; [lia|].
  specialize (Hmono (ticks m) (S (ticks m)) ltac:(lia)). lia.
Qed.

(** Run 1 completed at 1000 (one second) and again at 2000 (two). *)
Lemma completeTestRun_twice_witness :
  map tr_duration (JsMap.values (testRuns (snd (completeTestRun 1 one_run))))
  = [Some 1]
  /\ map tr_duration
       (JsMap.values
          (testRuns
             (snd (completeTestRun 1 (snd (completeTestRun 1 one_run))))))
     = [Some 2]
  /\ exists r2,
       fst (completeTestRun 1 (snd (completeTestRun 1 one_run))) = Some r2
       /\ tr_complete_at r2 = Some 2000.
Proof.
  split; [reflexivity|]. split; [reflexivity|].
  destruct (completeTestRun_twice 1 one_run
              (mkTestRun 1 "Nightly" None "in_progress" 0 None 1 None)
              eq_refl) as (r1 & r2 & _ & H2 & Hat & _).
  exists r2. split; [exact H2|exact Hat].
Defined.

(** X13.  [getTestRuns] lists every stored run once, latest start
    first. *)
Theorem getTestRuns_latest_first m :
  getTestRuns m ≡ₚ JsMap.values (testRuns m)
  /\ StronglySorted (JsMapMore.desc tr_started_at) (getTestRuns m).
Proof.
  unfold getTestRuns. split; [apply sort_desc_perm|apply sort_desc_sorted].
Qed.

End MemRunFacts.

(** ** Composite writes of the persistent adapter *)

Module SupabaseWrites.

Import Supabase SupabaseMore View SupabaseFacts.

Lemma next_id_bump table table' n w :
  table <> table' -> next_id table' (bump table n w) = next_id table' w.
Proof.
  intros Hne. unfold next_id, bump. simpl. by rewrite lookup_insert_ne.
Qed.

Lemma insert_test_case_full i w row w' :
  insert_test_case i w = (Data row, w') ->
  test_cases w' = test_cases w ++ [row]
  /\ test_steps w' = test_steps w
  /\ next_id "test_steps" w' = next_id "test_steps" w.
Proof.
  unfold insert_test_case. by_oracle w; try done; intros [= <- <-];
    (split; [done|split; [done|]]);
    unfold next_id; simpl; by rewrite lookup_insert_ne.
Qed.

Lemma createTestCase_rows body w tc w1 :
  createTestCase body w = (Returned tc, w1) ->
  test_cases w1 = test_cases w ++ [tc]
  /\ test_steps w1
     = test_steps w
       ++ imap (new_test_step (next_id "test_steps" w))
            (map (fun step =>
                    mkInsertTestStep (tc_id tc) (si_step_number step)
                      (si_description step) (si_expected_result step))
               (tcs_steps body)).
Proof.
  unfold createTestCase.
  destruct (insert_test_case (tcs_case body) w) as [[row|e] w'] eqn:Hins;
    [|done].
  apply insert_test_case_full in Hins as (Hrows & Hsteps & Hnext).
  destruct (0 <? Z.of_nat (length (tcs_steps body))) eqn:E.
  - match goal with |- context [insert_test_steps ?rows w'] =>
      pose proof (insert_test_steps_tables rows w') as (Hc & _ & _);
      destruct (insert_test_steps rows w') as [[u|e] w2] eqn:Hst; [|done]
    end.
    apply Steps.insert_test_steps_ok in Hst. simpl in Hc.
    intros [= <- <-]. by rewrite Hc, Hst, Hrows, Hsteps, Hnext.
  - apply Z.ltb_ge in E.
    assert (tcs_steps body = []) as ->
      by (destruct (tcs_steps body); [done|simpl in E; lia]).
    intros [= <- <-]. simpl. by rewrite app_nil_r.
Qed.

Lemma filter_fresh_step id (l : list TestStep) (new : list TestStep) :
  filter (fun s => step_of id s) l = [] ->
  Forall (fun s => step_of id s) new ->
  filter (fun s => step_of id s) (l ++ new) = new.
Proof.
  intros Hnone Hnew. rewrite filter_app, Hnone. simpl.
  by apply Steps.filter_all.
Qed.

Lemma created_steps_belong id base (steps : list StepInput) :
  Forall (fun s => step_of id s)
    (imap (new_test_step base)
       (map (fun step =>
               mkInsertTestStep id (si_step_number step)
                 (si_description step) (si_expected_result step)) steps)).
Proof.
  apply Forall_lookup. intros i s Hs. rewrite list_lookup_imap in Hs.
  destruct (map _ steps !! i) as [x|] eqn:Hx; [|done].
  simpl in Hs. injection Hs as <-.
  change (map ?f steps) with (f <$> steps) in Hx.
  rewrite list_lookup_fmap in Hx.
  destruct (steps !! i); [|done]. simpl in Hx. injection Hx as <-.
  unfold step_of. simpl. by rewrite Z.eqb_refl.
Qed.

Lemma getTestCase_single id w tc :
  faults w = [] -> rows_of_case id w = [tc] ->
  getTestCase id w = (Returned (Some tc), w).
Proof.
  intros Hf Hrows. unfold getTestCase, select_test_case, request.
  rewrite Hf. fold (rows_of_case id w). by rewrite Hrows.
Qed.

Lemma getTestCase_none id w :
  rows_of_case id w = [] ->
  fst (getTestCase id w) = Returned None
  /\ tables (snd (getTestCase id w)) = tables w.
Proof.
  intros Hrows. unfold getTestCase, select_test_case.
  by_oracle w; fold (rows_of_case id w); by rewrite ?Hrows.
Qed.

Lemma getTestSteps_served id w :
  faults w = [] -> getTestSteps id w = (Returned (steps_of id w), w).
Proof.
  intros Hf. unfold getTestSteps, select_test_steps, request. by rewrite Hf.
Qed.

Lemma rows_of_case_snoc id (l : list TestCase) tc :
  filter (fun c => tc_has_id id c) l = [] -> tc_id tc = id ->
  filter (fun c => tc_has_id id c) (l ++ [tc]) = [tc].
Proof.
  intros Hnone Hid. rewrite filter_app, Hnone, filter_cons, filter_nil.
  rewrite decide_True; [done|].
  unfold tc_has_id. rewrite Hid, Z.eqb_refl. done.
Qed.

(** X14.  Round trip through the persistent adapter: after
    [createTestCase] has answered a test case whose id was free,
    [getTestCaseWithSteps] on a backend that answers gives back that
    test case together with one step per supplied step, in the order
    supplied, each with the step number, description and expected
    result that were supplied (the step numbers are not renumbered). *)
Theorem createTestCase_then_get body w tc w1 :
  createTestCase body w = (Returned tc, w1) ->
  faults w1 = [] ->
  rows_of_case (tc_id tc) w = [] ->
  steps_of (tc_id tc) w = [] ->
  exists steps,
    fst (getTestCaseWithSteps (tc_id tc) w1) = Returned (Some (tc, steps))
    /\ map (fun s => (ts_test_case_id s, ts_step_number s, ts_description s,
                      ts_expected_result s)) steps
       = map (fun s => (tc_id tc, si_step_number s, si_description s,
                        si_expected_result s)) (tcs_steps body).
Proof.
  intros Hcreate Hf Hfresh Hnosteps.
  pose proof (Revert.createTestCase_ok _ _ _ _ Hcreate) as (_ & _ & Hid & _).
  apply createTestCase_rows in Hcreate as [Hrows Hsteps].
  eexists. split.
  - unfold getTestCaseWithSteps.
    rewrite (getTestCase_single _ _ tc Hf).
    + rewrite (getTestSteps_served _ _ Hf). unfold steps_of.
      unfold steps_of in Hnosteps. rewrite Hsteps.
      rewrite (filter_fresh_step _ _ _ Hnosteps (created_steps_belong _ _ _)).
      reflexivity.
    + unfold rows_of_case in *. rewrite Hrows.
      by apply rows_of_case_snoc.
  - change (map ?f ?l) with (f <$> l).
    apply list_eq. intros i.
    rewrite !list_lookup_fmap, list_lookup_imap.
    change (map ?f ?l) with (f <$> l). rewrite list_lookup_fmap.
    by destruct (tcs_steps body !! i).
Qed.

(** "Login" read back from the store it was created on. *)
Lemma createTestCase_then_get_witness :
  exists steps,
    fst (getTestCaseWithSteps 1 Scenario.login_store)
    = Returned (Some (Scenario.login_row, steps))
    /\ map (fun s => (ts_test_case_id s, ts_step_number s, ts_description s,
                      ts_expected_result s)) steps
       = [(1, 1, "open page", None); (1, 2, "submit creds", None)].
Proof.
  exact (createTestCase_then_get Scenario.login_case (empty 1000)
           Scenario.login_row Scenario.login_store eq_refl eq_refl eq_refl
           eq_refl).
Defined.

(** X15.  [createTestCase] does not undo its first write: when the
    backend serves the insert of the test case and refuses the insert of
    the steps, the call throws, and the test case row is in the store,
    without steps. *)
Theorem createTestCase_keeps_row_on_failure body w fs :
  tcs_steps body <> [] ->
  faults w = false :: true :: fs ->
  let failed := createTestCase body w in
  fst failed = Thrown BackendUnavailable
  /\ test_cases (snd failed)
     = test_cases w ++ [new_test_case (tcs_case body) w]
  /\ test_steps (snd failed) = test_steps w.
Proof.
  intros Hsteps Hf failed. subst failed.
  unfold createTestCase, insert_test_case, insert_test_steps, request.
  rewrite Hf. simpl.
  destruct (0 <? Z.of_nat (length (tcs_steps body))) eqn:E; [done|].
  apply Z.ltb_ge in E. destruct (tcs_steps body); [done|simpl in E; lia].
Qed.

Lemma createTestCase_keeps_row_on_failure_witness :
  let failed :=
    createTestCase Scenario.login_case
      (with_faults [false; true] (empty 1000)) in
  fst failed = Thrown BackendUnavailable
  /\ test_cases (snd failed) = [Scenario.login_row]
  /\ test_steps (snd failed) = [].
Proof.
  assert (tcs_steps Scenario.login_case <> []) as Hsteps by discriminate.
  exact (createTestCase_keeps_row_on_failure Scenario.login_case
           (with_faults [false; true] (empty 1000)) [] Hsteps eq_refl).
Defined.

(** X16.  [updateTestCase] on an id that no row has answers [undefined]
    and writes nothing, with or without steps, whatever the backend
    does: the steps argument is not looked at before the row has been
    updated. *)
Theorem updateTestCase_missing id data steps w :
  rows_of_case id w = [] ->
  fst (updateTestCase id data steps w) = Returned None
  /\ tables (snd (updateTestCase id data steps w)) = tables w.
Proof.
  intros Hrows. unfold updateTestCase, update_test_case.
  by_oracle w; fold (rows_of_case id w); by rewrite ?Hrows.
Qed.

(** No test case 7 in the "Login" store. *)
Lemma updateTestCase_missing_witness :
  fst (updateTestCase 7 (Scenario.retitle "x") (Some Scenario.open_page_only)
         Scenario.login_store) = Returned None
  /\ tables
       (snd (updateTestCase 7 (Scenario.retitle "x")
               (Some Scenario.open_page_only) Scenario.login_store))
     = tables Scenario.login_store.
Proof.
  exact (updateTestCase_missing 7 (Scenario.retitle "x")
           (Some Scenario.open_page_only) Scenario.login_store eq_refl).
Defined.

Lemma rows_after_patch id data (l : list TestCase) :
  filter (fun c => tc_has_id id c)
    (map (fun tc => if tc_has_id id tc then apply_patch data tc else tc) l)
  = map (apply_patch data) (filter (fun c => tc_has_id id c) l).
Proof.
  induction l as [|tc l IH]; [done|]. simpl. rewrite !filter_cons.
  assert (tc_has_id id (if tc_has_id id tc then apply_patch data tc else tc)
          = tc_has_id id tc) as Hid
    by (destruct (tc_has_id id tc) eqn:E; exact E).
  destruct (decide (tc_has_id id
              (if tc_has_id id tc then apply_patch data tc else tc)))
    as [H1|H1], (decide (tc_has_id id tc)) as [H2|H2]; simpl.
  - rewrite IH. by destruct (tc_has_id id tc).
  - rewrite Hid in H1. contradiction.
  - rewrite Hid in H1. contradiction.
  - exact IH.
Qed.

(** X17.  An [undefined] from [updateTestCase] does not mean that
    nothing was written: when the backend serves the update of the row
    and the deletion of the steps and refuses the insert of the new
    steps, the call answers [undefined], the row is patched and the test
    case is left without steps. *)
Theorem updateTestCase_partial id data steps w old fs :
  rows_of_case id w = [old] ->
  faults w = false :: false :: true :: fs ->
  let failed := updateTestCase id data (Some steps) w in
  fst failed = Returned None
  /\ rows_of_case id (snd failed) = [apply_patch data old]
  /\ steps_of id (snd failed) = [].
Proof.
  intros Hrows Hf failed. subst failed.
  unfold updateTestCase, update_test_case, delete_test_steps,
    insert_test_steps, request.
  rewrite Hf. simpl. fold (rows_of_case id w). rewrite Hrows. simpl.
  split; [done|]. unfold rows_of_case, steps_of. simpl. split.
  - rewrite rows_after_patch. unfold rows_of_case in Hrows.
    by rewrite Hrows.
  - apply Steps.steps_of_others_removed.
Qed.

Lemma updateTestCase_partial_witness :
  let failed :=
    updateTestCase 1 (Scenario.retitle "Sign in")
      (Some Scenario.open_page_only)
      (with_faults [false; false; true] Scenario.login_store) in
  fst failed = Returned None
  /\ rows_of_case 1 (snd failed) = [Scenario.renamed_login]
  /\ steps_of 1 (snd failed) = [].
Proof.
  exact (updateTestCase_partial 1 (Scenario.retitle "Sign in")
           Scenario.open_page_only
           (with_faults [false; false; true] Scenario.login_store)
           Scenario.login_row [] eq_refl eq_refl).
Defined.

End SupabaseWrites.


(** ** Deletes, results and snapshots in the persistent adapter *)

Module SupabaseDeletes.

Import Supabase SupabaseMore View SupabaseFacts.

Lemma filter_negb_twice {A} (f : A -> bool) (l : list A) :
  filter (fun x => negb (f x)) (filter (fun x => negb (f x)) l)
  = filter (fun x => negb (f x)) l.
Proof.
  apply Steps.filter_all, Forall_forall. intros x Hx.
  by apply list_elem_of_filter in Hx as [Hx _].
Qed.

Lemma filter_negb_none {A} (f : A -> bool) (l : list A) :
  filter (fun x => f x) l = [] -> filter (fun x => negb (f x)) l = l.
Proof.
  intros Hnone. apply Steps.filter_all, Forall_forall. intros x Hx.
  destruct (f x) eqn:E; [|done].
  assert (x ∈ filter (fun x => f x) l) as Hin
    by (apply list_elem_of_filter; split; [by rewrite E|done]).
  rewrite Hnone in Hin. by apply elem_of_nil in Hin.
Qed.

Lemma with_same_tables w :
  with_test_cases (test_cases w) (with_test_steps (test_steps w) w) = w.
Proof. by destruct w. Qed.

(** X18.  On a backend that answers, [deleteTestCase] answers [true]
    whether or not the id names a row: a second call after the first
    answers [true] again and changes nothing, and a call for an id with
    neither row nor steps leaves the store as it is. *)
Theorem deleteTestCase_again id w :
  faults w = [] ->
  let first := deleteTestCase id w in
  fst first = Returned true
  /\ deleteTestCase id (snd first) = (Returned true, snd first)
  /\ (rows_of_case id w = [] -> steps_of id w = [] -> snd first = w).
Proof.
  intros Hf first. subst first.
  unfold deleteTestCase, delete_test_steps, delete_test_case, request.
  rewrite Hf. simpl. rewrite Hf. simpl. rewrite Hf. simpl.
  split; [done|]. split.
  - rewrite Hf. simpl. unfold step_of, tc_has_id.
    by rewrite !filter_negb_twice.
  - unfold rows_of_case, steps_of. intros Hrows Hsteps.
    rewrite (filter_negb_none _ _ Hrows), (filter_negb_none _ _ Hsteps).
    apply with_same_tables.
Qed.

Lemma deleteTestCase_again_witness :
  fst (deleteTestCase 1 Scenario.login_store) = Returned true
  /\ fst (deleteTestCase 1 (snd (deleteTestCase 1 Scenario.login_store)))
     = Returned true
  /\ fst (deleteTestCase 7 Scenario.login_store) = Returned true.
Proof.
  destruct (deleteTestCase_again 1 Scenario.login_store eq_refl)
    as (H1 & H2 & _).
  destruct (deleteTestCase_again 7 Scenario.login_store eq_refl)
    as (H7 & _ & _).
  split; [exact H1|]. split; [by rewrite H2|exact H7].
Defined.

(** X19.  [deleteTestCase] does not undo the deletion of the steps: when
    the backend serves that deletion and refuses the deletion of the
    row, the call answers [false], the rows of [test_cases] are all
    there and the test case has lost its steps. *)
Theorem deleteTestCase_partial id w fs :
  faults w = false :: true :: fs ->
  let failed := deleteTestCase id w in
  fst failed = Returned false
  /\ test_cases (snd failed) = test_cases w
  /\ steps_of id (snd failed) = [].
Proof.
  intros Hf failed. subst failed.
  unfold deleteTestCase, delete_test_steps, delete_test_case, request.
  rewrite Hf. simpl. split; [done|]. split; [done|].
  apply Steps.steps_of_others_removed.
Qed.

Lemma deleteTestCase_partial_witness :
  let failed :=
    deleteTestCase 1 (with_faults [false; true] Scenario.login_store) in
  fst failed = Returned false
  /\ test_cases (snd failed) = [Scenario.login_row]
  /\ steps_of 1 (snd failed) = [].
Proof.
  exact (deleteTestCase_partial 1
           (with_faults [false; true] Scenario.login_store) [] eq_refl).
Defined.

(** X20.  The persistent [removeTestCaseFromFolder] answers [true]
    exactly when the backend serves the request, whether or not a row
    matched: served, no row of the pair is left and the rows of the other
    pairs stay, in their order; refused, it answers [false] and the table
    is as it was. *)
Theorem removeTestCaseFromFolder_served tc f w :
  let removed := removeTestCaseFromFolder tc f w in
  match faults w with
  | true :: _ =>
      fst removed = Returned false
      /\ test_case_folders (snd removed) = test_case_folders w
  | _ =>
      fst removed = Returned true
      /\ filter (fun r => is_pair tc f r) (test_case_folders (snd removed))
         = []
      /\ filter (fun r => negb (is_pair tc f r))
           (test_case_folders (snd removed))
         = filter (fun r => negb (is_pair tc f r)) (test_case_folders w)
  end.
Proof.
  intros removed. subst removed.
  unfold removeTestCaseFromFolder, delete_test_case_folder.
  by_oracle w; try done; (split; [done|]); (split;
    [ apply Steps.filter_none, Forall_forall; intros r Hr;
      apply list_elem_of_filter in Hr as [Hr _];
      destruct (is_pair tc f r); simpl in *; tauto
    | apply filter_negb_twice ]).
Qed.

(** X21.  The two failures of the persistent [createTestRunResult].
    When the insert of the result is refused the call throws and nothing
    is written.  When the insert is served and the status update is
    refused the call answers the inserted result as if all were well:
    the result is in the store and the test cases are as they were, the
    status included. *)
Theorem createTestRunResult_failures result w fs :
  (faults w = true :: fs ->
   fst (createTestRunResult result w) = Thrown BackendUnavailable
   /\ tables (snd (createTestRunResult result w)) = tables w)
  /\ (faults w = false :: true :: fs ->
      fst (createTestRunResult result w)
      = Returned (new_test_run_result result w)
      /\ test_run_results (snd (createTestRunResult result w))
         = test_run_results w ++ [new_test_run_result result w]
      /\ test_cases (snd (createTestRunResult result w)) = test_cases w).
Proof.
  unfold createTestRunResult, insert_test_run_result, updateTestCaseStatus,
    update_test_case_status_row, request.
  split; intros Hf; rewrite Hf; simpl; by repeat split.
Qed.

(** "failed" recorded for "Login" with the status update refused: the
    status stays "pending". *)
Lemma createTestRunResult_failures_witness :
  let w := with_faults [false; true] Scenario.login_store in
  is_returned (fst (createTestRunResult Scenario.failed_run w)) = true
  /\ map tc_status (test_cases (snd (createTestRunResult Scenario.failed_run w)))
     = ["pending"]
  /\ fst (createTestRunResult Scenario.failed_run
            (with_faults [true] Scenario.login_store))
     = Thrown BackendUnavailable.
Proof.
  intros w.
  destruct (createTestRunResult_failures Scenario.failed_run w [])
    as [_ Hstale].
  destruct (Hstale eq_refl) as (Hr & _ & Hcases).
  destruct (createTestRunResult_failures Scenario.failed_run
              (with_faults [true] Scenario.login_store) []) as [Hthrow _].
  split; [by rewrite Hr|]. split; [by rewrite Hcases|].
  exact (proj1 (Hthrow eq_refl)).
Defined.

(** X22.  Round trip of a snapshot: after [createTestVersion] has
    answered a row, [getTestVersions] of its test case on a backend that
    answers gives the snapshots there were followed by that row, which
    carries the version number, data and author that were passed in. *)
Theorem createTestVersion_then_get version w row w1 :
  createTestVersion version w = (Returned row, w1) ->
  faults w1 = [] ->
  fst (getTestVersions (itv_test_case_id version) w1)
  = Returned (snapshots_of (itv_test_case_id version) w ++ [row])
  /\ (tv_test_case_id row, tv_version row, tv_data row, tv_created_by row)
     = (itv_test_case_id version, itv_version version, itv_data version,
        itv_created_by version).
Proof.
  unfold createTestVersion, insert_test_version.
  by_oracle w; try done; intros [= <- <-] Hf; simpl in Hf;
    unfold getTestVersions, select_test_versions, request; simpl;
    rewrite ?Hf; simpl; unfold snapshots_of;
    rewrite filter_app, filter_cons, filter_nil;
    (rewrite decide_True
       by (unfold version_of; simpl; by rewrite Z.eqb_refl));
    done.
Qed.

Lemma createTestVersion_then_get_witness :
  let version :=
    mkInsertTestVersion 1 4 Scenario.login_row 1 (Some "revert") in
  exists row,
    fst (getTestVersions 1
           (snd (createTestVersion version Scenario.history_store)))
    = Returned [Scenario.snapshot_2; Scenario.snapshot_3; row]
    /\ (tv_test_case_id row, tv_version row, tv_data row, tv_created_by row)
       = (1, 4, Scenario.login_row, 1).
Proof.
  intros version. eexists.
  exact (createTestVersion_then_get version Scenario.history_store _ _
           eq_refl eq_refl).
Defined.

End SupabaseDeletes.

(** ** The handlers of the test case routes *)

Module HandlerFacts.

Import Supabase SupabaseMore View SupabaseFacts Handlers SupabaseWrites.

Lemma rows_removed id (l : list TestCase) :
  filter (fun c => tc_has_id id c) (filter (fun c => negb (tc_has_id id c)) l)
  = [].
Proof.
  apply Steps.filter_none, Forall_forall. intros c Hc.
  apply list_elem_of_filter in Hc as [Hc _].
  destruct (tc_has_id id c); simpl in *; tauto.
Qed.

(** X23.  [DELETE /api/testcases/:id].  For an id that no row has the
    handler answers 404 and writes nothing.  For a stored test case, on
    a backend that answers, it deletes the steps and the row; it then
    answers 200 when a user is logged in, and 500 "Failed to delete test
    case" when none is, although the test case is gone. *)
Theorem delete_testcase_replies currentUser id w :
  (rows_of_case id w = [] ->
   fst (delete_testcase currentUser id w)
   = mkReply 404 (Text "Test case not found")
   /\ tables (snd (delete_testcase currentUser id w)) = tables w)
  /\ (forall tc,
        faults w = [] -> rows_of_case id w = [tc] ->
        rows_of_case id (snd (delete_testcase currentUser id w)) = []
        /\ steps_of id (snd (delete_testcase currentUser id w)) = []
        /\ fst (delete_testcase currentUser id w)
           = match currentUser with
             | Some _ => mkReply 200 (Text "Test case deleted successfully")
             | None => mkReply 500 (Text "Failed to delete test case")
             end).
Proof.
  split.
  - intros Hrows. unfold delete_testcase.
    destruct (getTestCase_none id w Hrows) as [Hr Ht].
    destruct (getTestCase id w) as [o w1]. simpl in Hr, Ht. by subst o.
  - intros tc Hf Hrows. unfold delete_testcase.
    rewrite (getTestCase_single id w tc Hf Hrows).
    unfold deleteTestCase, delete_test_steps, delete_test_case, request.
    rewrite Hf. simpl. rewrite Hf. simpl.
    destruct currentUser as [user|]; simpl.
    + unfold Routes.not_awaited, logActivity, insert_activity_log, request.
      simpl. rewrite Hf. simpl. unfold rows_of_case, steps_of. simpl.
      split; [apply rows_removed|].
      split; [apply Steps.steps_of_others_removed|done].
    + unfold rows_of_case, steps_of. simpl.
      split; [apply rows_removed|].
      split; [apply Steps.steps_of_others_removed|done].
Qed.

(** "Login" deleted by nobody: the answer is 500 and the row is gone. *)
Lemma delete_testcase_replies_witness :
  fst (delete_testcase None 1 Scenario.login_store)
  = mkReply 500 (Text "Failed to delete test case")
  /\ test_cases (snd (delete_testcase None 1 Scenario.login_store)) = []
  /\ fst (delete_testcase None 7 Scenario.login_store)
     = mkReply 404 (Text "Test case not found").
Proof.
  destruct (delete_testcase_replies None 1 Scenario.login_store)
    as [_ Hstored].
  destruct (Hstored Scenario.login_row eq_refl eq_refl) as (_ & _ & Hreply).
  destruct (delete_testcase_replies None 7 Scenario.login_store)
    as [Hmissing _].
  split; [exact Hreply|]. split; [reflexivity|].
  exact (proj1 (Hmissing eq_refl)).
Defined.

Lemma updateTestCase_some id data steps w upd w' :
  updateTestCase id data steps w = (Returned (Some upd), w') ->
  exists old, upd = apply_patch data old /\ rows_of_case id w' = [upd].
Proof.
  unfold updateTestCase.
  destruct (update_test_case id data w) as [[u|e] w1] eqn:Hupd; [|done].
  assert (exists old, u = apply_patch data old /\ rows_of_case id w1 = [u])
    as (old & Hu & Hrows).
  { revert Hupd. unfold update_test_case.
    by_oracle w; try done;
      (destruct (filter (fun tc => tc_has_id id tc) (test_cases w))
         as [|old [|]] eqn:Hold; simpl; try done);
      intros [= <- <-]; exists old; (split; [done|]);
      unfold rows_of_case; simpl; by rewrite rows_after_patch, Hold. }
  destruct steps as [steps|]; [|by intros [= <- <-]; exists old].
  destruct (delete_test_steps_tables id w1) as (Hc & _ & _).
  destruct (delete_test_steps id w1) as [[u1|e] w2]; [|done].
  match goal with |- context [insert_test_steps ?rows w2] =>
    destruct (insert_test_steps_tables rows w2) as (Hc' & _ & _);
    destruct (insert_test_steps rows w2) as [[u2|e] w3]; [|done]
  end.
  simpl in Hc, Hc'. intros [= <- <-]. exists old. split; [done|].
  unfold rows_of_case in *. by rewrite Hc', Hc.
Qed.

(** X24.  [PUT /api/testcases/:id] hands the test case over to the
    updater: whenever the handler answers 200 with a test case, that
    test case, as answered and as stored, has the logged-in user as
    [created_by], whatever [created_by] the request carried and whoever
    had created it.  Without a logged-in user the handler answers 400 or
    404 and writes nothing. *)
Theorem put_testcase_takes_over user id data steps w :
  (forall tc,
     fst (put_testcase (Some user) id data steps w)
     = mkReply 200 (CaseBody (Some tc)) ->
     tc_created_by tc = u_id user
     /\ map tc_created_by
          (rows_of_case id (snd (put_testcase (Some user) id data steps w)))
        = [u_id user])
  /\ (code (fst (put_testcase None id data steps w)) = 400
      \/ code (fst (put_testcase None id data steps w)) = 404)
  /\ tables (snd (put_testcase None id data steps w)) = tables w.
Proof.
  split; [|split].
  - intros tc. unfold put_testcase.
    destruct (getTestCase id w) as [[[old|]|e] w1]; try done.
    destruct (updateTestCase id (with_updater (u_id user) data) steps w1)
      as [[[upd|]|e] w2] eqn:Hupd; try done.
    apply updateTestCase_some in Hupd as (old' & -> & Hrows).
    simpl. intros [= <-]. split; [done|].
    unfold Routes.not_awaited.
    match goal with |- context [logActivity ?l w2] =>
      pose proof (Logging.logActivity_appends l w2) as Hlog;
      destruct (logActivity l w2) as [[row|e] w3]
    end; simpl; destruct Hlog as (_ & Hc & _);
      unfold rows_of_case in *; by rewrite Hc, Hrows.
  - unfold put_testcase.
    destruct (getTestCase id w) as [[[old|]|e] w1]; simpl; auto.
  - unfold put_testcase, getTestCase, select_test_case.
    by_oracle w; try done; by destruct (single _).
Qed.

(** "Login", created by user 1, retitled by user 5. *)
Lemma put_testcase_takes_over_witness :
  let editor := mkUser 5 "eve" "eve@example.com" "secret" "Eve" None "tester"
                  None true in
  exists tc,
    fst (put_testcase (Some editor) 1 (Scenario.retitle "Sign in") None
           Scenario.login_store) = mkReply 200 (CaseBody (Some tc))
    /\ tc_created_by Scenario.login_row = 1
    /\ tc_created_by tc = 5.
Proof.
  intros editor. eexists. split; [reflexivity|]. split; [reflexivity|].
  exact (proj1 (proj1 (put_testcase_takes_over editor 1
                         (Scenario.retitle "Sign in") None
                         Scenario.login_store) _ eq_refl)).
Defined.

Lemma getFolder_tables id w :
  tables (snd (getFolder id w)) = tables w.
Proof.
  unfold getFolder, select_folder. by_oracle w; try done;
    by destruct (single _).
Qed.

Lemma getTestCase_tables id w :
  tables (snd (getTestCase id w)) = tables w.
Proof.
  unfold getTestCase, select_test_case. by_oracle w; try done;
    by destruct (single _).
Qed.

Lemma logActivity_folder_rows log w :
  test_case_folders (snd (logActivity log w)) = test_case_folders w.
Proof. unfold logActivity, insert_activity_log. by_oracle w; done. Qed.

(** X25.  [POST /api/testcases/:id/folders] assigns nothing.  Whatever
    the request and the backend, the handler answers 404 or 400, never
    201, and [test_case_folders] is as it was.  With the test case and
    the folder stored, a user logged in and a backend that answers, it
    answers 400 "Failed to assign test case to folder" after having
    logged an "assign_test_case_to_folder" activity. *)
Theorem post_testcase_folder_never_assigns currentUser id folderId w :
  (code (fst (post_testcase_folder currentUser id folderId w)) = 400
   \/ code (fst (post_testcase_folder currentUser id folderId w)) = 404)
  /\ test_case_folders (snd (post_testcase_folder currentUser id folderId w))
     = test_case_folders w
  /\ (forall tc user,
        faults w = [] -> rows_of_case id w = [tc] ->
        is_Some (Adapters.lookup_folder folderId w) ->
        currentUser = Some user ->
        fst (post_testcase_folder currentUser id folderId w)
        = mkReply 400 (Text "Failed to assign test case to folder")
        /\ map al_action
             (activity_logs
                (snd (post_testcase_folder currentUser id folderId w)))
           = map al_action (activity_logs w)
             ++ ["assign_test_case_to_folder"]).
Proof.
  split; [|split].
  - unfold post_testcase_folder.
    destruct (getTestCase id w) as [[[tc|]|e] w1]; simpl; auto.
    destruct (getFolder folderId w1) as [[[folder|]|e] w2]; simpl; auto.
    destruct currentUser; simpl; auto.
  - unfold post_testcase_folder.
    pose proof (getTestCase_tables id w) as H1.
    destruct (getTestCase id w) as [[[tc|]|e] w1]; simpl in *;
      try (by injection H1).
    pose proof (getFolder_tables folderId w1) as H2.
    assert (test_case_folders w1 = test_case_folders w) as <-
      by (by injection H1).
    destruct (getFolder folderId w1) as [[[folder|]|e] w2]; simpl in *;
      try (by injection H2).
    assert (test_case_folders w2 = test_case_folders w1) as <-
      by (by injection H2).
    destruct currentUser; simpl; [|done].
    apply logActivity_folder_rows.
  - intros tc user Hf Hrows [folder Hfolder] ->.
    unfold post_testcase_folder.
    rewrite (getTestCase_single id w tc Hf Hrows).
    unfold getFolder, select_folder, request. rewrite Hf.
    unfold Adapters.lookup_folder in Hfolder.
    destruct (single _) as [folder'|]; [|done]. simpl.
    unfold Routes.not_awaited, logActivity, insert_activity_log, request.
    rewrite Hf. simpl. split; [done|]. by rewrite map_app.
Qed.

(** Eve assigns "Login" to the folder "Regression Tests". *)
Lemma post_testcase_folder_never_assigns_witness :
  fst (post_testcase_folder (Some HandlerScenario.eve) 1 1
         HandlerScenario.folder_store)
  = mkReply 400 (Text "Failed to assign test case to folder")
  /\ map al_action
       (activity_logs
          (snd (post_testcase_folder (Some HandlerScenario.eve) 1 1
                  HandlerScenario.folder_store)))
     = ["assign_test_case_to_folder"]
  /\ test_case_folders
       (snd (post_testcase_folder (Some HandlerScenario.eve) 1 1
               HandlerScenario.folder_store)) = [].
Proof.
  destruct (post_testcase_folder_never_assigns (Some HandlerScenario.eve) 1 1
              HandlerScenario.folder_store) as (_ & Hrows & Hlog).
  destruct (Hlog Scenario.login_row HandlerScenario.eve eq_refl eq_refl
              (ex_intro _ HandlerScenario.regression eq_refl) eq_refl)
    as [Hreply Hactions].
  split; [exact Hreply|]. split; [exact Hactions|exact Hrows].
Defined.

(** X26.  [POST /api/testcases/:id/revert] for a stored test case
    without snapshot, on a backend that answers: whatever version is
    asked for and whoever asks, the handler answers 500 "Failed to revert
    test case to specified version" and writes nothing. *)
Theorem post_revert_without_snapshot
    (row_update :
       option TestVersion -> Z -> list TestCase -> Response (list TestCase))
    currentUser id version w tc :
  faults w = [] ->
  rows_of_case id w = [tc] ->
  snapshots_of id w = [] ->
  fst (post_revert row_update currentUser id version w)
  = mkReply 500 (Text "Failed to revert test case to specified version")
  /\ tables (snd (post_revert row_update currentUser id version w))
     = tables w.
Proof.
  intros Hf Hrows Hnone. unfold post_revert.
  rewrite (getTestCase_single id w tc Hf Hrows).
  destruct (Revert.revertToVersion_no_snapshot row_update id version w Hnone)
    as [Hr Ht].
  destruct (revertToVersion row_update id version w) as [o w2].
  simpl in Hr, Ht. by subst o.
Qed.

Lemma post_revert_without_snapshot_witness :
  fst (post_revert Scenario.restoring_store (Some HandlerScenario.eve) 1 1
         Scenario.login_store)
  = mkReply 500 (Text "Failed to revert test case to specified version").
Proof.
  exact (proj1 (post_revert_without_snapshot Scenario.restoring_store
                  (Some HandlerScenario.eve) 1 1 Scenario.login_store
                  Scenario.login_row eq_refl eq_refl eq_refl)).
Defined.

End HandlerFacts.

(** ** Examples for the in-memory properties *)

Module MemExamples.

Import Mem MemView MemMore.

(** Folder 2 of a new store renamed; folder 1 is read as before. *)
Lemma updateFolder_merges_witness :
  let m := constructor (still 0) in
  let data := mkFolderPatch (Some "Sanity") None None in
  f_name <$> getFolder 2 (snd (updateFolder 2 data m)) = Some "Sanity"
  /\ getFolder 1 (snd (updateFolder 2 data m)) = getFolder 1 m
  /\ updateFolder 9 data m = (None, m).
Proof.
  intros m data.
  assert (getFolder 2 m
          = Some (mkFolder 2 "Smoke Tests" (Some "Quick smoke tests")
                    (Some 1) 0)) as H2 by (vm_compute; reflexivity).
  assert (getFolder 9 m = None) as H9 by (vm_compute; reflexivity).
  pose proof (MemUsersFolders.updateFolder_merges 2 data m) as Hstored.
  pose proof (MemUsersFolders.updateFolder_merges 9 data m) as Hmissing.
  rewrite H2 in Hstored. rewrite H9 in Hmissing.
  destruct Hstored as (_ & Hget & _ & _ & _ & Hother).
  split; [by rewrite Hget|]. split; [|exact Hmissing].
  apply Hother. discriminate.
Defined.

(** Test case 7 assigned to folder 3 and removed, next to test case 8. *)
Lemma assign_then_remove_witness :
  let m := snd (assignTestCaseToFolder 8 3 (blank (still 0))) in
  let after :=
    snd (removeTestCaseFromFolder 7 3 (snd (assignTestCaseToFolder 7 3 m))) in
  (7, 3) <> (8, 3) /\ (assigned 8 3 after <-> assigned 8 3 m)
  /\ ~ assigned 7 3 after.
Proof.
  intros m after.
  destruct (MemUsersFolders.assign_then_remove 7 3 m)
    as (_ & Hgone & Hothers & _).
  assert ((8, 3) <> (7, 3)) as Hne by discriminate.
  split; [discriminate|]. split; [exact (Hothers 8 3 Hne)|exact Hgone].
Defined.

(** A result for test case 1 and run 1 on a store that holds neither. *)
Lemma createTestRunResult_records_witness :
  let m := blank (still 0) in
  let recorded := createTestRunResult Scenario.failed_run m in
  JsMap.get 1 (testCases m) = None
  /\ testCases (snd recorded) = []
  /\ getTestRunResults 1 (snd recorded) = [fst recorded].
Proof.
  intros m recorded.
  destruct (MemLists.createTestRunResult_records Scenario.failed_run m)
    as (Hrun & _ & _ & _ & Hcases).
  split; [reflexivity|]. split; [exact (Hcases eq_refl)|exact Hrun].
Defined.

End MemExamples.
